(** * A shallow embedding of [agent.py]

    [agent.py] asks a remote completion endpoint for the source of a PDF
    parser, checks the answer with [compile], stores it, runs the test
    suite and retries with feedback.  This file embeds the functions of
    [agent.py] as Rocq definitions and proves properties of them.

    Conventions of the embedding:
    - a Python [str] is a list of Unicode code points ([text]);
    - a filesystem path is a [string]; the disk is a finite map from paths
      to file contents;
    - everything outside the process (environment, fixture files, the
      completion endpoint, [compile], the [pytest] subprocess, the generated
      module when it is loaded) is a field of the record [world];
    - [main] runs in a small state monad that threads the disk and the log
      of the external operations performed, and stops early on [sys.exit]
      or on an uncaught exception. *)

From Stdlib Require Import ZArith NArith Ascii String List Bool Lia.
From stdpp Require Import base gmap strings list sorting.

Import ListNotations.
Local Open Scope Z_scope.

(** ** Text *)

Module Text.

(** A Python string: the sequence of its code points. *)
Definition text := list N.

(** A literal of the source, written as a Rocq string. *)
Fixpoint lit (s : string) : text :=
  match s with
  | EmptyString => []
  | String c r => N_of_ascii c :: lit r
  end.

(** The characters [str.strip()] removes when called without argument:
    the code points for which CPython's [_PyUnicode_IsWhitespace] holds. *)
Definition py_isspace (c : N) : bool :=
  ((9 <=? c) && (c <=? 13) || (28 <=? c) && (c <=? 32)
   || (c =? 133) || (c =? 160) || (c =? 5760)
   || (8192 <=? c) && (c <=? 8202)
   || (c =? 8232) || (c =? 8233) || (c =? 8239) || (c =? 8287)
   || (c =? 12288))%N.

Fixpoint lstrip (t : text) : text :=
  match t with
  | [] => []
  | c :: r => if py_isspace c then lstrip r else t
  end.

(** Right strip, from the end of the string: a character is dropped when
    it is white and everything after it has been dropped. *)
Fixpoint rstrip (t : text) : text :=
  match t with
  | [] => []
  | c :: r =>
      match rstrip r with
      | [] => if py_isspace c then [] else [c]
      | r' => c :: r'
      end
  end.

(** [text.strip()] *)
Definition strip (t : text) : text := rstrip (lstrip t).

Fixpoint starts_with (p t : text) : bool :=
  match p, t with
  | [], _ => true
  | _ :: _, [] => false
  | a :: p', b :: t' => (a =? b)%N && starts_with p' t'
  end.

(** [re.findall(p, text)] for a pattern [p] that is a non-empty sequence
    of literal characters and has no group: the non-overlapping
    occurrences of [p], scanning from the left.  [skip] counts the
    characters of the last match that are still to be passed. *)
Fixpoint findall_from (p : text) (skip : nat) (t : text) : list text :=
  match t with
  | [] => []
  | _ :: r =>
      match skip with
      | S k => findall_from p k r
      | O =>
          if starts_with p t
          then p :: findall_from p (Nat.pred (length p)) r
          else findall_from p O r
      end
  end.

Definition findall_literal (p t : text) : list text := findall_from p O t.

End Text.
Export Text.

(** ** The code sanitizer *)

(** The pattern of line 71, [r"``````"]: six grave accents (code point 96).
    None of them is a regex metacharacter and the pattern has no group, so
    [re.findall] returns the matched substrings themselves; the flags
    [DOTALL] and [IGNORECASE] change nothing for this pattern. *)
Definition fence_pattern : text := lit "``````".

Definition strip_code_fences (t : text) : text :=
  let code_blocks := findall_literal fence_pattern t in
  match code_blocks with
  | b :: _ => strip b
  | [] => strip t
  end.

(** ** The table preview *)

Module Preview.

(** A cell of a table returned by pdfplumber: [None] or a [str]. *)
Definition cell := option text.
Definition table := list (list cell).

(** What the controller reads of a page: the result of [extract_tables()]
    and of [extract_text()]. *)
Record page := { extract_tables : list table; extract_text : option text }.

(** [pdf.pages] *)
Definition pdf := list page.

(** Truth value of a cell: [None] and the empty string are false. *)
Definition truthy (c : cell) : bool :=
  match c with
  | Some (_ :: _) => true
  | _ => false
  end.

(** [cell if cell else ""] *)
Definition clean_cell (c : cell) : cell := if truthy c then c else Some [].

(** [cell.strip()], as a truth value (called on cleaned cells only). *)
Definition cell_nonblank (c : cell) : bool :=
  match c with
  | Some s => match strip s with [] => false | _ :: _ => true end
  | None => false
  end.

(** A loop body either falls through to the next iteration with the rows
    gathered so far, or executes [return preview_rows]. *)
Inductive flow := Next (rows : list (list cell)) | Return (rows : list (list cell)).

Definition rows_of (f : flow) : list (list cell) :=
  match f with Next r | Return r => r end.

(** Lines 61-66: [for row in table]. [limit] is
    [samples_per_section * len(candidate_pages)]. *)
Fixpoint scan_rows (limit : Z) (tbl : table) (preview_rows : list (list cell)) : flow :=
  match tbl with
  | [] => Next preview_rows
  | row :: rest =>
      let clean_row := map clean_cell row in
      if existsb cell_nonblank clean_row then
        let preview_rows := preview_rows ++ [clean_row] in
        if limit <=? Z.of_nat (length preview_rows)
        then Return preview_rows
        else scan_rows limit rest preview_rows
      else scan_rows limit rest preview_rows
  end.

(** Line 60: [for table in tables]. *)
Fixpoint scan_tables (limit : Z) (tables : list table) (preview_rows : list (list cell)) : flow :=
  match tables with
  | [] => Next preview_rows
  | tbl :: rest =>
      match scan_rows limit tbl preview_rows with
      | Return r => Return r
      | Next r => scan_tables limit rest r
      end
  end.

(** Lines 54-59: [for page_idx in sorted(candidate_pages)]. *)
Fixpoint scan_pages (limit : Z) (doc : pdf) (idxs : list Z) (preview_rows : list (list cell)) : flow :=
  match idxs with
  | [] => Next preview_rows
  | page_idx :: rest =>
      let total_pages := Z.of_nat (length doc) in
      if (page_idx <? 0) || (total_pages <=? page_idx)
      then scan_pages limit doc rest preview_rows
      else
        match doc !! Z.to_nat page_idx with
        | None => scan_pages limit doc rest preview_rows
        | Some pg =>
            match extract_tables pg with
            | [] => scan_pages limit doc rest preview_rows
            | tables =>
                match scan_tables limit tables preview_rows with
                | Return r => Return r
                | Next r => scan_pages limit doc rest r
                end
            end
        end
  end.

(** [{0, total_pages // 2, total_pages - 1}] *)
Definition candidate_pages (total_pages : Z) : gset Z :=
  {[ 0 ]} ∪ {[ total_pages / 2 ]} ∪ {[ total_pages - 1 ]}.

(** [sorted(s)] for a set of integers. *)
Definition sorted (s : gset Z) : list Z := merge_sort Z.le (elements s).

Definition extract_table_preview (doc : pdf) (samples_per_section : Z) : list (list cell) :=
  let total_pages := Z.of_nat (length doc) in
  let cand := candidate_pages total_pages in
  rows_of (scan_pages (samples_per_section * Z.of_nat (size cand)) doc (sorted cand) []).

(** The default value of the parameter [samples_per_section]. *)
Definition default_samples_per_section : Z := 2.

End Preview.
Export Preview.

(** ** Mismatch extraction (lines 251-255) *)

Module Mismatch.

Definition row := list text.

(** The dictionary built at line 252. *)
Record mismatches := { expected : list row; actual : list row }.

Definition row_neq (p : row * row) : bool := negb (bool_decide (p.1 = p.2)).

(** [str] applied to a value that is a [str] already. *)
Definition py_str (s : text) : text := s.

(** [mismatched], the list comprehension of line 251. *)
Definition mismatched (df_expected df_actual : list row) : list (row * row) :=
  List.filter row_neq (combine df_expected df_actual).

Definition collect_mismatches (df_expected df_actual : list row) : mismatches :=
  let m := mismatched df_expected df_actual in
  {| expected := map (fun t => map py_str t.1) (take 5 m);
     actual := map (fun t => map py_str t.2) (take 5 m) |}.

(** The value of the [except] branch, line 258. *)
Definition no_mismatches : mismatches := {| expected := []; actual := [] |}.

(** The specification's wording, independent of the code: walk the two
    sequences together and keep a pair whenever the rows differ, until
    [budget] pairs have been kept. *)
Fixpoint first_mismatches (budget : nat) (es as_ : list row) : list (row * row) :=
  match budget, es, as_ with
  | S b, e :: es', a :: as' =>
      if bool_decide (e = a) then first_mismatches budget es' as'
      else (e, a) :: first_mismatches b es' as'
  | _, _, _ => []
  end.

End Mismatch.
Export Mismatch.

(** ** The controller *)

Module Controller.

(** *** Configuration *)

(** An entry of [BANK_CONFIG]. [max_attempts] is read with
    [cfg.get("max_attempts", 3)], so the key may be absent. *)
Record bank_cfg := {
  cfg_sample_pdf : string;
  cfg_expected_csv : string;
  cfg_parser_path : string;
  cfg_max_attempts : option Z
}.

(** The entry of the table. *)
Definition icici_cfg : bank_cfg :=
  {| cfg_sample_pdf := "data/icici/icici_sample.pdf";
     cfg_expected_csv := "data/icici/icici_expected.csv";
     cfg_parser_path := "custom_parsers/icici_parser.py";
     cfg_max_attempts := Some 3 |}.

Definition BANK_CONFIG : gmap string bank_cfg := {[ "icici"%string := icici_cfg ]}.

(** *** Paths *)

Definition is_slash (c : ascii) : bool := Ascii.eqb c "/"%char.

(** [Path(s).name]: what follows the last separator. *)
Fixpoint name_from (cur s : string) : string :=
  match s with
  | EmptyString => cur
  | String c r =>
      if is_slash c then name_from EmptyString r
      else name_from (cur +:+ String c EmptyString) r
  end.

Definition path_name (s : string) : string := name_from EmptyString s.

(** [Path(s).parent]: what precedes the last separator, ["."] without one. *)
Definition path_parent (s : string) : string :=
  let n := String.length (path_name s) in
  if Nat.eqb n (String.length s) then "."%string
  else String.substring 0 (String.length s - n - 1) s.

(** [Path(a) / b] *)
Definition path_join (a b : string) : string := (a +:+ "/" +:+ b)%string.

(** [f"tests/test_{args.target}.py"] *)
Definition test_file_of (target : string) : string :=
  ("tests/test_" +:+ target +:+ ".py")%string.

Definition artifacts_dir : string := "artifacts"%string.

(** *** Events, state, world *)

(** The two places of [main] that generate, check and test a candidate:
    the body of the loop at iteration [n], and the fallback block of
    lines 261-289. *)
Inductive site := Attempt (n : Z) | Fallback.

Inductive event :=
| ReadCsv (path : string)
| OpenPdf (path : string)
| Post (s : site) (model system_prompt user_prompt : text) (status_code : Z)
| Compile (s : site) (code : text) (error : option text)
| Mkdir (path : string)
| WriteText (path : string) (content : text)
| RunTests (s : site) (on_disk : gmap string text) (passed : bool)
| ExecModule (path : string) (content : option text).

(** [disk] holds the files the controller itself writes with
    [write_text], over the files it started from.  The byte-code caches
    that the import system and the [pytest] subprocess leave under
    [__pycache__] and [.pytest_cache], and whatever a candidate does to the
    file system when it runs, are not part of it: the properties below
    read [disk] at the parser path, the test file and the quarantine file
    only. *)
Record state := { disk : gmap string text; log : list event }.

(** The outcomes of lines 245-249, where the candidate is loaded and its
    [parse] is called inside [try ... except Exception]: a frame; an
    [Exception], which line 256 catches; or the end of the process with
    the status [code], when the candidate raises [SystemExit] (a call of
    [sys.exit]), which is a [BaseException] and no [Exception], so that
    line 256 does not catch it. *)
Inductive loaded :=
| Parsed (rows : list row)
| Raised
| Exits (code : Z).

(** The values [json.dumps] is applied to. *)
#[local] Unset Elimination Schemes.
Inductive json :=
| JStr (t : text)
| JArr (items : list json)
| JObj (fields : list (string * json)).
#[local] Set Elimination Schemes.

(** Everything the process reads from outside itself.  An oracle that may
    answer differently from one call to the next takes the log of what
    happened before.  The last fields are library functions whose results
    the controller only passes on. *)
Record world := {
  (** [os.getenv], after [load_dotenv()] *)
  getenv : string -> option text;
  (** [pd.read_csv(path, nrows=0).columns.tolist()]; [None] when it raises *)
  read_csv_columns : string -> option (list text);
  (** [pd.read_csv(path).astype(str).values.tolist()]; [None] when it raises *)
  read_csv_rows : string -> option (list row);
  (** [pdfplumber.open(path)]; [None] when it raises *)
  open_pdf : string -> option pdf;
  (** the answer to the POST of [call_groq]: status code, and the content
      of the first choice (the body, when the status is not 200) *)
  endpoint : list event -> text -> text -> text -> Z * text;
  (** [compile(code, filename, 'exec')]: [None] when the code compiles,
      the text of the [SyntaxError] otherwise *)
  py_compile : text -> string -> option text;
  (** the [pytest] subprocess on the current disk: [returncode == 0] and
      the captured output *)
  pytest : list event -> gmap string text -> bool * text;
  (** lines 245-249: loading the module stored at the path and calling its
      [parse] on the sample; the rows of the frame as strings when it
      returns one *)
  load_and_parse : list event -> option text -> string -> loaded;
  (** [json.dumps(v, indent=2)] *)
  json_dumps : json -> text;
  (** [str] of a list of strings *)
  repr_list : list text -> text
}.

(** *** The monad of [main] *)

Inductive exn :=
| RuntimeError (status_code : Z) (body : text)
| FixtureError (path : string).

(** How a computation stops before its end: [sys.exit(code)], or an
    exception nobody catches. *)
Inductive halt := SystemExit (code : Z) | Uncaught (e : exn).

Inductive res (A : Type) := Val (a : A) | Halt (h : halt).
Arguments Val {A} a.
Arguments Halt {A} h.

Definition M (A : Type) : Type := state -> res A * state.

Definition ret {A} (a : A) : M A := fun s => (Val a, s).

Definition bind {A B} (m : M A) (k : A -> M B) : M B :=
  fun s =>
    match m s with
    | (Val a, s') => k a s'
    | (Halt h, s') => (Halt h, s')
    end.

Notation "'do' x <- m ; k" := (bind m (fun x => k))
  (at level 10, x pattern, m at level 100, k at level 200).
Notation "m ;; k" := (bind m (fun _ => k))
  (at level 100, k at level 200, right associativity).

Definition sys_exit {A} (code : Z) : M A := fun s => (Halt (SystemExit code), s).
Definition raise {A} (e : exn) : M A := fun s => (Halt (Uncaught e), s).

Definition emit (e : event) : M unit :=
  fun s => (Val tt, {| disk := disk s; log := log s ++ [e] |}).

Definition get_log : M (list event) := fun s => (Val (log s), s).
Definition get_disk : M (gmap string text) := fun s => (Val (disk s), s).

(** [Path(path).exists()] *)
Definition path_exists (path : string) : M bool :=
  fun s => (Val (bool_decide (is_Some (disk s !! path))), s).

(** [Path(path).write_text(content)] *)
Definition write_text (path : string) (content : text) : M unit :=
  fun s => (Val tt, {| disk := <[path := content]> (disk s);
                       log := log s ++ [WriteText path content] |}).

(** [Path(path).mkdir(exist_ok=True)]; directories are not part of [disk]. *)
Definition mkdir (path : string) : M unit := emit (Mkdir path).

(** The exit status of the process. *)
Definition exit_status (r : res unit) : Z :=
  match r with
  | Val _ => 0
  | Halt (SystemExit code) => code
  | Halt (Uncaught _) => 1
  end.

(** *** Prompt builders *)

Definition nl : text := [10%N].
Definition dquote : text := [34%N].
Definition em_dash : text := [8212%N].

(** The text of a triple-quoted literal whose lines are [ls], each ended
    by a newline. *)
Definition unlines (ls : list text) : text := concat (map (fun l => l ++ nl) ls).

(** [sep.join(parts)] *)
Fixpoint join (sep : text) (parts : list text) : text :=
  match parts with
  | [] => []
  | [p] => p
  | p :: rest => p ++ sep ++ join sep rest
  end.

(** [f"{s:<60}"]: pad with spaces on the right up to the width. *)
Definition ljust (width : nat) (s : text) : text :=
  s ++ repeat 32%N (width - length s).

Definition json_cell (c : cell) : json := JStr (default [] c).

Section Prompts.

Context (w : world).

Definition build_initial_prompt (bank : string) (headers : list text)
    (preview : list (list cell)) : text * text :=
  let system_prompt := nl ++ unlines [
    lit "You are a coding agent.";
    lit "Generate a single Python module: custom_parsers/" ++ lit bank ++ lit "_parser.py";
    lit "It must define:";
    [];
    lit "    def parse(pdf_path: str) -> pandas.DataFrame";
    [];
    lit "RULES:";
    lit "1. Use only pdfplumber, pandas, typing.";
    lit "2. Preserve every cell value exactly as in the PDF " ++ em_dash
      ++ lit " including spaces, punctuation, and case.";
    lit "3. Return all values as strings.";
    lit "4. Use exactly these column names (in this order): " ++ repr_list w headers;
    lit "5. DO NOT transform numbers or dates " ++ em_dash
      ++ lit " no formatting, trimming, or retyping.";
    lit "6. Parse all pages, removing repeated headers and ignoring any footers.";
    lit "7. This is the grading check (must pass exactly):";
    [];
    lit "    assert df.astype(str).equals(expected_df.astype(str))";
    [];
    lit "8. Output ONLY valid Python code. No markdown, no triple backticks, no explanations.";
    lit "The first line MUST be a valid Python import statement." ] in
  let user_prompt := json_dumps w (JObj [
    ("bank", JStr (lit bank));
    ("expected_headers", JArr (map JStr headers));
    ("table_preview", JArr (map (fun r => JArr (map json_cell r)) preview)) ]%string) in
  (strip system_prompt, user_prompt).

Definition build_repair_prompt (bank : string) (code failure_output : text)
    (m : mismatches) : text * text :=
  let header := [ ljust 60 (lit "EXPECTED") ++ lit " | " ++ ljust 60 (lit "ACTUAL");
                  repeat 45%N 125 ] in
  let expected_rows := expected m in
  let actual_rows := actual m in
  let mismatch_preview :=
    header ++ map (fun '(exp, act) =>
                     ljust 60 (repr_list w exp) ++ lit " | " ++ ljust 60 (repr_list w act))
                  (combine expected_rows actual_rows) in
  let mismatch_table :=
    match expected_rows with
    | [] => lit "(No mismatch data)"
    | _ :: _ => join nl mismatch_preview
    end in
  let system_prompt := nl ++ unlines [
    lit "You previously wrote a parser for " ++ lit bank ++ lit ".";
    lit "The parser failed:";
    [];
    lit "    assert df.astype(str).equals(expected_df.astype(str))";
    [];
    lit "Modify ONLY the parser code to make the test pass.";
    lit "Do not change the tests.";
    lit "Preserve all rules from the initial prompt.";
    lit "Output ONLY valid Python code, no markdown or backticks." ] in
  let user_prompt := json_dumps w (JObj [
    ("current_code", JStr code);
    ("failure_trace", JStr failure_output);
    ("mismatch_rows", JStr mismatch_table) ]%string) in
  (strip system_prompt, user_prompt).

(** Line 213. *)
Definition syntax_fix_prompt (e : text) : text :=
  lit "The code you wrote did not compile: " ++ e
  ++ lit ". Fix the syntax and return only valid Python code.".

(** Lines 264-274. *)
Definition fallback_prompt (bank : string) (headers : list text) (full_text : text)
    : text * text :=
  let sys_prompt_fallback := nl ++ unlines [
    lit "All previous attempts failed.";
    lit "Write a parser using pdfplumber text and regex to extract rows matching headers: "
      ++ repr_list w headers;
    lit "Preserve all values exactly.";
    lit "Must pass: df.astype(str).equals(expected_df.astype(str))";
    lit "Output ONLY valid Python code." ] in
  let usr_prompt_fallback := json_dumps w (JObj [
    ("bank", JStr (lit bank));
    ("full_page_text_excerpt", JStr (take 5000 full_text)) ]%string) in
  (sys_prompt_fallback, usr_prompt_fallback).

(** Lines 224-233: the text written to the companion test file. *)
Definition test_code (target sample_pdf expected_csv : string) : text :=
  strip (nl ++ unlines [
    lit "import pandas as pd";
    lit "from custom_parsers." ++ lit target ++ lit "_parser import parse";
    [];
    lit "def test_parser():";
    lit "    df = parse(r" ++ dquote ++ lit sample_pdf ++ dquote ++ lit ")";
    lit "    expected = pd.read_csv(r" ++ dquote ++ lit expected_csv ++ dquote ++ lit ")";
    lit "    assert df.astype(str).equals(expected.astype(str))" ]).

End Prompts.

(** *** Effectful helpers *)

(** [range(lo, hi)] *)
Definition py_range (lo hi : Z) : list Z :=
  map (fun i => lo + Z.of_nat i) (seq 0 (Z.to_nat (hi - lo))).

Section Main.

Context (w : world).

(** [GROQ_MODEL], line 26. *)
Definition GROQ_MODEL : text :=
  default (lit "llama-3.3-70b-versatile") (getenv w "GROQ_MODEL").

(** [not GROQ_API_KEY], line 28: the variable is unset or empty. *)
Definition api_key_missing : bool :=
  match getenv w "GROQ_API_KEY" with
  | Some (_ :: _) => false
  | _ => true
  end.

Definition load_expected_headers (csv_path : string) : M (list text) :=
  emit (ReadCsv csv_path) ;;
  match read_csv_columns w csv_path with
  | Some cols => ret cols
  | None => raise (FixtureError csv_path)
  end.

Definition open_sample (pdf_path : string) : M pdf :=
  emit (OpenPdf pdf_path) ;;
  match open_pdf w pdf_path with
  | Some doc => ret doc
  | None => raise (FixtureError pdf_path)
  end.

(** [call_groq], lines 88-109. *)
Definition call_groq (s : site) (model system_prompt user_prompt : text) : M text :=
  do history <- get_log ;
  let '(status_code, body) := endpoint w history model system_prompt user_prompt in
  emit (Post s model system_prompt user_prompt status_code) ;;
  if negb (status_code =? 200) then raise (RuntimeError status_code body)
  else ret body.

(** [compile(code, filename, 'exec')] under [try]: the error, if any. *)
Definition syntax_check (s : site) (code : text) (filename : string) : M (option text) :=
  let r := py_compile w code filename in
  emit (Compile s code r) ;; ret r.

(** [run_tests], lines 76-84. *)
Definition run_tests (s : site) : M (bool * text) :=
  do history <- get_log ;
  do d <- get_disk ;
  let r := pytest w history d in
  emit (RunTests s d r.1) ;; ret r.

(** Lines 244-258: the [try] block and its [except Exception], which
    lets a [SystemExit] raised by the candidate through. *)
Definition extract_mismatches (parser_path sample_pdf expected_csv : string) : M mismatches :=
  do history <- get_log ;
  do d <- get_disk ;
  emit (ExecModule parser_path (d !! parser_path)) ;;
  match load_and_parse w history (d !! parser_path) sample_pdf with
  | Exits code => sys_exit code
  | Raised => ret no_mismatches
  | Parsed df_actual =>
      emit (ReadCsv expected_csv) ;;
      match read_csv_rows w expected_csv with
      | None => ret no_mismatches
      | Some df_expected => ret (collect_mismatches df_expected df_actual)
      end
  end.

(** Lines 221-233. *)
Definition ensure_test_file (target sample_pdf expected_csv : string) : M unit :=
  let test_file := test_file_of target in
  do present <- path_exists test_file ;
  if present then ret tt
  else
    mkdir (path_parent test_file) ;;
    write_text test_file (test_code target sample_pdf expected_csv).

(** Lines 261-289: the regex fallback.  Every path ends the process. *)
Definition regex_fallback (target sample_pdf parser_path : string)
    (headers : list text) : M (text * text) :=
  do doc <- open_sample sample_pdf ;
  let full_text := join (nl ++ nl) (map (fun pg => default [] (extract_text pg)) doc) in
  let '(sys_prompt_fallback, usr_prompt_fallback) := fallback_prompt w target headers full_text in
  do code <- call_groq Fallback GROQ_MODEL sys_prompt_fallback usr_prompt_fallback ;
  let code := strip_code_fences code in
  do err <- syntax_check Fallback code (path_name parser_path) ;
  match err with
  | Some _ => sys_exit 1
  | None =>
      write_text parser_path code ;;
      do r <- run_tests Fallback ;
      if r.1 then sys_exit 0 else sys_exit 1
  end.

(** Lines 199-291: one iteration of the loop.  Its value is the pair
    [(sys_prompt, user_prompt)] the next iteration starts from. *)
Definition attempt_body (target : string) (cfg : bank_cfg) (max_attempts : Z)
    (headers : list text) (attempt : Z) (prompts : text * text) : M (text * text) :=
  let sample_pdf := cfg_sample_pdf cfg in
  let expected_csv := cfg_expected_csv cfg in
  let parser_path := cfg_parser_path cfg in
  do code <- call_groq (Attempt attempt) GROQ_MODEL prompts.1 prompts.2 ;
  let code := strip_code_fences code in
  do err <- syntax_check (Attempt attempt) code (path_name parser_path) ;
  match err with
  | Some e =>
      if attempt =? max_attempts then
        mkdir artifacts_dir ;;
        write_text (path_join artifacts_dir (path_name parser_path)) code ;;
        sys_exit 1
      else ret (syntax_fix_prompt e, code)
  | None =>
      mkdir (path_parent parser_path) ;;
      write_text parser_path code ;;
      ensure_test_file target sample_pdf expected_csv ;;
      do r <- run_tests (Attempt attempt) ;
      let '(passed, output) := r in
      if passed then sys_exit 0
      else
        do m <- extract_mismatches parser_path sample_pdf expected_csv ;
        if attempt =? max_attempts then
          regex_fallback target sample_pdf parser_path headers
        else ret (build_repair_prompt w target code output m)
  end.

(** Line 198: [for attempt in ...]. *)
Fixpoint attempts (target : string) (cfg : bank_cfg) (max_attempts : Z)
    (headers : list text) (todo : list Z) (prompts : text * text) : M unit :=
  match todo with
  | [] => ret tt
  | attempt :: rest =>
      do prompts <- attempt_body target cfg max_attempts headers attempt prompts ;
      attempts target cfg max_attempts headers rest prompts
  end.

(** [main], lines 174-291, for the configuration table [table]; [target]
    is the parsed value of [--target]. *)
Definition main_with (table : gmap string bank_cfg) (target : string) : M unit :=
  match table !! target with
  | None => sys_exit 1
  | Some cfg =>
      let max_attempts := default 3 (cfg_max_attempts cfg) in
      do headers <- load_expected_headers (cfg_expected_csv cfg) ;
      do doc <- open_sample (cfg_sample_pdf cfg) ;
      let preview := extract_table_preview doc default_samples_per_section in
      let prompts := build_initial_prompt w target headers preview in
      attempts target cfg max_attempts headers (py_range 1 (max_attempts + 1)) prompts
  end.

Definition main (target : string) : M unit := main_with BANK_CONFIG target.

(** The module run as a script: lines 24-30, then [main()]. *)
Definition script (target : string) : M unit :=
  if api_key_missing then sys_exit 1 else main target.

End Main.

(** A run of the script from the disk [d]: how it ended, the final disk
    and the log. *)
Definition run (w : world) (target : string) (d : gmap string text) : res unit * state :=
  script w target {| disk := d; log := [] |}.

End Controller.
Export Controller.

(** ** The generated parser, [custom_parsers/icici_parser.py] *)

Module IciciParser.

(** The column names of the returned frame. *)
Definition COLUMNS : list text :=
  [lit "Date"; lit "Description"; lit "Debit Amt"; lit "Credit Amt"; lit "Balance"].

(** [c == s] for a cell [c] and a string [s]. *)
Definition cell_is (c : cell) (s : text) : bool :=
  match c with
  | Some t => bool_decide (t = s)
  | None => false
  end.

(** Line 26: [row[0] == "Date" and row[1] == "Description"]. *)
Definition is_header (r : list cell) : bool :=
  match r with
  | c0 :: c1 :: _ => cell_is c0 (lit "Date") && cell_is c1 (lit "Description")
  | _ => false
  end.

(** Line 29: [row[0] is None or row[0] == "" or str(row[0]).startswith("Page")]. *)
Definition first_cell_skipped (r : list cell) : bool :=
  match r with
  | None :: _ => true
  | Some [] :: _ => true
  | Some s :: _ => starts_with (lit "Page") s
  | [] => true
  end.

(** Line 34: [str(cell) if cell not in (None, "") else "nan"]. *)
Definition cleaned (c : cell) : text :=
  match c with
  | None | Some [] => lit "nan"
  | Some s => s
  end.

(** Lines 20-36: the body of [for row in table], [data] being the list
    the rows are appended to. *)
Definition parse_row (data : list (list text)) (row : option (list cell)) : list (list text) :=
  match row with
  | None => data
  | Some r =>
      if (length r <? 5)%nat then data
      else if is_header r then data
      else if first_cell_skipped r then data
      else data ++ [map cleaned (take 5 r)]
  end.

(** Lines 15-36: the body of [for page in pdf.pages]; [table] is the
    result of [page.extract_table()]. *)
Definition parse_page (data : list (list text)) (table : option (list (option (list cell))))
    : list (list text) :=
  match table with
  | None | Some [] => data
  | Some tbl => fold_left parse_row tbl data
  end.

(** [parse], on the tables of the pages of the document: the rows of the
    returned frame, whose columns are [COLUMNS]; [astype(str)] changes
    nothing, every value being a string already. *)
Definition parse (pages : list (option (list (option (list cell))))) : list (list text) :=
  fold_left parse_page pages [].

End IciciParser.
Export IciciParser.

(** * Vocabulary of the properties *)

(** ** Sample inputs *)

(** A generated answer with a fenced block and a sentence after it. *)
Definition fenced_answer : text :=
  lit "```python" ++ nl ++ lit "x = 1" ++ nl ++ lit "```" ++ nl ++ lit "Done.".

(** With no sample asked for per section, a document of one page holding
    one table of one row. *)
Definition one_row_pdf : pdf :=
  [ {| extract_tables := [ [ [ Some (lit "a") ] ] ]; extract_text := None |} ].

(** Worlds that differ in the credential, in what [compile] answers and in
    the outcome of the test run. *)
Definition sample_world (key : option text) (syntax_error : option text)
    (tests_pass : bool) : world :=
  {| getenv := fun k => if String.eqb k "GROQ_API_KEY" then key else None;
     read_csv_columns := fun _ => Some [lit "Date"; lit "Balance"];
     read_csv_rows := fun _ => Some [[lit "01-08-2024"; lit "10.5"]];
     open_pdf := fun _ => Some one_row_pdf;
     endpoint := fun _ _ _ _ => (200, lit "import pandas");
     py_compile := fun _ _ => syntax_error;
     pytest := fun _ _ => (tests_pass, lit "1 run");
     load_and_parse := fun _ _ _ => Parsed [[lit "01-08-2024"; lit "10.50"]];
     json_dumps := fun _ => lit "{}";
     repr_list := fun _ => lit "[]" |}.

Definition world_syntax_errors : world :=
  sample_world (Some (lit "k")) (Some (lit "invalid syntax")) false.
Definition world_tests_fail : world := sample_world (Some (lit "k")) None false.
Definition world_tests_pass : world := sample_world (Some (lit "k")) None true.
Definition world_no_key : world := sample_world None None true.

(** A disk on which the companion test file exists already. *)
Definition disk_with_test_file : gmap string text :=
  {[ "tests/test_icici.py"%string := lit "def test_parser(): pass" ]}.

(** ** Rows of the preview *)

(** A cell that holds a string with a character that is not white space. *)
Definition has_content (c : cell) : Prop :=
  exists s x, c = Some s /\ In x s /\ py_isspace x = false.

(** A row without [None] and with some content. *)
Definition row_ok (r : list cell) : Prop :=
  Forall (fun c => c <> None) r /\ Exists has_content r.

(** What holds of the rows of the preview between two iterations of a
    loop of [extract_table_preview], and at a [return]; [limit] is
    [samples_per_section * len(candidate_pages)]. *)
Definition inv_next (limit : Z) (rows : list (list cell)) : Prop :=
  Forall row_ok rows /\ (1 <= limit -> Z.of_nat (length rows) < limit).

Definition inv_return (limit : Z) (rows : list (list cell)) : Prop :=
  Forall row_ok rows /\ (1 <= limit -> Z.of_nat (length rows) <= limit).

Definition inv_flow (limit : Z) (f : flow) : Prop :=
  match f with
  | Next r => inv_next limit r
  | Return r => inv_return limit r
  end.

(** ** Reading the log of a run *)

Module Log.

Definition count (f : event -> bool) (evs : list event) : nat :=
  length (List.filter f evs).

Definition is_post (e : event) : bool :=
  match e with Post _ _ _ _ _ => true | _ => false end.

Definition is_compile (e : event) : bool :=
  match e with Compile _ _ _ => true | _ => false end.

Definition is_tests (e : event) : bool :=
  match e with RunTests _ _ _ => true | _ => false end.

(** The events of the fallback block. *)
Definition is_fallback (e : event) : bool :=
  match e with
  | Post Fallback _ _ _ _ | Compile Fallback _ _ | RunTests Fallback _ _ => true
  | _ => false
  end.

Definition fb_post (e : event) : bool :=
  match e with Post Fallback _ _ _ _ => true | _ => false end.

(** A fallback generation the endpoint answered with status 200. *)
Definition fb_post_ok (e : event) : bool :=
  match e with Post Fallback _ _ _ status => status =? 200 | _ => false end.

Definition fb_compile (e : event) : bool :=
  match e with Compile Fallback _ _ => true | _ => false end.

(** A fallback candidate that compiled. *)
Definition fb_compile_ok (e : event) : bool :=
  match e with Compile Fallback _ None => true | _ => false end.

Definition fb_tests (e : event) : bool :=
  match e with RunTests Fallback _ _ => true | _ => false end.

Definition writes_to (path : string) (e : event) : bool :=
  match e with WriteText p _ => bool_decide (p = path) | _ => false end.

(** The iteration an event of the loop belongs to satisfies [P]. *)
Definition ev_site (P : Z -> Prop) (e : event) : Prop :=
  match e with
  | Post (Attempt n) _ _ _ _ | Compile (Attempt n) _ _ | RunTests (Attempt n) _ _ => P n
  | _ => True
  end.

(** Iteration [a] failed validation: its syntax check reported an error,
    or its test run did not pass. *)
Definition attempt_failed (evs : list event) (a : Z) : Prop :=
  (exists c e, In (Compile (Attempt a) c (Some e)) evs)
  \/ (exists d, In (RunTests (Attempt a) d false) evs).

Definition all_attempts_failed (evs : list event) (max_attempts : Z) : Prop :=
  forall a, 1 <= a <= max_attempts -> attempt_failed evs a.

(** The effect of an event on the disk, and the disk after a log. *)
Definition apply_event (d : gmap string text) (e : event) : gmap string text :=
  match e with
  | WriteText p c => <[p := c]> d
  | _ => d
  end.

Definition replay (d : gmap string text) (evs : list event) : gmap string text :=
  fold_left apply_event evs d.

Section Checked.

Context (w : world) (parser_path test_file quarantine : string).

(** What every event of a run satisfies: a syntax check reports what
    [compile] says; the parser path only receives code that compiles and
    the quarantine only code that does not; tests and module loading
    happen with code that compiles stored at the parser path. *)
Definition ev_ok (e : event) : Prop :=
  let compiles c := py_compile w c (path_name parser_path) = None in
  match e with
  | Compile _ c r => r = py_compile w c (path_name parser_path)
  | WriteText p c =>
      p = test_file \/ (p = quarantine /\ ~ compiles c) \/ (p = parser_path /\ compiles c)
  | RunTests _ d _ => exists c, d !! parser_path = Some c /\ compiles c
  | ExecModule _ content => exists c, content = Some c /\ compiles c
  | _ => True
  end.

End Checked.

(** The process ended inside the candidate: right after a failed test
    run of the loop on the final disk, the module stored at [pp] was
    loaded to extract the mismatches and ended the process with the status
    [code]; that load is the last event.  [history] is the log before
    [evs]. *)
Definition ended_in_candidate {A} (w : world) (sample pp : string)
    (history evs : list event) (r : res A) (s' : state) : Prop :=
  exists pre a code,
    evs = pre ++ [RunTests (Attempt a) (disk s') false; ExecModule pp (disk s' !! pp)]
    /\ load_and_parse w (history ++ pre ++ [RunTests (Attempt a) (disk s') false])
         (disk s' !! pp) sample = Exits code
    /\ r = Halt (SystemExit code).

(** What one iteration of the loop does, from the state [s] to the state
    [s'], with [evs] the events it adds to the log and [r] its result. *)
Definition body_facts (w : world) (max_attempts : Z) (sample pp tf ap : string) (a : Z)
    (r : res (text * text)) (s s' : state) (evs : list event) : Prop :=
  log s' = log s ++ evs /\ disk s' = replay (disk s) evs
  /\ Forall (ev_ok w pp tf ap) evs /\ Forall (ev_site (eq a)) evs
  /\ (forall v, r = Val v ->
      a <> max_attempts /\ count is_fallback evs = 0%nat /\ attempt_failed evs a)
  /\ (a <> max_attempts -> count is_fallback evs = 0%nat)
  /\ ((count fb_post evs <= 1)%nat /\ count fb_compile evs = count fb_post_ok evs
      /\ count fb_tests evs = count fb_compile_ok evs)
  /\ ((exists d, In (RunTests (Attempt a) d false) evs) -> a = max_attempts ->
      (count fb_post evs = 1%nat
       \/ (count is_fallback evs = 0%nat
           /\ ended_in_candidate w sample pp (log s) evs r s'))
      /\ exists h, r = Halt h)
  /\ (forall c e, In (Compile (Attempt a) c (Some e)) evs -> a = max_attempts ->
      r = Halt (SystemExit 1) /\ disk s' !! ap = Some c /\ count is_fallback evs = 0%nat
      /\ exists m sp up st, evs = [Post (Attempt a) m sp up st; Compile (Attempt a) c (Some e);
                                   Mkdir artifacts_dir; WriteText ap c])
  /\ ((exists d, In (RunTests (Attempt a) d true) evs) ->
      r = Halt (SystemExit 0) /\ count is_post evs = 1%nat /\ count is_compile evs = 1%nat
      /\ count is_tests evs = 1%nat /\ count is_fallback evs = 0%nat)
  /\ ((count (writes_to tf) evs <= 1)%nat
      /\ (is_Some (disk s !! tf) -> count (writes_to tf) evs = 0%nat)
      /\ ((1 <= count (writes_to tf) evs)%nat -> is_Some (disk s' !! tf))).

(** What the iterations [todo] of the loop do together. *)
Definition loop_facts (w : world) (max_attempts : Z) (sample pp tf ap : string)
    (todo : list Z) (r : res unit) (s s' : state) (evs : list event) : Prop :=
  log s' = log s ++ evs /\ disk s' = replay (disk s) evs
  /\ Forall (ev_ok w pp tf ap) evs /\ Forall (ev_site (fun n => In n todo)) evs
  /\ ((count fb_post evs <= 1)%nat /\ count fb_compile evs = count fb_post_ok evs
      /\ count fb_tests evs = count fb_compile_ok evs)
  /\ ((exists d, In (RunTests (Attempt max_attempts) d false) evs) ->
      (count fb_post evs = 1%nat
       \/ (count is_fallback evs = 0%nat
           /\ ended_in_candidate w sample pp (log s) evs r s'))
      /\ exists h, r = Halt h)
  /\ (forall c e, In (Compile (Attempt max_attempts) c (Some e)) evs ->
      r = Halt (SystemExit 1) /\ disk s' !! ap = Some c /\ count is_fallback evs = 0%nat
      /\ exists pre m sp up st,
           evs = pre ++ [Post (Attempt max_attempts) m sp up st;
                         Compile (Attempt max_attempts) c (Some e);
                         Mkdir artifacts_dir; WriteText ap c])
  /\ ((count (writes_to tf) evs <= 1)%nat
      /\ (is_Some (disk s !! tf) -> count (writes_to tf) evs = 0%nat)
      /\ ((1 <= count (writes_to tf) evs)%nat -> is_Some (disk s' !! tf)))
  /\ (forall m, last todo = Some m -> attempt_failed evs m ->
      forall a, In a todo -> attempt_failed evs a)
  /\ (forall a0 rest, todo = a0 :: rest ->
      (exists d, In (RunTests (Attempt a0) d true) evs) ->
      r = Halt (SystemExit 0) /\ count is_post evs = 1%nat /\ count is_compile evs = 1%nat
      /\ count is_tests evs = 1%nat /\ count is_fallback evs = 0%nat).

(** What a whole run of the script for [target], configured by [cfg], does
    from the disk [d]. *)
Definition run_facts (w : world) (target : string) (cfg : bank_cfg)
    (d : gmap string text) (r : res unit) (s' : state) : Prop :=
  let max_attempts := default 3 (cfg_max_attempts cfg) in
  let tf := test_file_of target in
  let ap := path_join artifacts_dir (path_name (cfg_parser_path cfg)) in
  let tr := log s' in
  disk s' = replay d tr
  /\ Forall (ev_ok w (cfg_parser_path cfg) tf ap) tr
  /\ ((count fb_post tr <= 1)%nat /\ count fb_compile tr = count fb_post_ok tr
      /\ count fb_tests tr = count fb_compile_ok tr)
  /\ ((exists d', In (RunTests (Attempt max_attempts) d' false) tr) ->
      (count fb_post tr = 1%nat
       \/ (count is_fallback tr = 0%nat
           /\ ended_in_candidate w (cfg_sample_pdf cfg) (cfg_parser_path cfg) [] tr r s'))
      /\ (exists h, r = Halt h)
      /\ all_attempts_failed tr max_attempts)
  /\ (forall c e, In (Compile (Attempt max_attempts) c (Some e)) tr ->
      r = Halt (SystemExit 1) /\ disk s' !! ap = Some c /\ count is_fallback tr = 0%nat
      /\ (exists pre m sp up st,
             tr = pre ++ [Post (Attempt max_attempts) m sp up st;
                          Compile (Attempt max_attempts) c (Some e);
                          Mkdir artifacts_dir; WriteText ap c])
      /\ all_attempts_failed tr max_attempts)
  /\ ((count (writes_to tf) tr <= 1)%nat
      /\ (is_Some (d !! tf) -> count (writes_to tf) tr = 0%nat))
  /\ ((exists d', In (RunTests (Attempt 1) d' true) tr) ->
      r = Halt (SystemExit 0) /\ count is_post tr = 1%nat /\ count is_compile tr = 1%nat
      /\ count is_tests tr = 1%nat /\ count is_fallback tr = 0%nat).

End Log.
Export Log.

(** ** Vocabulary of the further properties *)

(** *** The sanitizer *)

(** [p] occurs in [t] as a run of consecutive characters. *)
Definition occurs_in (p t : text) : Prop := exists pre post, t = pre ++ p ++ post.

(** Only white space, in the sense of [str.strip()]. *)
Definition all_space (t : text) : Prop := Forall (fun c => py_isspace c = true) t.

(** *** The preview *)

(** [r] is the cleaned form of a row of a table of page [idx] of [doc]. *)
Definition row_from_page (doc : pdf) (idx : Z) (r : list cell) : Prop :=
  exists pg tbl r0,
    0 <= idx /\ doc !! Z.to_nat idx = Some pg
    /\ In tbl (extract_tables pg) /\ In r0 tbl /\ r = map clean_cell r0.

(** The rows a scan may have gathered from the pages [idxs]. *)
Definition rows_from (doc : pdf) (idxs : list Z) (rows : list (list cell)) : Prop :=
  Forall (fun r => exists idx, In idx idxs /\ row_from_page doc idx r) rows.

(** The rows of a table the preview can take: cleaned, and with a cell
    that is not blank. *)
Definition table_rows (tbl : table) : list (list cell) :=
  List.filter (existsb cell_nonblank) (map (map clean_cell) tbl).

(** The rows of the tables of page [idx], in order; none when [idx] is
    not the index of a page. *)
Definition page_rows (doc : pdf) (idx : Z) : list (list cell) :=
  if (idx <? 0) || (Z.of_nat (length doc) <=? idx) then []
  else match doc !! Z.to_nat idx with
       | Some pg => concat (map table_rows (extract_tables pg))
       | None => []
       end.

(** The rows of the candidate pages, in the order of the document. *)
Definition candidate_rows (doc : pdf) : list (list cell) :=
  concat (map (page_rows doc) (sorted (candidate_pages (Z.of_nat (length doc))))).

(** The number of rows after which a scan with the bound [limit] returns:
    the bound is tested after a row is appended, so one row is taken even
    when the bound is zero or negative. *)
Definition preview_budget (limit : Z) : nat := Z.to_nat (Z.max 1 limit).

(** The outcome of a scan that has [rows] to take, with the budget [n]. *)
Definition gathered (n : nat) (rows : list (list cell)) : flow :=
  if (n <=? length rows)%nat then Return (take n rows) else Next rows.

(** *** Mismatches in the repair prompt *)

(** Lines 143-150 of [build_repair_prompt]: the lines of the mismatch
    table, the two header lines first. *)
Definition mismatch_preview (w : world) (m : mismatches) : list text :=
  [ ljust 60 (lit "EXPECTED") ++ lit " | " ++ ljust 60 (lit "ACTUAL");
    repeat 45%N 125 ]
  ++ map (fun '(exp, act) =>
            ljust 60 (repr_list w exp) ++ lit " | " ++ ljust 60 (repr_list w act))
         (combine (expected m) (actual m)).

(** Line 151: [mismatch_table]. *)
Definition mismatch_table (w : world) (m : mismatches) : text :=
  match expected m with
  | [] => lit "(No mismatch data)"
  | _ :: _ => join nl (mismatch_preview w m)
  end.

(** *** The generated parser *)

(** A row of a table that [parse] keeps. *)
Definition kept (r0 : list cell) : Prop :=
  (5 <= length r0)%nat
  /\ ~ (r0 !! 0%nat = Some (Some (lit "Date"))
        /\ r0 !! 1%nat = Some (Some (lit "Description")))
  /\ exists s, r0 !! 0%nat = Some (Some s) /\ s <> []
               /\ ~ exists rest, s = lit "Page" ++ rest.

(** *** Runs of the controller *)

(** A request made by the loop (not by the fallback block). *)
Definition attempt_post (e : event) : bool :=
  match e with Post (Attempt _) _ _ _ _ => true | _ => false end.

(** The iterations that sent a request, in the order of the log. *)
Definition attempt_sites (evs : list event) : list Z :=
  omap (fun e => match e with Post (Attempt n) _ _ _ _ => Some n | _ => None end) evs.

(** The log ends with a test run that passed. *)
Definition last_passes (evs : list event) : bool :=
  match last evs with
  | Some (RunTests _ _ true) => true
  | _ => false
  end.

(** More of what every event of a run satisfies: requests name the model
    [GROQ_MODEL]; tests run when the companion test file exists. *)
Definition ev_more (w : world) (test_file : string) (e : event) : Prop :=
  match e with
  | Post _ m _ _ _ => m = GROQ_MODEL w
  | RunTests _ d _ => is_Some (d !! test_file)
  | _ => True
  end.

(** How a run, or a part of it, ended, read with its events; [history]
    is the log before [evs]. *)
Definition ending {A} (w : world) (sample pp : string) (history : list event)
    (r : res A) (s' : state) (evs : list event) : Prop :=
  (r = Halt (SystemExit 0) /\ exists s0, last evs = Some (RunTests s0 (disk s') true))
  \/ (last_passes evs = false
      /\ ((exists v, r = Val v) \/ r = Halt (SystemExit 1)
          \/ (exists st b, r = Halt (Uncaught (RuntimeError st b)) /\ st <> 200)
          \/ ended_in_candidate w sample pp history evs r s')).

(** More of what one iteration of the loop does, started with the prompts
    [p]. *)
Definition body_more (w : world) (target : string) (max_attempts : Z)
    (sample pp tf ap : string) (a : Z) (p : text * text) (r : res (text * text))
    (s s' : state) (evs : list event) : Prop :=
  (exists st rest, evs = Post (Attempt a) (GROQ_MODEL w) p.1 p.2 st :: rest
                   /\ count attempt_post rest = 0%nat)
  /\ Forall (ev_more w tf) evs
  /\ (count is_post evs = S (count fb_post evs)
      /\ (count is_compile evs <= count is_post evs)%nat
      /\ (count is_tests evs <= count is_compile evs)%nat)
  /\ (forall s0 m sp up st, In (Post s0 m sp up st) evs -> st <> 200 ->
      (exists b, r = Halt (Uncaught (RuntimeError st b)))
      /\ last evs = Some (Post s0 m sp up st))
  /\ ending w sample pp (log s) r s' evs
  /\ ((1 <= count is_fallback evs)%nat ->
      a = max_attempts /\ exists d, In (RunTests (Attempt a) d false) evs)
  /\ (forall c, In (WriteText ap c) evs ->
      a = max_attempts /\ exists e, In (Compile (Attempt a) c (Some e)) evs)
  /\ (forall c e, In (Compile (Attempt a) c (Some e)) evs -> a <> max_attempts ->
      r = Val (syntax_fix_prompt e, c)
      /\ exists st, evs = [Post (Attempt a) (GROQ_MODEL w) p.1 p.2 st;
                           Compile (Attempt a) c (Some e)])
  /\ (forall d, In (RunTests (Attempt a) d false) evs -> a <> max_attempts ->
      exists pre post code,
        evs = pre ++ RunTests (Attempt a) d false :: post
        /\ d !! pp = Some code
        /\ ((exists m,
               r = Val (build_repair_prompt w target code (pytest w (log s ++ pre) d).2 m))
            \/ (exists status,
                  post = [ExecModule pp (d !! pp)]
                  /\ load_and_parse w (log s ++ pre ++ [RunTests (Attempt a) d false])
                       (d !! pp) sample = Exits status
                  /\ r = Halt (SystemExit status)))).

(** More of what the iterations [todo] of the loop do together, started
    with the prompts [p]. *)
Definition loop_more (w : world) (target : string) (max_attempts : Z)
    (sample pp tf ap : string) (todo : list Z) (p : text * text) (r : res unit)
    (s s' : state) (evs : list event) : Prop :=
  (exists k, attempt_sites evs = take k todo)
  /\ (forall a rest, todo = a :: rest ->
      exists st tl, evs = Post (Attempt a) (GROQ_MODEL w) p.1 p.2 st :: tl)
  /\ Forall (ev_more w tf) evs
  /\ (count is_post evs = (length (attempt_sites evs) + count fb_post evs)%nat
      /\ (count is_compile evs <= count is_post evs)%nat
      /\ (count is_tests evs <= count is_compile evs)%nat)
  /\ (forall s0 m sp up st, In (Post s0 m sp up st) evs -> st <> 200 ->
      (exists b, r = Halt (Uncaught (RuntimeError st b)))
      /\ last evs = Some (Post s0 m sp up st))
  /\ ending w sample pp (log s) r s' evs
  /\ (In max_attempts todo -> forall v, r <> Val v)
  /\ ((1 <= count is_fallback evs)%nat ->
      exists d, In (RunTests (Attempt max_attempts) d false) evs)
  /\ (forall c, In (WriteText ap c) evs ->
      exists e, In (Compile (Attempt max_attempts) c (Some e)) evs)
  /\ (forall l1 a b l2 c e, todo = l1 ++ a :: b :: l2 ->
      In (Compile (Attempt a) c (Some e)) evs -> a <> max_attempts ->
      exists pre st post,
        evs = pre ++ Compile (Attempt a) c (Some e)
                  :: Post (Attempt b) (GROQ_MODEL w) (syntax_fix_prompt e) c st :: post)
  /\ (forall l1 a b l2 d, todo = l1 ++ a :: b :: l2 ->
      In (RunTests (Attempt a) d false) evs -> a <> max_attempts ->
      exists pre post code,
        evs = pre ++ RunTests (Attempt a) d false :: post
        /\ d !! pp = Some code
        /\ ((exists m st,
               In (Post (Attempt b) (GROQ_MODEL w)
                     (build_repair_prompt w target code (pytest w (log s ++ pre) d).2 m).1
                     (build_repair_prompt w target code (pytest w (log s ++ pre) d).2 m).2
                     st)
                  post)
            \/ (exists status,
                  post = [ExecModule pp (d !! pp)]
                  /\ load_and_parse w (log s ++ pre ++ [RunTests (Attempt a) d false])
                       (d !! pp) sample = Exits status
                  /\ r = Halt (SystemExit status)))).

(** More of what a whole run of the script does. *)
Definition run_more (w : world) (target : string) (cfg : bank_cfg)
    (d : gmap string text) (r : res unit) (s' : state) : Prop :=
  let max_attempts := default 3 (cfg_max_attempts cfg) in
  let pp := cfg_parser_path cfg in
  let tf := test_file_of target in
  let ap := path_join artifacts_dir (path_name (cfg_parser_path cfg)) in
  let csv := cfg_expected_csv cfg in
  let sample := cfg_sample_pdf cfg in
  let tr := log s' in
  (exists k, attempt_sites tr = take k (py_range 1 (max_attempts + 1)))
  /\ Forall (ev_more w tf) tr
  /\ (count is_post tr = (length (attempt_sites tr) + count fb_post tr)%nat
      /\ (count is_compile tr <= count is_post tr)%nat
      /\ (count is_tests tr <= count is_compile tr)%nat)
  /\ (forall s0 m sp up st, In (Post s0 m sp up st) tr -> st <> 200 ->
      (exists b, r = Halt (Uncaught (RuntimeError st b)))
      /\ last tr = Some (Post s0 m sp up st))
  /\ ((r = Halt (SystemExit 0) /\ exists s0, last tr = Some (RunTests s0 (disk s') true))
      \/ (last_passes tr = false
          /\ (r = Halt (SystemExit 1) \/ (exists e, r = Halt (Uncaught e))
              \/ ended_in_candidate w sample pp [] tr r s')))
  /\ ((1 <= count is_fallback tr)%nat ->
      exists d', In (RunTests (Attempt max_attempts) d' false) tr)
  /\ (forall c, In (WriteText ap c) tr ->
      exists e, In (Compile (Attempt max_attempts) c (Some e)) tr)
  /\ (forall a c e, In (Compile (Attempt a) c (Some e)) tr -> a <> max_attempts ->
      exists pre st post,
        tr = pre ++ Compile (Attempt a) c (Some e)
                 :: Post (Attempt (a + 1)) (GROQ_MODEL w) (syntax_fix_prompt e) c st :: post)
  /\ (forall a d', In (RunTests (Attempt a) d' false) tr -> a <> max_attempts ->
      exists pre post code,
        tr = pre ++ RunTests (Attempt a) d' false :: post
        /\ d' !! pp = Some code
        /\ ((exists m st,
               In (Post (Attempt (a + 1)) (GROQ_MODEL w)
                     (build_repair_prompt w target code (pytest w pre d').2 m).1
                     (build_repair_prompt w target code (pytest w pre d').2 m).2 st)
                  post)
            \/ (exists status,
                  post = [ExecModule pp (d' !! pp)]
                  /\ load_and_parse w (pre ++ [RunTests (Attempt a) d' false])
                       (d' !! pp) sample = Exits status
                  /\ r = Halt (SystemExit status))))
  /\ (forall headers doc,
      api_key_missing w = false -> read_csv_columns w csv = Some headers ->
      open_pdf w sample = Some doc ->
      let p := build_initial_prompt w target headers
                 (extract_table_preview doc default_samples_per_section) in
      exists st rest,
        tr = ReadCsv csv :: OpenPdf sample
             :: Post (Attempt 1) (GROQ_MODEL w) p.1 p.2 st :: rest).

(** Where the arguments of the calls that [main] itself makes come from:
    it reads the two fixtures of the configuration, creates three
    directories and loads the module at the parser path; it writes the
    test code to the companion test file, and what it checks or writes
    elsewhere is an output of the sanitizer; the request of the fallback
    carries the fallback prompts for the header of the CSV and the text of
    the pages of the sample. *)
Definition ev_origin (w : world) (target : string) (cfg : bank_cfg) (headers : list text)
    (e : event) : Prop :=
  match e with
  | ReadCsv p => p = cfg_expected_csv cfg
  | OpenPdf p => p = cfg_sample_pdf cfg
  | Post Fallback _ sp up _ =>
      forall doc, open_pdf w (cfg_sample_pdf cfg) = Some doc ->
        (sp, up) = fallback_prompt w target headers
                     (join (nl ++ nl) (map (fun pg => default [] (extract_text pg)) doc))
  | Post (Attempt _) _ _ _ _ => True
  | Compile _ code _ => exists answer, code = strip_code_fences answer
  | Mkdir p =>
      p = artifacts_dir \/ p = path_parent (cfg_parser_path cfg)
      \/ p = path_parent (test_file_of target)
  | WriteText p content =>
      (p = test_file_of target
       /\ content = test_code target (cfg_sample_pdf cfg) (cfg_expected_csv cfg))
      \/ (p <> test_file_of target /\ exists answer, content = strip_code_fences answer)
  | RunTests _ _ _ => True
  | ExecModule p _ => p = cfg_parser_path cfg
  end.

(** Every syntax check of [evs] comes right after a request of the same
    site that was answered with status 200, and checks the sanitized
    answer to that request; [history] is the log before [evs]. *)
Definition checks_sanitized (w : world) (history evs : list event) : Prop :=
  forall pre s0 code r post, evs = pre ++ Compile s0 code r :: post ->
    exists pre' m sp up,
      pre = pre' ++ [Post s0 m sp up 200]
      /\ code = strip_code_fences (endpoint w (history ++ pre') m sp up).2.

(** The events of [evs] do not start with a syntax check. *)
Definition starts_with_request (evs : list event) : Prop :=
  evs = [] \/ exists s0 m sp up st rest, evs = Post s0 m sp up st :: rest.

(** ** More sample inputs *)

(** An answer made of white space only. *)
Definition blank_answer : text := [32%N; 10%N; 9%N].

(** A document of two pages that hold text and no table. *)
Definition text_only_pdf : pdf :=
  [ {| extract_tables := []; extract_text := Some (lit "Statement") |};
    {| extract_tables := []; extract_text := None |} ].

(** The tables of a statement of two pages, as [page.extract_table()]
    gives them: a header row, two transactions, a row that is [None], a
    page footer and a short row; the second page has no table. *)
Definition statement_tables : list (option (list (option (list cell)))) :=
  [ Some [ Some [Some (lit "Date"); Some (lit "Description"); Some (lit "Debit Amt");
                 Some (lit "Credit Amt"); Some (lit "Balance")];
           Some [Some (lit "01-08-2024"); Some (lit "Salary"); None;
                 Some (lit "100.0"); Some (lit "100.0")];
           None;
           Some [Some (lit "Page 1 of 2"); None; None; None; None];
           Some [Some (lit "carried"); Some (lit "60.0")] ];
    None;
    Some [ Some [Some (lit "Date"); Some (lit "Description"); Some (lit "Debit Amt");
                 Some (lit "Credit Amt"); Some (lit "Balance")];
           Some [Some (lit "02-08-2024"); Some (lit "Rent"); Some (lit "40.0");
                 Some (lit "0.0"); Some (lit "60.0"); Some (lit "extra")];
           None ] ].

(** Worlds obtained from another one by replacing one oracle. *)
Definition with_endpoint (w : world)
    (f : list event -> text -> text -> text -> Z * text) : world :=
  {| getenv := getenv w; read_csv_columns := read_csv_columns w;
     read_csv_rows := read_csv_rows w; open_pdf := open_pdf w;
     endpoint := f; py_compile := py_compile w; pytest := pytest w;
     load_and_parse := load_and_parse w; json_dumps := json_dumps w;
     repr_list := repr_list w |}.

Definition with_py_compile (w : world) (f : text -> string -> option text) : world :=
  {| getenv := getenv w; read_csv_columns := read_csv_columns w;
     read_csv_rows := read_csv_rows w; open_pdf := open_pdf w;
     endpoint := endpoint w; py_compile := f; pytest := pytest w;
     load_and_parse := load_and_parse w; json_dumps := json_dumps w;
     repr_list := repr_list w |}.

Definition with_pytest (w : world)
    (f : list event -> gmap string text -> bool * text) : world :=
  {| getenv := getenv w; read_csv_columns := read_csv_columns w;
     read_csv_rows := read_csv_rows w; open_pdf := open_pdf w;
     endpoint := endpoint w; py_compile := py_compile w; pytest := f;
     load_and_parse := load_and_parse w; json_dumps := json_dumps w;
     repr_list := repr_list w |}.

Definition with_read_csv_columns (w : world) (f : string -> option (list text)) : world :=
  {| getenv := getenv w; read_csv_columns := f;
     read_csv_rows := read_csv_rows w; open_pdf := open_pdf w;
     endpoint := endpoint w; py_compile := py_compile w; pytest := pytest w;
     load_and_parse := load_and_parse w; json_dumps := json_dumps w;
     repr_list := repr_list w |}.

(** The endpoint answers every request with status 503. *)
Definition world_endpoint_down : world :=
  with_endpoint world_tests_pass (fun _ _ _ _ => (503, lit "Service Unavailable")).

(** The first answer of the endpoint does not compile, the later ones do. *)
Definition world_first_syntax_error : world :=
  with_py_compile
    (with_endpoint world_tests_pass
       (fun history _ _ _ =>
          (200, if (count is_post history =? 0)%nat then lit "def parse(:"
                else lit "import pandas")))
    (fun code _ => if bool_decide (code = lit "def parse(:")
                   then Some (lit "invalid syntax") else None).

(** The first test run fails, the later ones pass. *)
Definition world_first_tests_fail : world :=
  with_pytest world_tests_pass
    (fun history _ => (negb (count is_tests history =? 0)%nat, lit "1 run")).



(** The expected CSV cannot be read. *)
Definition world_no_csv : world := with_read_csv_columns world_tests_pass (fun _ => None).

(** * Properties *)

(** ** Stripping and literal search *)

Section StripFacts.

Lemma lstrip_head (t : text) :
  match lstrip t with [] => True | c :: _ => py_isspace c = false end.
Proof.
  induction t as [|c r IH]; simpl; [exact I|].
  destruct (py_isspace c) eqn:E; [exact IH | exact E].
Qed.

Lemma lstrip_suffix (t : text) : exists ws, t = ws ++ lstrip t.
Proof.
  induction t as [|c r [ws IH]]; simpl.
  - exists []. reflexivity.
  - destruct (py_isspace c).
    + exists (c :: ws). simpl. congruence.
    + exists []. reflexivity.
Qed.

Lemma rstrip_cons_keep (c : N) (r : text) :
  py_isspace c = false -> rstrip (c :: r) = c :: rstrip r.
Proof. intros E. simpl. destruct (rstrip r); [rewrite E|]; reflexivity. Qed.

Lemma rstrip_prefix (t : text) : exists ws, t = rstrip t ++ ws.
Proof.
  induction t as [|c r [ws IH]]; simpl.
  - exists []. reflexivity.
  - destruct (rstrip r) as [|x r'] eqn:E.
    + destruct (py_isspace c).
      * exists (c :: r). reflexivity.
      * exists ws. simpl in *. congruence.
    + exists ws. rewrite IH at 1. reflexivity.
Qed.

Lemma rstrip_idem (t : text) : rstrip (rstrip t) = rstrip t.
Proof.
  induction t as [|c r IH]; simpl; [reflexivity|].
  destruct (rstrip r) as [|x r'] eqn:E.
  - destruct (py_isspace c) eqn:S; simpl; [|rewrite S]; reflexivity.
  - change (rstrip (c :: x :: r')) with
      (match rstrip (x :: r') with [] => if py_isspace c then [] else [c] | r'' => c :: r'' end).
    rewrite IH. reflexivity.
Qed.

Lemma lstrip_rstrip_lstrip (t : text) : lstrip (rstrip (lstrip t)) = rstrip (lstrip t).
Proof.
  pose proof (lstrip_head t) as H.
  destruct (lstrip t) as [|c r]; [reflexivity|].
  rewrite (rstrip_cons_keep _ _ H). simpl. rewrite H. reflexivity.
Qed.

Lemma strip_idem (t : text) : strip (strip t) = strip t.
Proof. unfold strip. rewrite lstrip_rstrip_lstrip. apply rstrip_idem. Qed.

Lemma starts_with_app (p a b : text) :
  starts_with p a = true -> starts_with p (a ++ b) = true.
Proof.
  revert a; induction p as [|x p IH]; intros [|y a]; simpl; try easy.
  intros [-> H]%andb_true_iff. rewrite (IH _ H). reflexivity.
Qed.

Lemma findall_from_all (p : text) (k : nat) (t : text) :
  Forall (eq p) (findall_from p k t).
Proof.
  revert k; induction t as [|c r IH]; intros k; simpl; [constructor|].
  destruct k; [|apply IH].
  destruct (starts_with p (c :: r)); [constructor; [reflexivity|]|]; apply IH.
Qed.

Lemma findall_nil_drop (p ws t : text) :
  findall_from p O (ws ++ t) = [] -> findall_from p O t = [].
Proof.
  induction ws as [|c ws IH]; simpl; [easy|].
  destruct (starts_with p (c :: ws ++ t)); [discriminate | exact IH].
Qed.

Lemma findall_nil_take (p t ws : text) :
  findall_from p O (t ++ ws) = [] -> findall_from p O t = [].
Proof.
  induction t as [|c t IH]; simpl; [reflexivity|].
  destruct (starts_with p (c :: t ++ ws)) eqn:E; [discriminate|].
  intros H. destruct (starts_with p (c :: t)) eqn:E'.
  - apply (starts_with_app _ _ ws) in E'. simpl in E', E. congruence.
  - apply IH, H.
Qed.

Lemma findall_nil_strip (p t : text) :
  findall_literal p t = [] -> findall_literal p (strip t) = [].
Proof.
  unfold findall_literal, strip. intros H.
  destruct (lstrip_suffix t) as [ws Hl].
  destruct (rstrip_prefix (lstrip t)) as [ws' Hr].
  rewrite Hl in H. apply findall_nil_drop in H.
  rewrite Hr in H. apply findall_nil_take in H. exact H.
Qed.

(** What the sanitizer returns: the six grave accents when the text
    contains them, the stripped text otherwise. *)
Lemma strip_code_fences_cases (t : text) :
  (findall_literal fence_pattern t = [] /\ strip_code_fences t = strip t)
  \/ (findall_literal fence_pattern t <> [] /\ strip_code_fences t = fence_pattern).
Proof.
  unfold strip_code_fences.
  pose proof (findall_from_all fence_pattern O t) as H.
  fold (findall_literal fence_pattern t) in H.
  destruct (findall_literal fence_pattern t) as [|b l]; [left; easy|].
  right. split; [easy|]. inversion H; subst. reflexivity.
Qed.

End StripFacts.


(** C1. On a text made of a fenced code block followed by commentary the
    sanitizer does not return the contents of the block: it finds no run
    of six grave accents and returns the whole text, fences and commentary
    included. *)
Theorem C1_fenced_block_not_extracted :
  strip_code_fences fenced_answer = fenced_answer
  /\ strip_code_fences fenced_answer <> lit "x = 1".
Proof. split; [reflexivity | discriminate]. Qed.

(** C6. The sanitizer is idempotent:
    [strip_code_fences (strip_code_fences t) = strip_code_fences t]. *)
Theorem C6_strip_code_fences_idempotent (t : text) :
  strip_code_fences (strip_code_fences t) = strip_code_fences t.
Proof.
  destruct (strip_code_fences_cases t) as [[Hn ->] | [_ ->]].
  - unfold strip_code_fences. rewrite (findall_nil_strip _ _ Hn). apply strip_idem.
  - reflexivity.
Qed.

(** ** Mismatch extraction *)

Section MismatchFacts.

Lemma map_py_str (r : row) : map py_str r = r.
Proof. induction r as [|x r IH]; simpl; [|rewrite IH]; reflexivity. Qed.

Lemma combine_fst_snd (l : list (row * row)) :
  combine (map (fun t => map py_str t.1) l) (map (fun t => map py_str t.2) l) = l.
Proof.
  induction l as [|[e a] l IH]; simpl; [reflexivity|].
  rewrite !map_py_str, IH. reflexivity.
Qed.

(** The code (filter, then slice) computes what the specification's
    wording describes (scan until the budget is spent). *)
Lemma take_mismatched (n : nat) (es as_ : list row) :
  take n (mismatched es as_) = first_mismatches n es as_.
Proof.
  revert n as_; induction es as [|e es IH]; intros n [|a as_];
    try (destruct n; reflexivity).
  destruct n as [|n]; [reflexivity|].
  unfold mismatched in *. simpl. unfold row_neq at 1. simpl.
  destruct (bool_decide (e = a)) eqn:E; simpl; rewrite IH; reflexivity.
Qed.

Lemma first_mismatches_differ (n : nat) (es as_ : list row) :
  Forall (fun p => p.1 <> p.2) (first_mismatches n es as_).
Proof.
  revert n as_; induction es as [|e es IH]; intros [|n] [|a as_]; simpl; try constructor.
  destruct (bool_decide (e = a)) eqn:E; [apply IH|].
  constructor; [|apply IH]. simpl. intros ->.
  rewrite bool_decide_eq_true_2 in E; [discriminate | reflexivity].
Qed.

Lemma first_mismatches_length (n : nat) (es as_ : list row) :
  (length (first_mismatches n es as_) <= n)%nat.
Proof.
  revert n as_; induction es as [|e es IH]; intros [|n] [|a as_]; simpl; try lia.
  destruct (bool_decide (e = a)); simpl.
  - apply (IH (S n)).
  - specialize (IH n as_). lia.
Qed.

End MismatchFacts.

(** C4. Whatever the expected and the actual rows are, mismatch extraction
    keeps at most 5 expected rows and at most 5 actual rows, and the pairs
    kept are the first 5 pairs of differing rows, in the order of the
    rows; the [except] branch keeps none. *)
Theorem C4_at_most_five_first_mismatches (df_expected df_actual : list row) :
  let m := collect_mismatches df_expected df_actual in
  (length (expected m) <= 5)%nat
  /\ (length (actual m) <= 5)%nat
  /\ combine (expected m) (actual m) = first_mismatches 5 df_expected df_actual
  /\ combine (expected m) (actual m) = take 5 (mismatched df_expected df_actual)
  /\ Forall (fun p => p.1 <> p.2) (combine (expected m) (actual m))
  /\ length (expected no_mismatches) = 0%nat
  /\ length (actual no_mismatches) = 0%nat.
Proof.
  simpl. rewrite !length_map, combine_fst_snd, take_mismatched.
  repeat split; try apply first_mismatches_length.
  apply first_mismatches_differ.
Qed.

(** ** The table preview *)


Section PreviewFacts.

Lemma strip_nonempty_content (s : text) :
  strip s <> [] -> exists x, In x s /\ py_isspace x = false.
Proof.
  unfold strip. intros H.
  pose proof (lstrip_head s) as Hh. destruct (lstrip_suffix s) as [ws Hs].
  destruct (lstrip s) as [|c r]; [easy|].
  exists c. split; [|exact Hh]. rewrite Hs. apply in_or_app. right. left. reflexivity.
Qed.

Lemma clean_cell_not_none (c : cell) : clean_cell c <> None.
Proof. destruct c as [[|x s]|]; discriminate. Qed.

Lemma clean_row_ok (r : list cell) :
  existsb cell_nonblank (map clean_cell r) = true -> row_ok (map clean_cell r).
Proof.
  intros H. split.
  - apply List.Forall_forall. intros c [c0 [<- _]]%in_map_iff. apply clean_cell_not_none.
  - apply existsb_exists in H as [c [Hin Hc]].
    apply List.Exists_exists. exists c. split; [exact Hin|].
    destruct c as [s|]; [|discriminate]. simpl in Hc.
    destruct (strip_nonempty_content s) as [x Hx].
    + destruct (strip s); [discriminate | discriminate].
    + exists s, x. split; [reflexivity | exact Hx].
Qed.


Variable limit : Z.

Lemma inv_flow_rows (f : flow) : inv_flow limit f -> inv_return limit (rows_of f).
Proof. destruct f; simpl; unfold inv_next, inv_return; intuition lia. Qed.

Lemma scan_rows_inv (tbl : table) (acc : list (list cell)) :
  inv_next limit acc -> inv_flow limit (scan_rows limit tbl acc).
Proof.
  revert acc; induction tbl as [|r tbl IH]; intros acc [Hok Hlen]; simpl; [easy|].
  destruct (existsb cell_nonblank (map clean_cell r)) eqn:E; [|apply IH; easy].
  assert (Hok' : Forall row_ok (acc ++ [map clean_cell r])).
  { apply Forall_app. split; [exact Hok|]. constructor; [|constructor].
    apply clean_row_ok, E. }
  destruct (limit <=? Z.of_nat (length (acc ++ [map clean_cell r]))) eqn:L.
  - simpl. split; [exact Hok'|]. intros H1. specialize (Hlen H1).
    rewrite length_app. simpl. lia.
  - apply IH. split; [exact Hok'|]. intros _. apply Z.leb_gt in L. exact L.
Qed.

Lemma scan_tables_inv (tables : list table) (acc : list (list cell)) :
  inv_next limit acc -> inv_flow limit (scan_tables limit tables acc).
Proof.
  revert acc; induction tables as [|t tables IH]; intros acc H; simpl; [exact H|].
  pose proof (scan_rows_inv t acc H) as Ht.
  destruct (scan_rows limit t acc); simpl in Ht; [apply IH, Ht | exact Ht].
Qed.

Lemma scan_pages_inv (doc : pdf) (idxs : list Z) (acc : list (list cell)) :
  inv_next limit acc -> inv_flow limit (scan_pages limit doc idxs acc).
Proof.
  revert acc; induction idxs as [|i idxs IH]; intros acc H; cbn [scan_pages]; [exact H|].
  destruct ((i <? 0) || (Z.of_nat (length doc) <=? i)); [apply IH, H|].
  destruct (doc !! Z.to_nat i) as [pg|]; [|apply IH, H].
  destruct (extract_tables pg) as [|t ts] eqn:E; [apply IH, H|].
  pose proof (scan_tables_inv (t :: ts) acc H) as Ht.
  destruct (scan_tables limit (t :: ts) acc); [apply IH, Ht | exact Ht].
Qed.

End PreviewFacts.

Lemma candidate_pages_size (total_pages : Z) :
  (1 <= size (candidate_pages total_pages) <= 3)%nat.
Proof.
  unfold candidate_pages. split.
  - assert (H : ({[0]} : gset Z) ⊆ {[0]} ∪ {[total_pages / 2]} ∪ {[total_pages - 1]})
      by set_solver.
    apply subseteq_size in H. rewrite size_singleton in H. exact H.
  - pose proof (size_union_alt ({[0]} ∪ {[total_pages / 2]} : gset Z) {[total_pages - 1]}) as H1.
    pose proof (size_union_alt ({[0]} : gset Z) {[total_pages / 2]}) as H2.
    set (a := total_pages / 2) in *. set (b := total_pages - 1) in *.
    assert (H3 : (size (({[b]} : gset Z) ∖ ({[0%Z]} ∪ {[a]})) <= 1)%nat).
    { rewrite <- (size_singleton (C:=gset Z) b). apply subseteq_size.
      intros x Hx. apply elem_of_difference in Hx as [Hx _]. exact Hx. }
    assert (H4 : (size (({[a]} : gset Z) ∖ {[0%Z]}) <= 1)%nat).
    { rewrite <- (size_singleton (C:=gset Z) a). apply subseteq_size.
      intros x Hx. apply elem_of_difference in Hx as [Hx _]. exact Hx. }
    rewrite size_singleton in H2. lia.
Qed.


(** C10, as stated, fails: with [samples_per_section = 0] the bound is 0
    but one row is returned, the length being tested after the row is
    appended. *)
Lemma C10_counterexample :
  let rows := extract_table_preview one_row_pdf 0 in
  ~ (Z.of_nat (length rows)
     <= 0 * Z.of_nat (size (candidate_pages (Z.of_nat (length one_row_pdf))))).
Proof. vm_compute. intros H. apply H. reflexivity. Qed.

(** C10, amended. For every PDF and every [samples_per_section >= 1], the
    preview holds at most [samples_per_section] times the number of
    candidate pages rows, there are at most 3 candidate pages (so at most
    6 rows with the default of 2), and every row of the preview has no
    [None] cell and has a cell with a character that is not white space. *)
Theorem C10_preview_bounded (doc : pdf) (samples_per_section : Z)
    (Hs : 1 <= samples_per_section) :
  let rows := extract_table_preview doc samples_per_section in
  let cand := candidate_pages (Z.of_nat (length doc)) in
  Z.of_nat (length rows) <= samples_per_section * Z.of_nat (size cand)
  /\ (size cand <= 3)%nat
  /\ Z.of_nat (length rows) <= samples_per_section * 3
  /\ (samples_per_section = default_samples_per_section -> (length rows <= 6)%nat)
  /\ Forall row_ok rows.
Proof.
  intros rows cand. pose proof (candidate_pages_size (Z.of_nat (length doc))) as Hc.
  fold cand in Hc.
  assert (H0 : inv_next (samples_per_section * Z.of_nat (size cand)) []).
  { split; [constructor | simpl; lia]. }
  destruct (inv_flow_rows _ _ (scan_pages_inv _ doc (sorted cand) [] H0)) as [Hok Hlen].
  fold (extract_table_preview doc samples_per_section) in Hok, Hlen. fold rows in Hok, Hlen.
  assert (Hb : Z.of_nat (length rows) <= samples_per_section * Z.of_nat (size cand)) by (apply Hlen; nia).
  repeat split; try assumption; try lia; try nia.
  unfold default_samples_per_section. intros ->. nia.
Qed.

Lemma C10_preview_bounded_witness :
  let rows := extract_table_preview one_row_pdf 2 in
  1 <= 2 /\ Z.of_nat (length rows) <= 2 * 3 /\ Forall row_ok rows.
Proof.
  split; [lia|].
  pose proof (C10_preview_bounded one_row_pdf 2 ltac:(lia)) as H.
  split; [apply H | apply H].
Defined.


(** ** One iteration of the loop *)

(** Tactics that run one iteration symbolically, path by path. *)

Ltac unfold_body :=
  cbv beta iota zeta delta
    [attempt_body call_groq syntax_check run_tests extract_mismatches ensure_test_file
     regex_fallback open_sample mkdir write_text emit path_exists get_log get_disk
     bind ret sys_exit raise];
  cbn [disk log fst snd].

Ltac case_paths :=
  repeat (match goal with
          | |- context [match ?x with _ => _ end] =>
              lazymatch x with
              | context [match _ with _ => _ end] => fail
              | _ => destruct x eqn:?
              end
          end;
          cbn [disk log fst snd]).

Ltac norm_hyps :=
  repeat match goal with
         | H : negb _ = true |- _ => apply negb_true_iff in H
         | H : negb _ = false |- _ => apply negb_false_iff in H
         | H : (_ =? _) = true |- _ => apply Z.eqb_eq in H
         | H : (_ =? _) = false |- _ => apply Z.eqb_neq in H
         | H : bool_decide _ = true |- _ => apply bool_decide_eq_true in H
         | H : bool_decide _ = false |- _ => apply bool_decide_eq_false in H
         end.

Ltac split_in H :=
  simpl in H;
  repeat (destruct H as [H|H]; [try discriminate H|]);
  try contradiction.

Ltac in_tac := simpl; repeat first [left; reflexivity | right].

Ltac lookup_tac :=
  repeat first [ apply lookup_insert_eq
               | rewrite lookup_insert_ne by congruence ].

Ltac count_tac :=
  unfold count; simpl;
  repeat match goal with
         | |- context [?z =? 200] => rewrite (proj2 (Z.eqb_eq z 200)) by assumption
         | |- context [?z =? 200] => rewrite (proj2 (Z.eqb_neq z 200)) by assumption
         | |- context [bool_decide (?x = ?x)] =>
             rewrite (bool_decide_eq_true_2 (x = x)) by reflexivity
         | |- context [bool_decide (?x = ?y)] =>
             rewrite (bool_decide_eq_false_2 (x = y)) by congruence
         end;
  simpl; try lia; try reflexivity.

Ltac writes_tac :=
  unfold count; cbn [List.filter writes_to];
  repeat (first [ rewrite bool_decide_eq_true_2 by reflexivity
                | rewrite bool_decide_eq_false_2 by congruence ];
          cbn [List.filter writes_to]);
  cbn [length]; try lia; try reflexivity.

Ltac ev_ok_tac :=
  cbn [ev_ok];
  first [ exact I
        | symmetry; assumption
        | left; reflexivity
        | right; left; split; [reflexivity | congruence]
        | right; right; split; [reflexivity | assumption]
        | eexists; split; [lookup_tac | assumption] ].

(** Splits a list of events, given by its elements, at its failed test run. *)
Ltac split_at_tests evs acc :=
  lazymatch evs with
  | RunTests (Attempt _) _ false :: ?post => exists acc, post
  | ?x :: ?rest => let acc' := eval cbn [app] in (acc ++ [x]) in split_at_tests rest acc'
  end.

(** Splits a list of events, given by its elements, before its failed test
    run. *)
Ltac split_before_tests evs acc :=
  lazymatch evs with
  | RunTests (Attempt _) _ false :: _ => exists acc
  | ?x :: ?rest =>
      let acc' := eval cbn [app] in (acc ++ [x]) in split_before_tests rest acc'
  end.

(** The iteration ended inside the candidate. *)
Ltac ended_tac :=
  unfold ended_in_candidate; cbn [disk log];
  match goal with
  | |- exists pre a code, ?evs = _ /\ _ => split_before_tests evs (@nil event)
  end;
  do 2 eexists; (split; [reflexivity|]);
  (split; [rewrite <- ?app_assoc in *; cbn [app] in *; eassumption | reflexivity]).

(** Splits a list of events, given by its elements, before its last one. *)
Ltac split_last l acc :=
  lazymatch l with
  | [_] => exists acc
  | ?x :: ?rest => let acc' := eval cbn [app] in (acc ++ [x]) in split_last rest acc'
  end.

Section Body.

Context (w : world) (target : string) (cfg : bank_cfg) (max_attempts : Z)
  (headers : list text).

Hypothesis Hpt : cfg_parser_path cfg <> test_file_of target.
Hypothesis Hat :
  path_join artifacts_dir (path_name (cfg_parser_path cfg)) <> test_file_of target.
Hypothesis Hap :
  path_join artifacts_dir (path_name (cfg_parser_path cfg)) <> cfg_parser_path cfg.
Hypothesis Hpdf : is_Some (open_pdf w (cfg_sample_pdf cfg)).

Lemma attempt_body_facts (a : Z) (p : text * text) (s : state) :
  exists evs,
    body_facts w max_attempts (cfg_sample_pdf cfg) (cfg_parser_path cfg)
      (test_file_of target)
      (path_join artifacts_dir (path_name (cfg_parser_path cfg))) a
      (attempt_body w target cfg max_attempts headers a p s).1 s
      (attempt_body w target cfg max_attempts headers a p s).2 evs.
Proof.
  destruct Hpdf as [doc Hdoc]. destruct s as [d l].
  unfold body_facts. unfold_body.
  remember (path_join artifacts_dir (path_name (cfg_parser_path cfg))) as qp eqn:Eap.
  remember (test_file_of target) as tp eqn:Etf.
  remember (cfg_parser_path cfg) as cp eqn:Epp.
  clear Epp Etf Eap.
  case_paths; try congruence; norm_hyps.
  all: eexists; split; [cbn [log]; rewrite <- ?app_assoc; reflexivity|].
  all: cbn [app disk log replay fold_left apply_event].
  all: split; [reflexivity|].
  all: split; [repeat (apply List.Forall_cons; [ev_ok_tac|]); apply List.Forall_nil|].
  all: split; [repeat (apply List.Forall_cons; [cbn; first [exact I | reflexivity]|]); apply List.Forall_nil|].
  all: split; [intros v Hv; try discriminate Hv;
               (split; [assumption|]); (split; [reflexivity|]);
               first [ solve [left; do 2 eexists; in_tac]
                     | solve [right; eexists; in_tac] ] |].
  all: split; [intros Hne; first [reflexivity | contradiction]|].
  all: split; [(split; [count_tac|]); (split; count_tac)|].
  all: split; [intros [d0 Hin] Hmax; split_in Hin; try contradiction;
               (split; [first [ left; solve [count_tac]
                              | right; split; [solve [count_tac] | ended_tac] ]
                       | eexists; reflexivity])|].
  all: split; [intros c e Hin Hmax; split_in Hin; try contradiction;
               injection Hin as <- <-;
               (split; [reflexivity|]); (split; [lookup_tac|]); (split; [reflexivity|]);
               do 4 eexists; reflexivity|].
  all: split; [intros [d0 Hin]; split_in Hin;
               repeat split; count_tac|].
  all: split; [writes_tac|]; split.
  all: first
    [ solve [intros Hs; writes_tac]
    | solve [intros Hs; exfalso;
             match goal with
             | H : ~ is_Some _ |- _ => apply H; rewrite lookup_insert_ne by congruence; exact Hs
             end]
    | solve [intros Hc; exfalso; revert Hc; writes_tac]
    | solve [intros _; rewrite ?lookup_insert_ne by congruence;
             rewrite lookup_insert_eq; eauto] ].
Qed.

End Body.

(** ** The loop and the whole run *)

Section LogFacts.

Lemma count_app (f : event -> bool) (a b : list event) :
  count f (a ++ b) = (count f a + count f b)%nat.
Proof. unfold count. rewrite List.filter_app, length_app. reflexivity. Qed.

Lemma count_le (f g : event -> bool) (evs : list event) :
  (forall e, f e = true -> g e = true) -> (count f evs <= count g evs)%nat.
Proof.
  intros H. unfold count. induction evs as [|e evs IH]; simpl; [lia|].
  destruct (f e) eqn:E; [rewrite (H _ E); simpl; lia|].
  destruct (g e); simpl; lia.
Qed.

Lemma no_fallback_counts (evs : list event) :
  count is_fallback evs = 0%nat ->
  count fb_post evs = 0%nat /\ count fb_compile evs = 0%nat /\ count fb_tests evs = 0%nat
  /\ count fb_post_ok evs = 0%nat /\ count fb_compile_ok evs = 0%nat.
Proof.
  intros H.
  assert (A : forall f, (forall e, f e = true -> is_fallback e = true) -> count f evs = 0%nat).
  { intros f Hf. pose proof (count_le f is_fallback evs Hf). lia. }
  repeat split; apply A; intros [] E; simpl in *; try discriminate;
    repeat match goal with s : site |- _ => destruct s end;
    repeat match goal with o : option text |- _ => destruct o end;
    simpl in *; congruence.
Qed.

Lemma replay_app (d : gmap string text) (a b : list event) :
  replay d (a ++ b) = replay (replay d a) b.
Proof. unfold replay. apply fold_left_app. Qed.

Lemma attempt_failed_app_l (a b : list event) (n : Z) :
  attempt_failed a n -> attempt_failed (a ++ b) n.
Proof.
  intros [(c & e & H) | (d & H)]; [left; exists c, e | right; exists d];
    apply in_or_app; left; exact H.
Qed.

Lemma attempt_failed_app_r (a b : list event) (n : Z) :
  attempt_failed b n -> attempt_failed (a ++ b) n.
Proof.
  intros [(c & e & H) | (d & H)]; [left; exists c, e | right; exists d];
    apply in_or_app; right; exact H.
Qed.

Lemma attempt_failed_app (a b : list event) (n : Z) :
  attempt_failed (a ++ b) n -> attempt_failed a n \/ attempt_failed b n.
Proof.
  intros [(c & e & H) | (d & H)]; apply in_app_or in H as [H|H];
    [left; left | right; left | left; right | right; right]; eauto.
Qed.

Lemma site_of_in (P : Z -> Prop) (evs : list event) (e : event) :
  Forall (ev_site P) evs -> In e evs -> ev_site P e.
Proof. intros H Hin. rewrite List.Forall_forall in H. apply H, Hin. Qed.

Lemma attempt_failed_site (P : Z -> Prop) (evs : list event) (n : Z) :
  Forall (ev_site P) evs -> attempt_failed evs n -> P n.
Proof.
  intros H [(c & e & Hin) | (d & Hin)]; apply (site_of_in _ _ _ H Hin).
Qed.

Lemma ev_site_weaken (P Q : Z -> Prop) (evs : list event) :
  (forall n, P n -> Q n) -> Forall (ev_site P) evs -> Forall (ev_site Q) evs.
Proof.
  intros HPQ H. eapply List.Forall_impl; [|exact H].
  intros [] He; simpl in *; try exact I;
    match goal with s : site |- _ => destruct s end; auto.
Qed.

Lemma ended_in_candidate_app {A} (w : world) (sample pp : string)
    (history evs1 evs2 : list event) (r : res A) (s' : state) :
  ended_in_candidate w sample pp (history ++ evs1) evs2 r s' ->
  ended_in_candidate w sample pp history (evs1 ++ evs2) r s'.
Proof.
  intros (pre & a & code & -> & Hload & ->). exists (evs1 ++ pre), a, code.
  split; [rewrite app_assoc; reflexivity|]. split; [|reflexivity].
  rewrite <- !app_assoc in *. exact Hload.
Qed.

Lemma ended_in_candidate_halt {A B} (w : world) (sample pp : string)
    (history evs : list event) (h : halt) (s' : state) :
  ended_in_candidate (A:=A) w sample pp history evs (Halt h) s' ->
  ended_in_candidate (A:=B) w sample pp history evs (Halt h) s'.
Proof.
  intros (pre & a & code & -> & Hload & Hr). injection Hr as ->.
  exists pre, a, code. split; [reflexivity|]. split; [exact Hload | reflexivity].
Qed.

End LogFacts.


Lemma replay_no_write (tf : string) (evs : list event) (d : gmap string text) :
  count (writes_to tf) evs = 0%nat -> replay d evs !! tf = d !! tf.
Proof.
  revert d; induction evs as [|e evs IH]; intros d H; [reflexivity|].
  change (replay d (e :: evs)) with (replay (apply_event d e) evs).
  unfold count in H. simpl in H.
  destruct (writes_to tf e) eqn:E; [discriminate|].
  rewrite IH by exact H.
  destruct e; try reflexivity. simpl in *.
  apply bool_decide_eq_false in E. apply lookup_insert_ne. exact E.
Qed.

Section Loop.

Context (w : world) (target : string) (cfg : bank_cfg) (max_attempts : Z)
  (headers : list text).

Hypothesis Hpt : cfg_parser_path cfg <> test_file_of target.
Hypothesis Hat :
  path_join artifacts_dir (path_name (cfg_parser_path cfg)) <> test_file_of target.
Hypothesis Hap :
  path_join artifacts_dir (path_name (cfg_parser_path cfg)) <> cfg_parser_path cfg.
Hypothesis Hpdf : is_Some (open_pdf w (cfg_sample_pdf cfg)).

Lemma attempts_facts (todo : list Z) :
  NoDup todo ->
  forall (p : text * text) (s : state),
  exists evs,
    loop_facts w max_attempts (cfg_sample_pdf cfg) (cfg_parser_path cfg)
      (test_file_of target)
      (path_join artifacts_dir (path_name (cfg_parser_path cfg))) todo
      (attempts w target cfg max_attempts headers todo p s).1 s
      (attempts w target cfg max_attempts headers todo p s).2 evs.
Proof.
  induction todo as [|a rest IH]; intros Hnd p s.
  - exists []. unfold loop_facts. simpl. rewrite app_nil_r.
    repeat split; try constructor; try reflexivity; try lia;
      try (intros [? []]); try easy;
      match goal with H : exists _, False |- _ => destruct H as [_ []] end.
  - apply NoDup_cons in Hnd as [Hnotin Hnd].
    destruct (attempt_body_facts w target cfg max_attempts headers Hpt Hat Hpdf a p s)
      as [evs1 H1].
    cbn [attempts]. unfold bind.
    destruct (attempt_body w target cfg max_attempts headers a p s) as [[v|h] s1].
    + destruct (IH Hnd v s1) as [evs2 H2].
      destruct (attempts w target cfg max_attempts headers rest v s1) as [r s2].
      cbn [fst snd] in *.
      destruct H1 as (Hlog1 & Hdisk1 & Hok1 & Hsite1 & Hval & _ & _ & _ & _ & Htrue1 & Hwr1).
      destruct (Hval v eq_refl) as (Hne & Hnf1 & Hfail1).
      destruct (no_fallback_counts _ Hnf1) as (Z1 & Z2 & Z3 & Z4 & Z5).
      destruct H2 as (Hlog2 & Hdisk2 & Hok2 & Hsite2 & Hcnt2 & Hfalse2 & Hsyn2 & Hwr2 & Hlast2 & _).
      exists (evs1 ++ evs2). unfold loop_facts.
      rewrite !count_app, Z1, Z2, Z3, Z4, Z5, Hnf1. cbn [Nat.add].
      split; [rewrite Hlog2, Hlog1, app_assoc; reflexivity|].
      split; [rewrite Hdisk2, Hdisk1, replay_app; reflexivity|].
      split; [apply Forall_app; split; assumption|].
      split; [apply Forall_app; split;
              [eapply ev_site_weaken; [|exact Hsite1]; intros n <-; left; reflexivity
              |eapply ev_site_weaken; [|exact Hsite2]; intros n Hn; right; exact Hn]|].
      split; [exact Hcnt2|].
      split.
      { intros [d Hin]. apply in_app_or in Hin as [Hin|Hin].
        - exfalso. apply Hne. exact (site_of_in _ _ _ Hsite1 Hin).
        - destruct Hfalse2 as [[Hc | [Hz He]] Hh]; [exists d; exact Hin | |].
          + split; [left; exact Hc | exact Hh].
          + split; [right; split; [exact Hz|] | exact Hh].
            apply ended_in_candidate_app. rewrite <- Hlog1. exact He. }
      split.
      { intros c e Hin. apply in_app_or in Hin as [Hin|Hin].
        - exfalso. apply Hne. exact (site_of_in _ _ _ Hsite1 Hin).
        - destruct (Hsyn2 c e Hin) as (Hr & Hd & Hnf2 & pre & m & sp & up & st & Hevs).
          split; [exact Hr|]. split; [exact Hd|]. split; [exact Hnf2|].
          exists (evs1 ++ pre), m, sp, up, st. rewrite Hevs, app_assoc. reflexivity. }
      split.
      { destruct Hwr1 as (Hw1 & Hs1 & Hc1). destruct Hwr2 as (Hw2 & Hs2 & Hc2).
        assert (Hkeep : count (writes_to (test_file_of target)) evs1 = 0%nat ->
                        disk s1 !! test_file_of target = disk s !! test_file_of target).
        { intros Hz. rewrite Hdisk1. apply replay_no_write, Hz. }
        split; [|split].
        - destruct (decide (1 <= count (writes_to (test_file_of target)) evs1)%nat) as [Hge|Hlt].
          + rewrite (Hs2 (Hc1 Hge)). lia.
          + lia.
        - intros Hs. rewrite (Hs1 Hs). rewrite Hs2; [reflexivity|].
          rewrite Hkeep; [exact Hs | exact (Hs1 Hs)].
        - intros Hge.
          destruct (decide (1 <= count (writes_to (test_file_of target)) evs2)%nat) as [Hge2|Hlt2].
          + exact (Hc2 Hge2).
          + rewrite Hdisk2, replay_no_write by lia. apply Hc1. lia. }
      split.
      { intros m Hm Hfm x Hx.
        destruct Hx as [<-|Hx]; [apply attempt_failed_app_l, Hfail1|].
        apply attempt_failed_app_r.
        assert (Hm' : last rest = Some m).
        { destruct rest as [|b rest']; [destruct Hx|]. exact Hm. }
        apply (Hlast2 m Hm'); [|exact Hx].
        apply attempt_failed_app in Hfm as [Hf|Hf]; [|exact Hf].
        exfalso. apply Hnotin.
        rewrite (attempt_failed_site _ _ _ Hsite1 Hf).
        eapply last_Some_elem_of, Hm'. }
      { intros a0 rest0 Heq [d Hin]. injection Heq as <- <-.
        apply in_app_or in Hin as [Hin|Hin].
        - destruct Htrue1 as [Hr _]; [exists d; exact Hin | discriminate Hr].
        - exfalso. apply Hnotin. apply list_elem_of_In.
          exact (site_of_in _ _ _ Hsite2 Hin). }
    + cbn [fst snd] in *.
      destruct H1 as (Hlog1 & Hdisk1 & Hok1 & Hsite1 & _ & _ & Hcnt1 & Hfalse1 & Hsyn1 & Htrue1 & Hwr1).
      exists evs1. unfold loop_facts.
      split; [exact Hlog1|]. split; [exact Hdisk1|]. split; [exact Hok1|].
      split; [eapply ev_site_weaken; [|exact Hsite1]; intros n <-; left; reflexivity|].
      split; [exact Hcnt1|].
      split.
      { intros [d Hin]. pose proof (site_of_in _ _ _ Hsite1 Hin) as Ha. simpl in Ha.
        subst a. destruct Hfalse1 as [[Hc | [Hz He]] _]; [exists d; exact Hin | reflexivity | |].
        - split; [left; exact Hc | exists h; reflexivity].
        - split; [right; split; [exact Hz|] | exists h; reflexivity].
          apply (ended_in_candidate_halt (A:=text * text)). exact He. }
      split.
      { intros c e Hin. pose proof (site_of_in _ _ _ Hsite1 Hin) as Ha. simpl in Ha.
        subst a. destruct (Hsyn1 c e Hin eq_refl) as (Hr & Hd & Hnf & m & sp & up & st & Hevs).
        injection Hr as ->.
        split; [reflexivity|]. split; [exact Hd|]. split; [exact Hnf|].
        exists [], m, sp, up, st. exact Hevs. }
      split; [exact Hwr1|].
      split.
      { intros m Hm Hfm x Hx.
        pose proof (attempt_failed_site _ _ _ Hsite1 Hfm) as Ha. subst m.
        destruct Hx as [<-|Hx]; [exact Hfm|].
        exfalso. apply Hnotin.
        destruct rest as [|b rest']; [destruct Hx|].
        eapply last_Some_elem_of. exact Hm. }
      { intros a0 rest0 Heq Hin. injection Heq as <- <-.
        destruct (Htrue1 Hin) as (Hr & Hrest). injection Hr as ->.
        split; [reflexivity | exact Hrest]. }
Qed.

End Loop.



Lemma bank_config_lookup (target : string) (cfg : bank_cfg) :
  BANK_CONFIG !! target = Some cfg -> target = "icici"%string /\ cfg = icici_cfg.
Proof.
  unfold BANK_CONFIG. intros H. apply lookup_singleton_Some in H as [<- <-].
  split; reflexivity.
Qed.

Lemma run_halted_early (w : world) (target : string) (cfg : bank_cfg)
    (d : gmap string text) (h : halt) (pre : list event) :
  Forall (fun e => match e with ReadCsv _ | OpenPdf _ => True | _ => False end) pre ->
  run_facts w target cfg d (Halt h) {| disk := d; log := pre |}.
Proof.
  intros Hpre. unfold run_facts. cbn [disk log].
  assert (Hno : forall e, In e pre -> match e with ReadCsv _ | OpenPdf _ => True | _ => False end).
  { apply List.Forall_forall, Hpre. }
  assert (Hc : forall f, (forall e, f e = true -> match e with ReadCsv _ | OpenPdf _ => False | _ => True end) ->
                         count f pre = 0%nat).
  { intros f Hf. unfold count. induction pre as [|e pre IH]; [reflexivity|].
    simpl. destruct (f e) eqn:E.
    - exfalso. specialize (Hf e E). specialize (Hno e (or_introl eq_refl)).
      destruct e; contradiction.
    - apply IH; [inversion Hpre; assumption | intros; apply Hno; right; assumption]. }
  assert (Hr : replay d pre = d).
  { clear Hc. induction pre as [|e pre IH]; [reflexivity|].
    change (replay d (e :: pre)) with (replay (apply_event d e) pre).
    pose proof (Hno e (or_introl eq_refl)). destruct e; try contradiction;
      (apply IH; [inversion Hpre; assumption | intros; apply Hno; right; assumption]). }
  rewrite !Hc by (intros [] E; simpl in *; try discriminate; exact I).
  split; [symmetry; exact Hr|].
  split; [eapply List.Forall_impl; [|exact Hpre]; intros []; simpl; easy|].
  split; [repeat split; lia|].
  split; [intros [d' Hin]; destruct (Hno _ Hin)|].
  split; [intros c e Hin; destruct (Hno _ Hin)|].
  split; [split; [lia | reflexivity]|].
  intros [d' Hin]; destruct (Hno _ Hin).
Qed.

Lemma run_has_facts (w : world) (target : string) (cfg : bank_cfg) (d : gmap string text) :
  BANK_CONFIG !! target = Some cfg ->
  run_facts w target cfg d (run w target d).1 (run w target d).2.
Proof.
  intros Hcfg. destruct (bank_config_lookup _ _ Hcfg) as [-> ->].
  unfold run, script. destruct (api_key_missing w).
  { apply run_halted_early. constructor. }
  unfold main, main_with. rewrite Hcfg.
  unfold load_expected_headers, open_sample, bind, emit, ret, raise. cbn [disk log app].
  destruct (read_csv_columns w (cfg_expected_csv icici_cfg)) as [headers|].
  2:{ apply run_halted_early. repeat constructor. }
  destruct (open_pdf w (cfg_sample_pdf icici_cfg)) as [doc|] eqn:Hdoc.
  2:{ apply run_halted_early. repeat constructor. }
  cbn [disk log app].
  set (p := build_initial_prompt w "icici" headers
              (extract_table_preview doc default_samples_per_section)).
  set (s0 := {| disk := d; log := [ReadCsv (cfg_expected_csv icici_cfg);
                                  OpenPdf (cfg_sample_pdf icici_cfg)] |}).
  change (py_range 1 (default 3 (cfg_max_attempts icici_cfg) + 1)) with [1; 2; 3].
  change (default 3 (cfg_max_attempts icici_cfg)) with 3.
  assert (Hnd : NoDup [1; 2; 3]).
  { repeat constructor; intros H; repeat (apply elem_of_cons in H as [H|H]; [lia|]);
      inversion H. }
  destruct (attempts_facts w "icici" icici_cfg 3 headers
              ltac:(discriminate) ltac:(discriminate) ltac:(rewrite Hdoc; eauto)
              [1; 2; 3] Hnd p s0) as [evs H].
  destruct (attempts w "icici" icici_cfg 3 headers [1; 2; 3] p s0) as [r s'].
  cbn [fst snd] in *.
  destruct H as (Hlog & Hdisk & Hok & Hsite & Hcnt & Hfalse & Hsyn & Hwr & Hlast & Hfirst).
  subst s0. cbn [log disk] in *.
  assert (Hall : attempt_failed evs 3 -> all_attempts_failed (log s') 3).
  { intros Hf a Ha. rewrite Hlog. apply attempt_failed_app_r.
    apply (Hlast 3 eq_refl Hf). simpl. lia. }
  unfold run_facts. change (default 3 (cfg_max_attempts icici_cfg)) with 3.
  cbn zeta. rewrite Hlog in *.
  rewrite !count_app.
  change (count fb_post [ReadCsv _; OpenPdf _]) with 0%nat.
  change (count fb_compile [ReadCsv _; OpenPdf _]) with 0%nat.
  change (count fb_post_ok [ReadCsv _; OpenPdf _]) with 0%nat.
  change (count fb_compile_ok [ReadCsv _; OpenPdf _]) with 0%nat.
  change (count fb_tests [ReadCsv _; OpenPdf _]) with 0%nat.
  change (count is_fallback [ReadCsv _; OpenPdf _]) with 0%nat.
  change (count is_post [ReadCsv _; OpenPdf _]) with 0%nat.
  change (count is_compile [ReadCsv _; OpenPdf _]) with 0%nat.
  change (count is_tests [ReadCsv _; OpenPdf _]) with 0%nat.
  change (count (writes_to (test_file_of "icici")) [ReadCsv _; OpenPdf _]) with 0%nat.
  cbn [Nat.add].
  split; [rewrite Hdisk; reflexivity|].
  split; [apply Forall_app; split; [repeat constructor | exact Hok]|].
  split; [exact Hcnt|].
  split.
  { intros [d' Hin]. apply in_app_or in Hin as [Hin|Hin];
      [simpl in Hin; intuition discriminate|].
    destruct Hfalse as [Hc Hh]; [exists d'; exact Hin|].
    split.
    - destruct Hc as [Hc | [Hz He]]; [left; exact Hc|].
      right. split; [exact Hz|].
      apply (ended_in_candidate_app _ _ _ []). exact He.
    - split; [exact Hh|]. apply Hall. right. exists d'. exact Hin. }
  split.
  { intros c e Hin. apply in_app_or in Hin as [Hin|Hin];
      [simpl in Hin; intuition discriminate|].
    destruct (Hsyn c e Hin) as (Hr & Hd & Hnf & pre & m & sp & up & st & Hevs).
    split; [exact Hr|]. split; [exact Hd|]. split; [exact Hnf|].
    split.
    - eexists (_ ++ pre), m, sp, up, st. rewrite Hevs, app_assoc. reflexivity.
    - apply Hall. left. exists c, e. exact Hin. }
  split; [split; [apply Hwr | apply Hwr]|].
  intros [d' Hin]. apply in_app_or in Hin as [Hin|Hin];
    [simpl in Hin; intuition discriminate|].
  apply (Hfirst 1 [2; 3] eq_refl). exists d'. exact Hin.
Qed.

(** ** Claims about the controller *)

Lemma run_unknown_target (w : world) (target : string) (d : gmap string text) :
  BANK_CONFIG !! target = None ->
  run w target d = (Halt (SystemExit 1), {| disk := d; log := [] |}).
Proof.
  intros H. unfold run, script. destruct (api_key_missing w); [reflexivity|].
  unfold main, main_with. rewrite H. reflexivity.
Qed.

(** C7. When the target given on the command line is not a key of
    [BANK_CONFIG], the process ends with [sys.exit(1)] and nothing has
    been done: the log is empty, so no request was sent to the generation
    endpoint, and the disk is unchanged. *)
Theorem C7_unknown_target_exits_1 (w : world) (target : string) (d : gmap string text)
    (H : BANK_CONFIG !! target = None) :
  (run w target d).1 = Halt (SystemExit 1)
  /\ exit_status (run w target d).1 = 1
  /\ log (run w target d).2 = []
  /\ count is_post (log (run w target d).2) = 0%nat
  /\ disk (run w target d).2 = d.
Proof. rewrite (run_unknown_target w target d H). repeat split. Qed.

Lemma C7_unknown_target_exits_1_witness :
  BANK_CONFIG !! "hdfc"%string = None
  /\ exit_status (run world_tests_pass "hdfc" ∅).1 = 1
  /\ count is_post (log (run world_tests_pass "hdfc" ∅).2) = 0%nat.
Proof.
  assert (H : BANK_CONFIG !! "hdfc"%string = None) by (vm_compute; reflexivity).
  split; [exact H|].
  pose proof (C7_unknown_target_exits_1 world_tests_pass "hdfc" ∅ H)
    as (_ & Hstatus & _ & Hposts & _).
  split; [exact Hstatus | exact Hposts].
Defined.

(** C8. When [GROQ_API_KEY] is absent from the environment, the script
    ends with [sys.exit(1)] at line 30 before anything else: the log is
    empty (no fixture read, no request sent) and the disk is unchanged,
    whatever the target is. *)
Theorem C8_missing_key_exits_first (w : world) (target : string) (d : gmap string text)
    (H : getenv w "GROQ_API_KEY" = None) :
  run w target d = (Halt (SystemExit 1), {| disk := d; log := [] |})
  /\ exit_status (run w target d).1 = 1
  /\ count is_post (log (run w target d).2) = 0%nat.
Proof.
  assert (E : run w target d = (Halt (SystemExit 1), {| disk := d; log := [] |})).
  { unfold run, script, api_key_missing. rewrite H. reflexivity. }
  rewrite E. repeat split.
Qed.

Lemma C8_missing_key_exits_first_witness :
  getenv world_no_key "GROQ_API_KEY" = None
  /\ run world_no_key "icici" ∅ = (Halt (SystemExit 1), {| disk := ∅; log := [] |}).
Proof.
  split; [reflexivity|].
  pose proof (C8_missing_key_exits_first world_no_key "icici" ∅ eq_refl) as (Hrun & _).
  exact Hrun.
Defined.

Lemma run_log_known_target (w : world) (target : string) (d : gmap string text) (e : event) :
  In e (log (run w target d).2) -> exists cfg, BANK_CONFIG !! target = Some cfg.
Proof.
  destruct (BANK_CONFIG !! target) as [cfg|] eqn:E; [eauto|].
  rewrite (run_unknown_target w target d E). intros [].
Qed.

(** C9. When the candidate of the first iteration reaches the test run
    (so it compiled) and the test run passes, the process ends with
    [sys.exit(0)] after that single attempt: the log holds exactly one
    request to the endpoint, one syntax check and one test run, and no
    event of the fallback block. *)
Theorem C9_first_candidate_passes (w : world) (target : string) (d d' : gmap string text)
    (H : In (RunTests (Attempt 1) d' true) (log (run w target d).2)) :
  (run w target d).1 = Halt (SystemExit 0)
  /\ exit_status (run w target d).1 = 0
  /\ count is_post (log (run w target d).2) = 1%nat
  /\ count is_compile (log (run w target d).2) = 1%nat
  /\ count is_tests (log (run w target d).2) = 1%nat
  /\ count is_fallback (log (run w target d).2) = 0%nat.
Proof.
  destruct (run_log_known_target _ _ _ _ H) as [cfg Hcfg].
  destruct (run_has_facts w target cfg d Hcfg) as (_ & _ & _ & _ & _ & _ & Hfirst).
  destruct Hfirst as (Hr & Hrest); [exists d'; exact H|].
  rewrite Hr. split; [reflexivity|]. split; [reflexivity | exact Hrest].
Qed.

Lemma C9_first_candidate_passes_witness :
  let d' := disk (run world_tests_pass "icici" ∅).2 in
  In (RunTests (Attempt 1) d' true) (log (run world_tests_pass "icici" ∅).2)
  /\ (run world_tests_pass "icici" ∅).1 = Halt (SystemExit 0)
  /\ count is_post (log (run world_tests_pass "icici" ∅).2) = 1%nat.
Proof.
  intros d'.
  assert (H : In (RunTests (Attempt 1) d' true) (log (run world_tests_pass "icici" ∅).2)).
  { apply (nth_error_In _ 8). vm_compute. reflexivity. }
  split; [exact H|].
  pose proof (C9_first_candidate_passes world_tests_pass "icici" ∅ d' H)
    as (Hr & _ & Hposts & _).
  split; [exact Hr | exact Hposts].
Defined.

(** C2, as stated, fails: when the candidate of every iteration, the last
    one included, is rejected by the syntax check, every attempt has failed
    validation and yet the log holds no fallback generation at all. *)
Lemma C2_counterexample :
  let tr := log (run world_syntax_errors "icici" ∅).2 in
  all_attempts_failed tr 3
  /\ ~ (count fb_post tr = 1%nat /\ count fb_compile tr = 1%nat /\ count fb_tests tr = 1%nat).
Proof.
  split.
  - intros a Ha. left.
    exists (strip_code_fences (lit "import pandas")), (lit "invalid syntax").
    assert (Hcases : a = 1 \/ a = 2 \/ a = 3) by lia.
    destruct Hcases as [-> | [-> | ->]];
      [apply (nth_error_In _ 3) | apply (nth_error_In _ 5) | apply (nth_error_In _ 7)];
      vm_compute; reflexivity.
  - vm_compute. intros [H _]. discriminate H.
Qed.

(** C2, amended. In every run there is at most one fallback generation,
    followed by a syntax check exactly when the endpoint answered 200 and
    by a test run exactly when that candidate compiled.  When every
    attempt up to the budget fails validation, either the last attempt
    failed its test run, or it failed its syntax check.  After a failed
    test run of the last attempt there is exactly one fallback generation
    before the process ends, unless the candidate, loaded to extract the
    mismatches, ends the process itself (a [SystemExit] passes the
    [except Exception] of line 256): the load is then the last event and
    there is no fallback.  After a failed syntax check of the last attempt
    there is no fallback: the process ends with [sys.exit(1)]. *)
Theorem C2_fallback_once_after_test_failure (w : world) (target : string)
    (d : gmap string text) (cfg : bank_cfg) (Hcfg : BANK_CONFIG !! target = Some cfg) :
  let max_attempts := default 3 (cfg_max_attempts cfg) in
  let r := (run w target d).1 in
  let tr := log (run w target d).2 in
  let ended_in_load :=
    ended_in_candidate w (cfg_sample_pdf cfg) (cfg_parser_path cfg) [] tr r
      (run w target d).2 in
  ((count fb_post tr <= 1)%nat
   /\ count fb_compile tr = count fb_post_ok tr
   /\ count fb_tests tr = count fb_compile_ok tr)
  /\ (all_attempts_failed tr max_attempts ->
      ((exists d', In (RunTests (Attempt max_attempts) d' false) tr)
       /\ (count fb_post tr = 1%nat \/ (count is_fallback tr = 0%nat /\ ended_in_load))
       /\ (count fb_compile tr <= 1)%nat
       /\ (count fb_tests tr <= 1)%nat /\ exists h, r = Halt h)
      \/ ((exists c e, In (Compile (Attempt max_attempts) c (Some e)) tr)
          /\ count is_fallback tr = 0%nat /\ count fb_post tr = 0%nat
          /\ r = Halt (SystemExit 1)))
  /\ ((exists d', In (RunTests (Attempt max_attempts) d' false) tr) ->
      all_attempts_failed tr max_attempts
      /\ (count fb_post tr = 1%nat \/ (count is_fallback tr = 0%nat /\ ended_in_load)))
  /\ ((exists c e, In (Compile (Attempt max_attempts) c (Some e)) tr) ->
      all_attempts_failed tr max_attempts /\ count fb_post tr = 0%nat).
Proof.
  intros max_attempts r tr ended_in_load.
  destruct (run_has_facts w target cfg d Hcfg) as (_ & _ & Hcnt & Hfalse & Hsyn & _ & _).
  fold max_attempts r tr in Hcnt, Hfalse, Hsyn. fold ended_in_load in Hfalse.
  assert (Hle : (count fb_compile tr <= 1)%nat /\ (count fb_tests tr <= 1)%nat).
  { destruct Hcnt as (H1 & H2 & H3).
    pose proof (count_le fb_post_ok fb_post tr) as A.
    pose proof (count_le fb_compile_ok fb_compile tr) as B.
    split.
    - rewrite H2. etransitivity; [apply A|exact H1].
      intros []; simpl; try discriminate. destruct s; [discriminate | reflexivity].
    - rewrite H3. etransitivity; [apply B|].
      + intros []; simpl; try discriminate. destruct s; [discriminate|].
        destruct error; [discriminate | reflexivity].
      + rewrite H2. etransitivity; [apply A|exact H1].
        intros []; simpl; try discriminate. destruct s; [discriminate | reflexivity]. }
  split; [exact Hcnt|].
  split.
  { intros Hall.
    assert (Hmax : 1 <= max_attempts <= max_attempts).
    { destruct (bank_config_lookup _ _ Hcfg) as [_ ->]. vm_compute. split; discriminate. }
    destruct (Hall max_attempts Hmax) as [(c & e & Hin) | (d' & Hin)].
    - right. destruct (Hsyn c e Hin) as (Hr & _ & Hnf & _).
      split; [exists c, e; exact Hin|]. split; [exact Hnf|].
      split; [apply (no_fallback_counts _ Hnf) | exact Hr].
    - left. destruct Hfalse as (Hc & Hh & _); [exists d'; exact Hin|].
      split; [exists d'; exact Hin|]. split; [exact Hc|].
      split; [apply Hle|]. split; [apply Hle | exact Hh]. }
  split.
  { intros Hin. destruct (Hfalse Hin) as (Hc & _ & Hall). split; assumption. }
  intros (c & e & Hin). destruct (Hsyn c e Hin) as (_ & _ & Hnf & _ & Hall).
  split; [exact Hall | apply (no_fallback_counts _ Hnf)].
Qed.

Lemma C2_fallback_once_after_test_failure_witness :
  let tr := log (run world_tests_fail "icici" ∅).2 in
  BANK_CONFIG !! "icici"%string = Some icici_cfg
  /\ (exists d', In (RunTests (Attempt 3) d' false) tr)
  /\ all_attempts_failed tr 3 /\ count fb_post tr = 1%nat.
Proof.
  intros tr.
  assert (Hcfg : BANK_CONFIG !! "icici"%string = Some icici_cfg) by (vm_compute; reflexivity).
  assert (Hin : exists d', In (RunTests (Attempt 3) d' false) tr).
  { exists (<[cfg_parser_path icici_cfg := strip_code_fences (lit "import pandas")]>
              (disk (run world_tests_pass "icici" ∅).2)).
    apply (nth_error_In _ 22). vm_compute. reflexivity. }
  split; [exact Hcfg|]. split; [exact Hin|].
  pose proof (C2_fallback_once_after_test_failure world_tests_fail "icici" ∅ icici_cfg Hcfg)
    as (_ & _ & Hthen & _).
  destruct (Hthen Hin) as [Hall [Hone | [Hnone _]]].
  - split; [exact Hall | exact Hone].
  - vm_compute in Hnone. discriminate Hnone.
Defined.

(** C3. When the syntax check of the last iteration reports an error for
    the candidate [c], the candidate is written to
    [artifacts/<name of the parser file>] and the process ends with
    [sys.exit(1)], these being the last events of the run; [c] is never
    written to the configured parser path, no test run and no module
    loading ever happens while [c] is the content of the parser path, and
    no fallback is attempted. *)
Theorem C3_final_syntax_error_is_quarantined (w : world) (target : string)
    (d : gmap string text) (cfg : bank_cfg) (c e : text)
    (Hcfg : BANK_CONFIG !! target = Some cfg)
    (H : In (Compile (Attempt (default 3 (cfg_max_attempts cfg))) c (Some e))
            (log (run w target d).2)) :
  let max_attempts := default 3 (cfg_max_attempts cfg) in
  let parser_path := cfg_parser_path cfg in
  let quarantine := path_join artifacts_dir (path_name parser_path) in
  let r := (run w target d).1 in
  let tr := log (run w target d).2 in
  py_compile w c (path_name parser_path) = Some e
  /\ r = Halt (SystemExit 1) /\ exit_status r = 1
  /\ disk (run w target d).2 !! quarantine = Some c
  /\ (exists pre m sp up st,
        tr = pre ++ [Post (Attempt max_attempts) m sp up st;
                     Compile (Attempt max_attempts) c (Some e);
                     Mkdir artifacts_dir; WriteText quarantine c])
  /\ ~ In (WriteText parser_path c) tr
  /\ (forall s d' passed, In (RunTests s d' passed) tr -> d' !! parser_path <> Some c)
  /\ (forall path, ~ In (ExecModule path (Some c)) tr)
  /\ count is_fallback tr = 0%nat.
Proof.
  intros max_attempts parser_path quarantine r tr.
  destruct (run_has_facts w target cfg d Hcfg) as (_ & Hok & _ & _ & Hsyn & _ & _).
  destruct (Hsyn c e H) as (Hr & Hd & Hnf & Hsuffix & _).
  fold r tr in Hr, Hnf, Hok. fold parser_path quarantine in Hd, Hok, Hsuffix.
  fold max_attempts in Hsuffix. fold tr in H.
  assert (Hforall : forall ev, In ev tr ->
            ev_ok w parser_path (test_file_of target) quarantine ev).
  { apply List.Forall_forall, Hok. }
  assert (Hbad : py_compile w c (path_name parser_path) = Some e).
  { symmetry. exact (Hforall _ H). }
  assert (Hpaths : parser_path <> test_file_of target /\ parser_path <> quarantine).
  { subst parser_path quarantine. destruct (bank_config_lookup _ _ Hcfg) as [-> ->].
    split; discriminate. }
  split; [exact Hbad|]. split; [exact Hr|]. split; [rewrite Hr; reflexivity|].
  split; [exact Hd|]. split; [exact Hsuffix|].
  split.
  { intros Hin. destruct (Hforall _ Hin) as [E | [[E _] | [_ E]]].
    - apply (proj1 Hpaths), E.
    - apply (proj2 Hpaths), E.
    - congruence. }
  split.
  { intros s d' passed Hin Hd'. destruct (Hforall _ Hin) as (c' & Hc' & Hcomp).
    congruence. }
  split; [|exact Hnf].
  intros path Hin. destruct (Hforall _ Hin) as (c' & Hc' & Hcomp). congruence.
Qed.

Lemma C3_final_syntax_error_is_quarantined_witness :
  let c := strip_code_fences (lit "import pandas") in
  let e := lit "invalid syntax" in
  BANK_CONFIG !! "icici"%string = Some icici_cfg
  /\ In (Compile (Attempt 3) c (Some e)) (log (run world_syntax_errors "icici" ∅).2)
  /\ (run world_syntax_errors "icici" ∅).1 = Halt (SystemExit 1)
  /\ disk (run world_syntax_errors "icici" ∅).2 !! "artifacts/icici_parser.py"%string = Some c
  /\ ~ In (WriteText "custom_parsers/icici_parser.py" c)
          (log (run world_syntax_errors "icici" ∅).2).
Proof.
  intros c e.
  assert (Hcfg : BANK_CONFIG !! "icici"%string = Some icici_cfg) by (vm_compute; reflexivity).
  assert (Hin : In (Compile (Attempt (default 3 (cfg_max_attempts icici_cfg))) c (Some e))
                  (log (run world_syntax_errors "icici" ∅).2)).
  { apply (nth_error_In _ 7). vm_compute. reflexivity. }
  split; [exact Hcfg|]. split; [exact Hin|].
  pose proof (C3_final_syntax_error_is_quarantined world_syntax_errors "icici" ∅
                icici_cfg c e Hcfg Hin) as (_ & Hr & _ & Hd & _ & Hw & _).
  split; [exact Hr|]. split; [exact Hd | exact Hw].
Defined.

Lemma run_test_file (w : world) (target : string) (d : gmap string text) :
  let tf := test_file_of target in
  let tr := log (run w target d).2 in
  disk (run w target d).2 = replay d tr
  /\ (count (writes_to tf) tr <= 1)%nat
  /\ (is_Some (d !! tf) -> count (writes_to tf) tr = 0%nat).
Proof.
  intros tf tr. subst tr.
  destruct (BANK_CONFIG !! target) as [cfg|] eqn:E.
  - destruct (run_has_facts w target cfg d E) as (Hd & _ & _ & _ & _ & Hwr & _).
    split; [exact Hd|]. exact Hwr.
  - rewrite (run_unknown_target w target d E). cbn. repeat split; lia.
Qed.

(** C5. A run writes the companion test file at most once.  If the file
    exists at some point of a run (after the events [pre]), the rest of the
    run does not write it and it has the same content at the end; and any
    later run of the controller from the resulting disk, in any world,
    does not write it and leaves its content unchanged. *)
Theorem C5_test_file_never_rewritten (w : world) (target : string)
    (d : gmap string text) (pre post : list event) (c : text)
    (Hsplit : log (run w target d).2 = pre ++ post)
    (Hexists : replay d pre !! test_file_of target = Some c) :
  let tf := test_file_of target in
  let d_end := disk (run w target d).2 in
  (count (writes_to tf) (log (run w target d).2) <= 1)%nat
  /\ count (writes_to tf) post = 0%nat
  /\ d_end !! tf = Some c
  /\ (forall w2, count (writes_to tf) (log (run w2 target d_end).2) = 0%nat
                 /\ disk (run w2 target d_end).2 !! tf = Some c).
Proof.
  intros tf d_end. fold tf in Hexists.
  destruct (run_test_file w target d) as (Hd & Hle & Hsome). fold tf d_end in Hd, Hle, Hsome.
  rewrite Hsplit in Hle, Hd. rewrite count_app in Hle. rewrite replay_app in Hd.
  assert (Hpost : count (writes_to tf) post = 0%nat).
  { destruct (d !! tf) as [c0|] eqn:E.
    - specialize (Hsome ltac:(eauto)). rewrite Hsplit, count_app in Hsome. lia.
    - destruct (count (writes_to tf) pre) as [|n] eqn:En; [|lia].
      rewrite (replay_no_write tf pre d En), E in Hexists. discriminate. }
  assert (Hend : d_end !! tf = Some c).
  { rewrite Hd, (replay_no_write tf post _ Hpost). exact Hexists. }
  split; [rewrite Hsplit, count_app; exact Hle|]. split; [exact Hpost|].
  split; [exact Hend|].
  intros w2. destruct (run_test_file w2 target d_end) as (Hd2 & _ & Hsome2).
  fold tf in Hd2, Hsome2. specialize (Hsome2 ltac:(rewrite Hend; eauto)).
  split; [exact Hsome2|]. rewrite Hd2, (replay_no_write tf _ _ Hsome2). exact Hend.
Qed.


Lemma C5_test_file_never_rewritten_witness :
  let tr := log (run world_tests_fail "icici" disk_with_test_file).2 in
  let c := lit "def test_parser(): pass" in
  tr = [] ++ tr
  /\ replay disk_with_test_file [] !! test_file_of "icici" = Some c
  /\ count (writes_to (test_file_of "icici")) tr = 0%nat
  /\ disk (run world_tests_fail "icici" disk_with_test_file).2 !! test_file_of "icici" = Some c.
Proof.
  intros tr c.
  assert (H1 : tr = [] ++ tr) by reflexivity.
  assert (H2 : replay disk_with_test_file [] !! test_file_of "icici" = Some c)
    by (vm_compute; reflexivity).
  split; [exact H1|]. split; [exact H2|].
  pose proof (C5_test_file_never_rewritten world_tests_fail "icici" disk_with_test_file
                [] tr c H1 H2) as (_ & Hp & He & _).
  split; [exact Hp | exact He].
Defined.


(** * Further properties *)

(** ** The sanitizer *)

Section SanitizerFacts.

Lemma starts_with_prefix (p t : text) :
  starts_with p t = true <-> exists post, t = p ++ post.
Proof.
  revert t; induction p as [|x p IH]; intros t; simpl.
  - split; [intros _; exists t; reflexivity | reflexivity].
  - destruct t as [|y t]; [split; [discriminate | intros [post H]; discriminate]|].
    rewrite andb_true_iff, N.eqb_eq, IH. split.
    + intros [-> [post ->]]. exists post. reflexivity.
    + intros [post H]. injection H as -> ->. split; [reflexivity | eauto].
Qed.

Lemma findall_nil_no_occurrence (p : text) (t : text) :
  p <> [] -> (findall_literal p t = [] <-> ~ occurs_in p t).
Proof.
  intros Hp. unfold findall_literal. split.
  - intros H (pre & post & ->). apply findall_nil_drop in H.
    destruct p as [|x p]; [contradiction|].
    cbn [app findall_from] in H.
    assert (E : starts_with (x :: p) (x :: p ++ post) = true).
    { apply starts_with_prefix. exists post. reflexivity. }
    rewrite E in H. discriminate.
  - induction t as [|c t IH]; intros H; [reflexivity|].
    cbn [findall_from].
    destruct (starts_with p (c :: t)) eqn:E.
    + exfalso. apply H. apply starts_with_prefix in E as [post E].
      exists [], post. exact E.
    + apply IH. intros (pre & post & ->). apply H. exists (c :: pre), post. reflexivity.
Qed.

Lemma lstrip_split (t : text) : exists ws, all_space ws /\ t = ws ++ lstrip t.
Proof.
  induction t as [|c r (ws & Hws & IH)]; simpl.
  - exists []. split; [constructor | reflexivity].
  - destruct (py_isspace c) eqn:E.
    + exists (c :: ws). split; [constructor; assumption | simpl; congruence].
    + exists []. split; [constructor | reflexivity].
Qed.

Lemma rstrip_split (t : text) : exists ws, all_space ws /\ t = rstrip t ++ ws.
Proof.
  induction t as [|c r (ws & Hws & IH)]; simpl.
  - exists []. split; [constructor | reflexivity].
  - destruct (rstrip r) as [|x r'] eqn:E.
    + destruct (py_isspace c) eqn:S.
      * exists (c :: r). split; [|reflexivity]. simpl in IH. subst r.
        constructor; assumption.
      * exists ws. split; [exact Hws | simpl in *; congruence].
    + exists ws. split; [exact Hws | rewrite IH at 1; reflexivity].
Qed.

Lemma strip_split (t : text) :
  exists ws1 ws2, all_space ws1 /\ all_space ws2 /\ t = ws1 ++ strip t ++ ws2.
Proof.
  destruct (lstrip_split t) as (ws1 & H1 & E1).
  destruct (rstrip_split (lstrip t)) as (ws2 & H2 & E2).
  exists ws1, ws2. split; [exact H1|]. split; [exact H2|].
  unfold strip. rewrite <- E2. exact E1.
Qed.

Lemma rstrip_last (t : text) (c : N) :
  last (rstrip t) = Some c -> py_isspace c = false.
Proof.
  revert c; induction t as [|x r IH]; intros c; simpl; [discriminate|].
  destruct (rstrip r) as [|y r'] eqn:E.
  - destruct (py_isspace x) eqn:S; simpl; [discriminate | congruence].
  - intros H. apply IH. exact H.
Qed.

Lemma strip_ends (t : text) :
  (forall c, head (strip t) = Some c -> py_isspace c = false)
  /\ (forall c, last (strip t) = Some c -> py_isspace c = false).
Proof.
  split; intros c H.
  - pose proof (lstrip_head (strip t)) as Hh.
    unfold strip at 1 in Hh. rewrite lstrip_rstrip_lstrip in Hh. fold (strip t) in Hh.
    destruct (strip t); [discriminate|]. simpl in H. congruence.
  - apply (rstrip_last (lstrip t)). exact H.
Qed.

End SanitizerFacts.

(** X1. What the sanitizer returns, by cases on the text: without six grave
    accents in a row, the text itself minus white space at both ends; with
    them, the six grave accents. *)
Theorem X1_strip_code_fences_behaviour (t : text) :
  (~ occurs_in fence_pattern t ->
     strip_code_fences t = strip t
     /\ exists ws1 ws2, all_space ws1 /\ all_space ws2
                        /\ t = ws1 ++ strip_code_fences t ++ ws2)
  /\ (occurs_in fence_pattern t -> strip_code_fences t = fence_pattern).
Proof.
  assert (Hp : fence_pattern <> []) by discriminate.
  destruct (strip_code_fences_cases t) as [[Hn E] | [Hy E]].
  - split.
    + intros _. split; [exact E|]. rewrite E. apply strip_split.
    + intros Ho. exfalso. apply (proj1 (findall_nil_no_occurrence _ t Hp) Hn Ho).
  - split.
    + intros Hno. exfalso. apply Hy. apply (findall_nil_no_occurrence _ t Hp), Hno.
    + intros _. exact E.
Qed.

(** X2. The sanitized text never starts or ends with white space. *)
Theorem X2_strip_code_fences_trimmed (t : text) :
  (forall c, head (strip_code_fences t) = Some c -> py_isspace c = false)
  /\ (forall c, last (strip_code_fences t) = Some c -> py_isspace c = false).
Proof.
  destruct (strip_code_fences_cases t) as [[_ ->] | [_ ->]].
  - apply strip_ends.
  - split; intros c H; vm_compute in H; injection H as <-; reflexivity.
Qed.

(** X3. A text of white space only is sanitized to the empty text. *)
Theorem X3_strip_code_fences_blank (t : text) :
  all_space t -> strip_code_fences t = [].
Proof.
  intros H.
  assert (Hl : lstrip t = []).
  { induction H as [|c r Hc _ IH]; simpl; [reflexivity | rewrite Hc; exact IH]. }
  destruct (strip_code_fences_cases t) as [[_ ->] | [Hy _]].
  - unfold strip. rewrite Hl. reflexivity.
  - exfalso. apply Hy. apply findall_nil_no_occurrence; [discriminate|].
    intros (pre & post & ->). apply Forall_app in H as [_ H].
    apply Forall_app in H as [H _]. inversion H as [|? ? Hc _]. discriminate Hc.
Qed.

Lemma X3_strip_code_fences_blank_witness :
  all_space blank_answer /\ strip_code_fences blank_answer = [].
Proof.
  assert (H : all_space blank_answer).
  { unfold all_space, blank_answer.
    repeat (apply List.Forall_cons; [reflexivity|]). apply List.Forall_nil. }
  split; [exact H | exact (X3_strip_code_fences_blank blank_answer H)].
Defined.


(** ** The preview of the sample *)

Section PreviewSource.

Context (limit : Z) (doc : pdf).

Lemma scan_rows_source (P : list cell -> Prop) (tbl : table) (acc : list (list cell)) :
  (forall r0, In r0 tbl -> P (map clean_cell r0)) ->
  Forall P acc -> Forall P (rows_of (scan_rows limit tbl acc)).
Proof.
  revert acc; induction tbl as [|r tbl IH]; intros acc Hin Hacc; simpl; [exact Hacc|].
  assert (Hrest : forall r0, In r0 tbl -> P (map clean_cell r0)).
  { intros r0 H0. apply Hin. right. exact H0. }
  destruct (existsb cell_nonblank (map clean_cell r)); [|apply IH; assumption].
  assert (Hacc' : Forall P (acc ++ [map clean_cell r])).
  { apply Forall_app. split; [exact Hacc|]. constructor; [|constructor].
    apply Hin. left. reflexivity. }
  destruct (limit <=? Z.of_nat (length (acc ++ [map clean_cell r])));
    [exact Hacc' | apply IH; assumption].
Qed.

Lemma scan_tables_source (P : list cell -> Prop) (tables : list table)
    (acc : list (list cell)) :
  (forall tbl r0, In tbl tables -> In r0 tbl -> P (map clean_cell r0)) ->
  Forall P acc -> Forall P (rows_of (scan_tables limit tables acc)).
Proof.
  revert acc; induction tables as [|t tables IH]; intros acc Hin Hacc; simpl; [exact Hacc|].
  pose proof (scan_rows_source P t acc (fun r0 H0 => Hin t r0 (or_introl eq_refl) H0) Hacc)
    as Ht.
  destruct (scan_rows limit t acc) as [rows|rows]; simpl in Ht; [|exact Ht].
  apply IH; [|exact Ht]. intros tbl r0 Htbl. apply Hin. right. exact Htbl.
Qed.

Lemma scan_pages_source (idxs : list Z) (acc : list (list cell)) :
  rows_from doc idxs acc -> rows_from doc idxs (rows_of (scan_pages limit doc idxs acc)).
Proof.
  unfold rows_from.
  assert (Hweak : forall i idxs' rows,
            Forall (fun r => exists idx, In idx idxs' /\ row_from_page doc idx r) rows ->
            Forall (fun r => exists idx, In idx (i :: idxs') /\ row_from_page doc idx r) rows).
  { intros i idxs' rows H. eapply List.Forall_impl; [|exact H].
    intros r (idx & Hidx & Hr). exists idx. split; [right; exact Hidx | exact Hr]. }
  assert (Hgen : forall idxs0 idxs' acc',
            (forall i, In i idxs' -> In i idxs0) ->
            Forall (fun r => exists idx, In idx idxs0 /\ row_from_page doc idx r) acc' ->
            Forall (fun r => exists idx, In idx idxs0 /\ row_from_page doc idx r)
              (rows_of (scan_pages limit doc idxs' acc'))).
  { intros idxs0 idxs'. induction idxs' as [|i idxs' IH]; intros acc' Hsub Hacc;
      cbn [scan_pages]; [exact Hacc|].
    assert (Hsub' : forall j, In j idxs' -> In j idxs0) by (intros j Hj; apply Hsub; right; exact Hj).
    destruct ((i <? 0) || (Z.of_nat (length doc) <=? i)) eqn:Erange; [apply IH; assumption|].
    destruct (doc !! Z.to_nat i) as [pg|] eqn:Epg; [|apply IH; assumption].
    destruct (extract_tables pg) as [|t ts] eqn:Etables; [apply IH; assumption|].
    assert (Hpos : 0 <= i).
    { apply orb_false_iff in Erange as [E _]. apply Z.ltb_ge in E. exact E. }
    pose proof (scan_tables_source
                  (fun r => exists idx, In idx idxs0 /\ row_from_page doc idx r)
                  (t :: ts) acc') as Ht.
    destruct (scan_tables limit (t :: ts) acc') as [rows|rows]; cbn [rows_of] in *.
    - apply IH; [assumption|]. apply Ht; [|exact Hacc].
      intros tbl r0 Htbl Hr0. exists i. split; [apply Hsub; left; reflexivity|].
      exists pg, tbl, r0. rewrite Etables. auto.
    - apply Ht; [|exact Hacc].
      intros tbl r0 Htbl Hr0. exists i. split; [apply Hsub; left; reflexivity|].
      exists pg, tbl, r0. rewrite Etables. auto. }
  intros Hacc. apply Hgen; [auto | exact Hacc].
Qed.

End PreviewSource.

Lemma sorted_candidates (total_pages idx : Z) :
  In idx (sorted (candidate_pages total_pages)) ->
  idx = 0 \/ idx = total_pages / 2 \/ idx = total_pages - 1.
Proof.
  unfold sorted, candidate_pages. intros H.
  apply list_elem_of_In in H. rewrite merge_sort_Permutation in H.
  apply elem_of_elements in H.
  apply elem_of_union in H as [H|H]; [apply elem_of_union in H as [H|H]|];
    apply elem_of_singleton in H; auto.
Qed.

Lemma preview_rows_source (doc : pdf) (samples_per_section : Z) (r : list cell) :
  In r (extract_table_preview doc samples_per_section) ->
  exists idx, In idx (sorted (candidate_pages (Z.of_nat (length doc))))
              /\ row_from_page doc idx r.
Proof.
  intros Hin. unfold extract_table_preview in Hin.
  pose proof (scan_pages_source
                (samples_per_section * Z.of_nat (size (candidate_pages (Z.of_nat (length doc)))))
                doc (sorted (candidate_pages (Z.of_nat (length doc)))) []
                ltac:(constructor)) as H.
  unfold rows_from in H. rewrite List.Forall_forall in H.
  exact (H r Hin).
Qed.

(** X4. Every row of the preview is the cleaned form of a row of a table
    of the first, the middle or the last page of the document. *)
Theorem X4_preview_rows_come_from_candidate_pages (doc : pdf) (samples_per_section : Z)
    (r : list cell) :
  In r (extract_table_preview doc samples_per_section) ->
  let total_pages := Z.of_nat (length doc) in
  exists idx,
    (idx = 0 \/ idx = total_pages / 2 \/ idx = total_pages - 1)
    /\ row_from_page doc idx r.
Proof.
  intros Hin total_pages.
  destruct (preview_rows_source doc samples_per_section r Hin) as (idx & Hidx & Hr).
  exists idx. split; [apply sorted_candidates, Hidx | exact Hr].
Qed.

Lemma X4_preview_rows_come_from_candidate_pages_witness :
  In [Some (lit "a")] (extract_table_preview one_row_pdf 2)
  /\ exists idx, (idx = 0 \/ idx = 1 / 2 \/ idx = 1 - 1)
                 /\ row_from_page one_row_pdf idx [Some (lit "a")].
Proof.
  assert (H : In [Some (lit "a")] (extract_table_preview one_row_pdf 2)).
  { vm_compute. left. reflexivity. }
  split; [exact H|].
  exact (X4_preview_rows_come_from_candidate_pages one_row_pdf 2 [Some (lit "a")] H).
Defined.

(** X5. A document without pages, or whose pages hold no table, has an
    empty preview, whatever the number of samples asked for. *)
Theorem X5_preview_of_tableless_document (doc : pdf) (samples_per_section : Z) :
  Forall (fun pg => extract_tables pg = []) doc ->
  extract_table_preview doc samples_per_section = [].
Proof.
  intros Hdoc.
  destruct (extract_table_preview doc samples_per_section) as [|r rows] eqn:E; [reflexivity|].
  exfalso.
  destruct (preview_rows_source doc samples_per_section r)
    as (idx & _ & pg & tbl & r0 & _ & Hpg & Htbl & _).
  { rewrite E. left. reflexivity. }
  rewrite List.Forall_forall in Hdoc.
  rewrite (Hdoc pg) in Htbl; [destruct Htbl|].
  apply list_elem_of_In. eapply list_elem_of_lookup_2. exact Hpg.
Qed.

Lemma X5_preview_of_tableless_document_witness :
  extract_table_preview text_only_pdf 2 = [].
Proof.
  apply (X5_preview_of_tableless_document text_only_pdf 2).
  apply List.Forall_cons; [reflexivity|]. apply List.Forall_cons; [reflexivity|].
  apply List.Forall_nil.
Defined.

Section PreviewPrefix.

Context (limit : Z).

Lemma scan_rows_gathered (tbl : table) (acc : list (list cell)) :
  (length acc < preview_budget limit)%nat ->
  scan_rows limit tbl acc = gathered (preview_budget limit) (acc ++ table_rows tbl).
Proof.
  revert acc; induction tbl as [|r tbl IH]; intros acc Hacc.
  - cbn [scan_rows table_rows map List.filter]. rewrite app_nil_r. unfold gathered.
    destruct (Nat.leb_spec (preview_budget limit) (length acc)); [lia | reflexivity].
  - cbn [scan_rows]. unfold table_rows. cbn [map List.filter]. fold (table_rows tbl).
    destruct (existsb cell_nonblank (map clean_cell r)); [|apply IH; exact Hacc].
    destruct (Z.leb_spec limit (Z.of_nat (length (acc ++ [map clean_cell r])))) as [Hle|Hgt].
    + rewrite length_app in Hle. cbn [length] in Hle.
      assert (Hn : preview_budget limit = (length acc + 1)%nat).
      { unfold preview_budget in *. lia. }
      unfold gathered. rewrite Hn.
      destruct (Nat.leb_spec (length acc + 1) (length (acc ++ map clean_cell r :: table_rows tbl)))
        as [_|Hlt]; [|rewrite length_app in Hlt; cbn [length] in Hlt; lia].
      f_equal. change (map clean_cell r :: table_rows tbl)
                 with ([map clean_cell r] ++ table_rows tbl).
      rewrite app_assoc. rewrite take_app_length'; [reflexivity|].
      rewrite length_app. reflexivity.
    + rewrite IH.
      * rewrite <- app_assoc. reflexivity.
      * rewrite length_app in *. cbn [length] in *. unfold preview_budget. lia.
Qed.

Lemma gathered_app (n : nat) (rows more : list (list cell)) :
  (n <= length rows)%nat -> gathered n (rows ++ more) = gathered n rows.
Proof.
  intros H. unfold gathered.
  destruct (Nat.leb_spec n (length rows)); [|lia].
  destruct (Nat.leb_spec n (length (rows ++ more))) as [_|Hlt];
    [|rewrite length_app in Hlt; lia].
  f_equal. apply take_app_le. exact H.
Qed.

Lemma gathered_cases (n : nat) (rows : list (list cell)) :
  ((n <= length rows)%nat /\ gathered n rows = Return (take n rows))
  \/ ((length rows < n)%nat /\ gathered n rows = Next rows).
Proof.
  unfold gathered. destruct (Nat.leb_spec n (length rows)); [left | right]; auto.
Qed.

Lemma scan_tables_gathered (tables : list table) (acc : list (list cell)) :
  (length acc < preview_budget limit)%nat ->
  scan_tables limit tables acc
  = gathered (preview_budget limit) (acc ++ concat (map table_rows tables)).
Proof.
  revert acc; induction tables as [|t tables IH]; intros acc Hacc.
  - cbn [scan_tables map concat]. rewrite app_nil_r. unfold gathered.
    destruct (Nat.leb_spec (preview_budget limit) (length acc)); [lia | reflexivity].
  - cbn [scan_tables map concat]. rewrite scan_rows_gathered by exact Hacc.
    rewrite app_assoc.
    destruct (gathered_cases (preview_budget limit) (acc ++ table_rows t))
      as [[Hle E] | [Hlt E]]; rewrite E.
    + rewrite gathered_app by exact Hle. exact (eq_sym E).
    + apply IH. exact Hlt.
Qed.

Lemma scan_pages_gathered (doc : pdf) (idxs : list Z) (acc : list (list cell)) :
  (length acc < preview_budget limit)%nat ->
  scan_pages limit doc idxs acc
  = gathered (preview_budget limit) (acc ++ concat (map (page_rows doc) idxs)).
Proof.
  revert acc; induction idxs as [|i idxs IH]; intros acc Hacc.
  - cbn [scan_pages map concat]. rewrite app_nil_r. unfold gathered.
    destruct (Nat.leb_spec (preview_budget limit) (length acc)); [lia | reflexivity].
  - cbn [scan_pages map concat]. unfold page_rows at 1.
    destruct ((i <? 0) || (Z.of_nat (length doc) <=? i)); [apply IH; exact Hacc|].
    destruct (doc !! Z.to_nat i) as [pg|]; [|apply IH; exact Hacc].
    destruct (extract_tables pg) as [|t ts] eqn:Et; [apply IH; exact Hacc|].
    rewrite scan_tables_gathered by exact Hacc.
    rewrite app_assoc.
    destruct (gathered_cases (preview_budget limit) (acc ++ concat (map table_rows (t :: ts))))
      as [[Hle E] | [Hlt E]]; rewrite E.
    + rewrite gathered_app by exact Hle. exact (eq_sym E).
    + apply IH. exact Hlt.
Qed.

End PreviewPrefix.

(** X26. The preview is an initial part of the rows of the candidate
    pages: the cleaned rows with a cell that is not blank, of the tables
    of the first, the middle and the last page, in the order of the
    document, cut after [samples_per_section * len(candidate_pages)] rows,
    or after one row when that product is not positive.  When the
    candidate pages hold no more rows than that, the preview is all of
    them. *)
Theorem X26_preview_is_a_prefix_of_the_candidate_rows (doc : pdf) (samples_per_section : Z) :
  let limit := samples_per_section * Z.of_nat (size (candidate_pages (Z.of_nat (length doc)))) in
  extract_table_preview doc samples_per_section
  = take (preview_budget limit) (candidate_rows doc)
  /\ ((length (candidate_rows doc) <= preview_budget limit)%nat ->
      extract_table_preview doc samples_per_section = candidate_rows doc).
Proof.
  intros limit.
  assert (E : extract_table_preview doc samples_per_section
              = take (preview_budget limit) (candidate_rows doc)).
  { unfold extract_table_preview. fold limit.
    rewrite scan_pages_gathered by (unfold preview_budget; cbn [length]; lia).
    cbn [app]. fold (candidate_rows doc).
    destruct (gathered_cases (preview_budget limit) (candidate_rows doc))
      as [[_ ->] | [Hlt ->]]; cbn [rows_of]; [reflexivity|].
    symmetry. apply take_ge. lia. }
  split; [exact E|]. intros Hle. rewrite E. apply take_ge. exact Hle.
Qed.


(** ** Mismatches and the repair prompt *)

Lemma mismatched_same_prefix (rows extra : list row) :
  mismatched (rows ++ extra) rows = [] /\ mismatched rows (rows ++ extra) = [].
Proof.
  assert (Hself : forall p : row * row, p.1 = p.2 -> row_neq p = false).
  { intros p E. unfold row_neq. rewrite bool_decide_eq_true_2 by exact E. reflexivity. }
  unfold mismatched. induction rows as [|r rows [IH1 IH2]].
  - split; [destruct extra; reflexivity | reflexivity].
  - cbn [app combine List.filter]. rewrite (Hself (r, r) eq_refl). split; assumption.
Qed.

(** X6. Rows beyond the shorter of the two frames are never reported: when
    the actual rows are a prefix of the expected rows (rows are missing at
    the end), or the other way round, or the frames are equal, no mismatch
    is collected. *)
Theorem X6_no_mismatch_for_missing_tail (rows extra : list row) :
  collect_mismatches (rows ++ extra) rows = no_mismatches
  /\ collect_mismatches rows (rows ++ extra) = no_mismatches
  /\ collect_mismatches rows rows = no_mismatches.
Proof.
  destruct (mismatched_same_prefix rows extra) as [H1 H2].
  destruct (mismatched_same_prefix rows []) as [H3 _]. rewrite app_nil_r in H3.
  unfold collect_mismatches. rewrite H1, H2, H3. repeat split.
Qed.

(** X7. Mismatches are reported for differing rows only: when mismatches
    are collected, the frames differ at a common position. *)
Theorem X7_mismatch_means_rows_differ (df_expected df_actual : list row) :
  collect_mismatches df_expected df_actual <> no_mismatches ->
  exists i e a, df_expected !! i = Some e /\ df_actual !! i = Some a /\ e <> a.
Proof.
  intros H.
  assert (Hm : mismatched df_expected df_actual <> []).
  { intros E. apply H. unfold collect_mismatches. rewrite E. reflexivity. }
  clear H. unfold mismatched in Hm.
  revert df_actual Hm; induction df_expected as [|e es IH]; intros [|a as_] Hm;
    simpl in Hm; try congruence.
  unfold row_neq at 1 in Hm. simpl in Hm.
  destruct (bool_decide (e = a)) eqn:E; simpl in Hm.
  - destruct (IH as_ Hm) as (i & e' & a' & H1 & H2 & H3).
    exists (S i), e', a'. auto.
  - exists O, e, a. apply bool_decide_eq_false in E. auto.
Qed.

Lemma X7_mismatch_means_rows_differ_witness :
  collect_mismatches [[lit "01-08-2024"; lit "10.5"]] [[lit "01-08-2024"; lit "10.50"]]
    <> no_mismatches
  /\ exists i e a,
       [[lit "01-08-2024"; lit "10.5"]] !! i = Some e
       /\ [[lit "01-08-2024"; lit "10.50"]] !! i = Some a /\ e <> a.
Proof.
  assert (H : collect_mismatches [[lit "01-08-2024"; lit "10.5"]]
                [[lit "01-08-2024"; lit "10.50"]] <> no_mismatches).
  { intros E. vm_compute in E. discriminate E. }
  split; [exact H | exact (X7_mismatch_means_rows_differ _ _ H)].
Defined.

Lemma ljust_length (width : nat) (s : text) :
  length (ljust width s) = Nat.max width (length s).
Proof. unfold ljust. rewrite length_app, repeat_length. lia. Qed.

(** X8. The repair prompt carries the mismatch table; the table is the
    placeholder when no expected row was collected, and otherwise has two
    header lines and one line per collected pair, at most 7 lines for the
    mismatches collected from two frames, each data line being at least
    123 characters wide. *)
Theorem X8_repair_prompt_mismatch_table (w : world) (bank : string)
    (code failure_output : text) (df_expected df_actual : list row) :
  let m := collect_mismatches df_expected df_actual in
  (build_repair_prompt w bank code failure_output m).2
    = json_dumps w (JObj [ ("current_code", JStr code);
                           ("failure_trace", JStr failure_output);
                           ("mismatch_rows", JStr (mismatch_table w m)) ]%string)
  /\ (mismatched df_expected df_actual = [] ->
        mismatch_table w m = lit "(No mismatch data)")
  /\ (mismatched df_expected df_actual <> [] ->
        mismatch_table w m = join nl (mismatch_preview w m))
  /\ length (mismatch_preview w m)
       = (2 + Nat.min 5 (length (mismatched df_expected df_actual)))%nat
  /\ Forall (fun line => (123 <= length line)%nat) (mismatch_preview w m).
Proof.
  intros m.
  assert (Hcomb : combine (expected m) (actual m) = take 5 (mismatched df_expected df_actual)).
  { apply combine_fst_snd. }
  split; [reflexivity|].
  split.
  { intros E. unfold mismatch_table, m, collect_mismatches. rewrite E. reflexivity. }
  split.
  { intros E. unfold mismatch_table, m, collect_mismatches.
    destruct (mismatched df_expected df_actual); [contradiction | reflexivity]. }
  split.
  { unfold mismatch_preview. rewrite length_app, length_map, Hcomb, length_take.
    reflexivity. }
  unfold mismatch_preview. apply Forall_app. split.
  - repeat constructor; vm_compute; lia.
  - apply List.Forall_forall. intros line [[e a] [<- _]]%in_map_iff.
    rewrite !length_app, !ljust_length. simpl. lia.
Qed.


(** ** The generated parser *)

Section ParserFacts.

Lemma parse_row_app (data : list (list text)) (row : option (list cell)) :
  parse_row data row = data ++ parse_row [] row.
Proof.
  unfold parse_row. destruct row as [r|]; [|rewrite app_nil_r; reflexivity].
  destruct (length r <? 5)%nat; [rewrite app_nil_r; reflexivity|].
  destruct (is_header r); [rewrite app_nil_r; reflexivity|].
  destruct (first_cell_skipped r); [rewrite app_nil_r; reflexivity | reflexivity].
Qed.

Lemma fold_parse_row_app (tbl : list (option (list cell))) (data : list (list text)) :
  fold_left parse_row tbl data = data ++ fold_left parse_row tbl [].
Proof.
  revert data; induction tbl as [|row tbl IH]; intros data; simpl.
  - rewrite app_nil_r. reflexivity.
  - rewrite (IH (parse_row data row)), (IH (parse_row [] row)), parse_row_app, app_assoc.
    reflexivity.
Qed.

Lemma parse_page_app (data : list (list text)) (table : option (list (option (list cell)))) :
  parse_page data table = data ++ parse_page [] table.
Proof.
  unfold parse_page. destruct table as [[|row tbl]|]; try (rewrite app_nil_r; reflexivity).
  apply fold_parse_row_app.
Qed.

Lemma fold_parse_page_app (pages : list (option (list (option (list cell)))))
    (data : list (list text)) :
  fold_left parse_page pages data = data ++ fold_left parse_page pages [].
Proof.
  revert data; induction pages as [|pg pages IH]; intros data; simpl.
  - rewrite app_nil_r. reflexivity.
  - rewrite (IH (parse_page data pg)), (IH (parse_page [] pg)), parse_page_app, app_assoc.
    reflexivity.
Qed.

Lemma cell_is_spec (c : cell) (s : text) : cell_is c s = true <-> c = Some s.
Proof.
  unfold cell_is. destruct c as [t|]; [|split; discriminate].
  rewrite bool_decide_eq_true. split; congruence.
Qed.

Lemma is_header_spec (r0 : list cell) :
  is_header r0 = true <->
  r0 !! 0%nat = Some (Some (lit "Date")) /\ r0 !! 1%nat = Some (Some (lit "Description")).
Proof.
  unfold is_header. destruct r0 as [|c0 [|c1 r]];
    try (split; [discriminate | intros [? ?]; discriminate]).
  rewrite andb_true_iff, !cell_is_spec.
  change ((c0 :: c1 :: r) !! 0%nat) with (Some c0).
  change ((c0 :: c1 :: r) !! 1%nat) with (Some c1).
  split.
  - intros [-> ->]. split; reflexivity.
  - intros [H1 H2]. injection H1 as ->. injection H2 as ->. split; reflexivity.
Qed.

Lemma first_cell_skipped_spec (r0 : list cell) :
  first_cell_skipped r0 = false <->
  exists s, r0 !! 0%nat = Some (Some s) /\ s <> [] /\ ~ exists rest, s = lit "Page" ++ rest.
Proof.
  unfold first_cell_skipped. destruct r0 as [|c0 r].
  { split; [discriminate | intros (s & H & _); discriminate]. }
  change ((c0 :: r) !! 0%nat) with (Some c0). destruct c0 as [[|x s]|].
  - split; [discriminate | intros (s & H & Hs & _); injection H as <-; contradiction].
  - split.
    + intros H. exists (x :: s). split; [reflexivity|]. split; [discriminate|].
      intros Hex. apply starts_with_prefix in Hex. congruence.
    + intros (s' & H & _ & Hno). injection H as <-.
      destruct (starts_with (lit "Page") (x :: s)) eqn:E; [|reflexivity].
      exfalso. apply Hno. apply starts_with_prefix. exact E.
  - split; [discriminate | intros (s & H & _); discriminate].
Qed.

Lemma parse_row_spec (row : option (list cell)) (r : list text) :
  In r (parse_row [] row) <->
  exists r0, row = Some r0 /\ kept r0 /\ r = map cleaned (take 5 r0).
Proof.
  unfold parse_row, kept. destruct row as [r0|].
  2:{ split; [intros [] | intros (r0 & H & _); discriminate]. }
  destruct (length r0 <? 5)%nat eqn:El.
  { apply Nat.ltb_lt in El. split; [intros [] | intros (r1 & H & (Hl & _) & _)].
    injection H as <-. lia. }
  apply Nat.ltb_ge in El.
  destruct (is_header r0) eqn:Eh.
  { apply is_header_spec in Eh. split; [intros [] | intros (r1 & H & (_ & Hh & _) & _)].
    injection H as <-. contradiction. }
  destruct (first_cell_skipped r0) eqn:Ef.
  { split; [intros [] | intros (r1 & H & (_ & _ & Hf) & _)].
    injection H as <-. apply first_cell_skipped_spec in Hf. congruence. }
  apply first_cell_skipped_spec in Ef.
  assert (Hnh : ~ (r0 !! 0%nat = Some (Some (lit "Date"))
                   /\ r0 !! 1%nat = Some (Some (lit "Description")))).
  { intros H. apply is_header_spec in H. congruence. }
  simpl. split.
  - intros [<-|[]]. exists r0. auto.
  - intros (r1 & H & _ & ->). injection H as <-. left. reflexivity.
Qed.

Lemma parse_table_spec (tbl : list (option (list cell))) (r : list text) :
  In r (fold_left parse_row tbl []) <->
  exists r0, In (Some r0) tbl /\ kept r0 /\ r = map cleaned (take 5 r0).
Proof.
  induction tbl as [|row tbl IH]; simpl.
  - split; [intros [] | intros (r0 & [] & _)].
  - rewrite fold_parse_row_app, in_app_iff, IH, parse_row_spec. split.
    + intros [(r0 & -> & H) | (r0 & Hin & H)]; exists r0; auto.
    + intros (r0 & [E|Hin] & H); [left | right]; exists r0; auto.
Qed.

Lemma parse_spec (pages : list (option (list (option (list cell))))) (r : list text) :
  In r (parse pages) <->
  exists tbl r0, In (Some tbl) pages /\ In (Some r0) tbl /\ kept r0
                 /\ r = map cleaned (take 5 r0).
Proof.
  unfold parse. induction pages as [|pg pages IH]; simpl.
  - split; [intros [] | intros (tbl & r0 & [] & _)].
  - rewrite fold_parse_page_app, in_app_iff, IH. split.
    + intros [H | (tbl & r0 & Hin & H)].
      * unfold parse_page in H. destruct pg as [[|row tbl]|]; try destruct H.
        apply parse_table_spec in H as (r0 & Hin & H).
        exists (row :: tbl), r0. auto.
      * exists tbl, r0. auto.
    + intros (tbl & r0 & [E|Hin] & Hr0 & H).
      * left. subst pg. unfold parse_page. destruct tbl as [|row tbl]; [destruct Hr0|].
        apply parse_table_spec. exists r0. auto.
      * right. exists tbl, r0. auto.
Qed.

End ParserFacts.

(** X9. The rows [parse] returns are exactly the first five cells, cleaned,
    of the rows of the tables of the document that have at least five
    cells, are not the header row and whose first cell is a non-empty
    string that does not start with [Page]. *)
Theorem X9_parse_returns_the_kept_rows
    (pages : list (option (list (option (list cell))))) (r : list text) :
  In r (parse pages) <->
  exists tbl r0, In (Some tbl) pages /\ In (Some r0) tbl /\ kept r0
                 /\ r = map cleaned (take 5 r0).
Proof. apply parse_spec. Qed.

(** X10. Every row [parse] returns has exactly as many cells as the frame
    has columns, five, so the frame can be built; none of its cells is
    empty, and its first cell does not start with [Page]. *)
Theorem X10_parse_rows_have_five_cells
    (pages : list (option (list (option (list cell))))) (r : list text) :
  In r (parse pages) ->
  length r = length COLUMNS /\ Forall (fun c => c <> []) r
  /\ exists first, r !! 0%nat = Some first /\ starts_with (lit "Page") first = false.
Proof.
  intros H. apply parse_spec in H as (tbl & r0 & _ & _ & (Hlen & _ & Hfirst) & ->).
  split; [rewrite length_map, length_take; change (length COLUMNS) with 5%nat; lia|].
  split.
  - apply List.Forall_forall. intros c [c0 [<- _]]%in_map_iff.
    destruct c0 as [[|x s]|]; discriminate.
  - destruct Hfirst as (s & Hs & Hne & Hno). exists s.
    destruct r0 as [|c0 r0]; [discriminate|]. simpl in Hs. injection Hs as ->.
    split; [destruct s; [contradiction | reflexivity]|].
    destruct (starts_with (lit "Page") s) eqn:E; [|reflexivity].
    exfalso. apply Hno. apply starts_with_prefix. exact E.
Qed.

Lemma X10_parse_rows_have_five_cells_witness :
  In [lit "01-08-2024"; lit "Salary"; lit "nan"; lit "100.0"; lit "100.0"]
     (parse statement_tables)
  /\ length [lit "01-08-2024"; lit "Salary"; lit "nan"; lit "100.0"; lit "100.0"]
     = length COLUMNS.
Proof.
  assert (H : In [lit "01-08-2024"; lit "Salary"; lit "nan"; lit "100.0"; lit "100.0"]
                (parse statement_tables)).
  { vm_compute. left. reflexivity. }
  split; [exact H|].
  pose proof (X10_parse_rows_have_five_cells statement_tables _ H) as (Hlen & _).
  exact Hlen.
Defined.

(** X11. Parsing is page by page: the rows of a document made of two parts
    are the rows of the first part followed by the rows of the second. *)
Theorem X11_parse_app (pages1 pages2 : list (option (list (option (list cell))))) :
  parse (pages1 ++ pages2) = parse pages1 ++ parse pages2.
Proof. unfold parse. rewrite fold_left_app. apply fold_parse_page_app. Qed.

(** X12. A kept row whose first five cells are non-empty strings is returned
    with those five values unchanged. *)
Theorem X12_parse_preserves_values
    (pages : list (option (list (option (list cell))))) (tbl : list (option (list cell)))
    (vals : list text) (more : list cell) :
  In (Some tbl) pages -> In (Some (map Some vals ++ more)) tbl ->
  length vals = 5%nat -> Forall (fun v => v <> []) vals ->
  kept (map Some vals ++ more) ->
  In vals (parse pages).
Proof.
  intros Hpg Hrow Hlen Hne Hk. apply parse_spec.
  exists tbl, (map Some vals ++ more). split; [exact Hpg|]. split; [exact Hrow|].
  split; [exact Hk|].
  rewrite take_app_length' by (rewrite length_map; symmetry; exact Hlen).
  clear -Hne. induction Hne as [|v vals Hv _ IH]; [reflexivity|].
  simpl. rewrite <- IH. destruct v; [contradiction | reflexivity].
Qed.

Lemma X12_parse_preserves_values_witness :
  In [lit "02-08-2024"; lit "Rent"; lit "40.0"; lit "0.0"; lit "60.0"]
     (parse statement_tables).
Proof.
  apply (X12_parse_preserves_values statement_tables
           [ Some [Some (lit "Date"); Some (lit "Description"); Some (lit "Debit Amt");
                   Some (lit "Credit Amt"); Some (lit "Balance")];
             Some (map Some [lit "02-08-2024"; lit "Rent"; lit "40.0"; lit "0.0";
                             lit "60.0"] ++ [Some (lit "extra")]);
             None ]
           [lit "02-08-2024"; lit "Rent"; lit "40.0"; lit "0.0"; lit "60.0"]
           [Some (lit "extra")]).
  - vm_compute. right. right. left. reflexivity.
  - simpl. right. left. reflexivity.
  - reflexivity.
  - repeat (apply List.Forall_cons; [discriminate|]). apply List.Forall_nil.
  - split; [simpl; lia|]. split.
    + intros [H _]. discriminate H.
    + exists (lit "02-08-2024"). split; [reflexivity|]. split; [discriminate|].
      intros [rest H]. discriminate H.
Defined.


(** ** More on one iteration, the loop and a run *)

Section BodyMore.

Context (w : world) (target : string) (cfg : bank_cfg) (max_attempts : Z)
  (headers : list text).

Hypothesis Hpt : cfg_parser_path cfg <> test_file_of target.
Hypothesis Hat :
  path_join artifacts_dir (path_name (cfg_parser_path cfg)) <> test_file_of target.
Hypothesis Hap :
  path_join artifacts_dir (path_name (cfg_parser_path cfg)) <> cfg_parser_path cfg.
Hypothesis Hpdf : is_Some (open_pdf w (cfg_sample_pdf cfg)).

Lemma attempt_body_more (a : Z) (p : text * text) (s : state) :
  exists evs,
    log (attempt_body w target cfg max_attempts headers a p s).2 = log s ++ evs
    /\ body_more w target max_attempts (cfg_sample_pdf cfg) (cfg_parser_path cfg)
         (test_file_of target)
         (path_join artifacts_dir (path_name (cfg_parser_path cfg))) a p
         (attempt_body w target cfg max_attempts headers a p s).1 s
         (attempt_body w target cfg max_attempts headers a p s).2 evs.
Proof.
  destruct Hpdf as [doc Hdoc]. destruct s as [d l].
  unfold body_more, ending. unfold_body.
  remember (path_join artifacts_dir (path_name (cfg_parser_path cfg))) as qp eqn:Eap.
  remember (test_file_of target) as tp eqn:Etf.
  remember (cfg_parser_path cfg) as cp eqn:Epp.
  clear Epp Etf Eap.
  case_paths; try congruence; norm_hyps.
  all: rewrite <- ?app_assoc in *; cbn [app] in *.
  all: repeat match goal with
              | H : is_Some (<[_:=_]> _ !! _) |- _ =>
                  rewrite lookup_insert_ne in H by congruence
              | H : ~ is_Some (<[_:=_]> _ !! _) |- _ =>
                  rewrite lookup_insert_ne in H by congruence
              end.
  all: eexists; split; [cbn [log]; reflexivity|].
  all: cbn [disk log].
  all: split; [do 2 eexists; split; [reflexivity | count_tac]|].
  all: split; [repeat (apply List.Forall_cons;
                       [cbn [ev_more];
                        first [ exact I | reflexivity | assumption
                              | solve [rewrite ?lookup_insert_ne by congruence;
                                       first [ rewrite lookup_insert_eq; eauto
                                             | assumption ]] ]|]);
               apply List.Forall_nil|].
  all: split; [(split; [count_tac|]); (split; count_tac)|].
  all: split; [intros s0 m sp up st Hin Hst; split_in Hin;
               injection Hin as <- <- <- <- <-; try contradiction;
               (split; [eexists; reflexivity | reflexivity])|].
  all: split;
    [first [ solve [left; split; [reflexivity | eexists; reflexivity]]
           | solve [right; split; [reflexivity|];
                    first [ left; eexists; reflexivity
                          | right; left; reflexivity
                          | right; right; left; do 2 eexists;
                            split; [reflexivity | assumption]
                          | right; right; right; ended_tac ]] ]|].
  all: split;
    [intros Hc;
     first [ solve [exfalso; revert Hc; count_tac]
           | solve [split; [assumption | eexists; in_tac]] ]|].
  all: split;
    [intros c Hin; split_in Hin; injection Hin; intros;
     first [ solve [exfalso; congruence]
           | solve [subst; split; [first [assumption | reflexivity] | eexists; in_tac]] ]|].
  all: split;
    [intros c e Hin Hne; split_in Hin; injection Hin as <- <-; try contradiction;
     (split; [reflexivity | eexists; reflexivity])|].
  all: intros d0 Hin Hne; split_in Hin; injection Hin as <-; try contradiction;
    match goal with
    | |- exists pre post code, ?evs = _ /\ _ => split_at_tests evs (@nil event)
    end;
    eexists; (split; [reflexivity|]); (split; [lookup_tac|]);
    first [ left; eexists;
            match goal with H : pytest _ _ _ = _ |- _ => rewrite H end; reflexivity
          | right; eexists; (split; [reflexivity|]);
            (split; [cbn [app]; eassumption | reflexivity]) ].
Qed.

End BodyMore.

Section LoopMore.

Lemma attempt_sites_app (a b : list event) :
  attempt_sites (a ++ b) = attempt_sites a ++ attempt_sites b.
Proof. unfold attempt_sites. apply omap_app. Qed.

Lemma attempt_sites_none (evs : list event) :
  count attempt_post evs = 0%nat -> attempt_sites evs = [].
Proof.
  unfold count. induction evs as [|e evs IH]; [reflexivity|]. simpl.
  destruct e; simpl; try exact IH. destruct s; simpl; [discriminate | exact IH].
Qed.

Lemma attempt_sites_post (a : Z) (m sp up : text) (st : Z) (tl : list event) :
  count attempt_post tl = 0%nat ->
  attempt_sites (Post (Attempt a) m sp up st :: tl) = [a].
Proof.
  intros H. change (attempt_sites (Post (Attempt a) m sp up st :: tl))
    with (a :: attempt_sites tl).
  rewrite (attempt_sites_none _ H). reflexivity.
Qed.

Lemma last_app_nonempty (a b : list event) : b <> [] -> last (a ++ b) = last b.
Proof.
  intros Hb. destruct b as [|x b]; [contradiction|].
  induction a as [|y a IH]; [reflexivity|].
  simpl. destruct (a ++ x :: b) eqn:E; [destruct a; discriminate | exact IH].
Qed.

Lemma last_passes_app (a b : list event) :
  b <> [] -> last_passes (a ++ b) = last_passes b.
Proof. intros Hb. unfold last_passes. rewrite last_app_nonempty by exact Hb. reflexivity. Qed.

Lemma count_attempt_fb (evs : list event) :
  count is_post evs = (count attempt_post evs + count fb_post evs)%nat.
Proof.
  unfold count. induction evs as [|e evs IH]; [reflexivity|].
  destruct e; simpl; try exact IH. destruct s; simpl; lia.
Qed.

Context (w : world) (target : string) (cfg : bank_cfg) (max_attempts : Z)
  (headers : list text).

Hypothesis Hpt : cfg_parser_path cfg <> test_file_of target.
Hypothesis Hat :
  path_join artifacts_dir (path_name (cfg_parser_path cfg)) <> test_file_of target.
Hypothesis Hap :
  path_join artifacts_dir (path_name (cfg_parser_path cfg)) <> cfg_parser_path cfg.
Hypothesis Hpdf : is_Some (open_pdf w (cfg_sample_pdf cfg)).

Lemma attempts_more (todo : list Z) :
  NoDup todo ->
  forall (p : text * text) (s : state),
  exists evs,
    log (attempts w target cfg max_attempts headers todo p s).2 = log s ++ evs
    /\ loop_more w target max_attempts (cfg_sample_pdf cfg) (cfg_parser_path cfg)
         (test_file_of target)
         (path_join artifacts_dir (path_name (cfg_parser_path cfg))) todo p
         (attempts w target cfg max_attempts headers todo p s).1 s
         (attempts w target cfg max_attempts headers todo p s).2 evs.
Proof.
  induction todo as [|a rest IH]; intros Hnd p s.
  - exists []. cbn [attempts ret fst snd]. split; [rewrite app_nil_r; reflexivity|].
    unfold loop_more.
    split; [exists O; reflexivity|].
    split; [intros ? ? E; discriminate E|].
    split; [constructor|].
    split; [repeat split; reflexivity|].
    split; [intros ? ? ? ? ? []|].
    split; [right; split; [reflexivity | left; eexists; reflexivity]|].
    split; [intros []|].
    split; [cbn; lia|].
    split; [intros ? []|].
    split; [intros ? ? ? ? ? ? ? []|].
    intros ? ? ? ? ? ? [].
  - pose proof Hnd as Hnd0. apply NoDup_cons in Hnd as [Hnotin Hnd].
    assert (Hnotin' : ~ In a rest) by (rewrite <- list_elem_of_In; exact Hnotin).
    destruct (attempt_body_more w target cfg max_attempts headers Hpt Hat Hap Hpdf a p s)
      as (evs1 & Hlog1 & Hm1).
    destruct (attempt_body_facts w target cfg max_attempts headers Hpt Hat Hpdf a p s)
      as (evs1' & Hf1).
    assert (Esame : evs1' = evs1).
    { destruct Hf1 as (Hl & _). rewrite Hlog1 in Hl. apply app_inv_head in Hl.
      symmetry. exact Hl. }
    subst evs1'.
    cbn [attempts]. unfold bind.
    destruct (attempt_body w target cfg max_attempts headers a p s) as [[v|h] s1].
    + destruct (IH Hnd v s1) as (evs2 & Hlog2 & Hm2).
      destruct (attempts_facts w target cfg max_attempts headers Hpt Hat Hpdf rest Hnd v s1)
        as (evs2' & Hf2).
      assert (Esame : evs2' = evs2).
      { destruct Hf2 as (Hl & _). rewrite Hlog2 in Hl. apply app_inv_head in Hl.
        symmetry. exact Hl. }
      subst evs2'.
      destruct (attempts w target cfg max_attempts headers rest v s1) as [r s2].
      cbn [fst snd] in *.
      destruct Hf1 as (_ & _ & _ & Hsite1 & Hval & _).
      destruct (Hval v eq_refl) as (Hne & Hnf1 & _).
      destruct Hf2 as (_ & _ & _ & Hsite2 & _).
      destruct Hm1 as ((st1 & tl1 & Eevs1 & Hnoatt) & Hev1 & (Hp1 & Hc1 & Ht1) & Hbad1
                       & Hend1 & _ & Hq1 & Hsyn1 & Hrep1).
      destruct Hm2 as ((k & Hk) & Hfirst2 & Hev2 & (Hp2 & Hc2 & Ht2) & Hbad2
                       & Hend2 & Hnoval2 & Hfb2 & Hq2 & Hsyn2 & Hrep2).
      assert (Hsites1 : attempt_sites evs1 = [a]).
      { rewrite Eevs1. apply attempt_sites_post, Hnoatt. }
      exists (evs1 ++ evs2).
      split; [rewrite Hlog2, Hlog1, app_assoc; reflexivity|].
      unfold loop_more. rewrite attempt_sites_app, Hsites1, !count_app.
      destruct (no_fallback_counts _ Hnf1) as (Z1 & _).
      split; [exists (S k); cbn; rewrite Hk; reflexivity|].
      split; [intros a0 rest0 E; injection E as <- <-; rewrite Eevs1;
              exists st1, (tl1 ++ evs2); reflexivity|].
      split; [apply Forall_app; split; assumption|].
      split.
      { rewrite Hp1, Hp2, Z1. cbn [length app]. split; [lia|]. split; lia. }
      assert (Hnonempty : rest <> [] -> evs2 <> []).
      { intros Hr. destruct rest as [|b rest']; [contradiction|].
        destruct (Hfirst2 b rest' eq_refl) as (st2 & tl2 & ->). discriminate. }
      split.
      { intros s0 m sp up st Hin Hst. apply in_app_or in Hin as [Hin|Hin].
        - destruct (Hbad1 _ _ _ _ _ Hin Hst) as [[b Hb] _]. discriminate Hb.
        - destruct (Hbad2 _ _ _ _ _ Hin Hst) as [Hr Hl]. split; [exact Hr|].
          rewrite last_app_nonempty; [exact Hl|]. intros E. rewrite E in Hin. destruct Hin. }
      split.
      { destruct evs2 as [|e2 evs2'].
        - rewrite app_nil_r. destruct Hend2 as [[_ [s0 Hl]] | [_ Hr]]; [discriminate Hl|].
          right.
          split; [destruct Hend1 as [[Hr1 _] | [Hl1 _]]; [discriminate Hr1 | exact Hl1]|].
          destruct Hr as [Hv | [Hr | [Hr | (pre & ? & ? & E & _)]]];
            [left; exact Hv | right; left; exact Hr | right; right; left; exact Hr
            | destruct pre; discriminate E].
        - unfold ending. rewrite last_passes_app, last_app_nonempty by discriminate.
          destruct Hend2 as [Hl | [Hl [Hv | [Hr | [Hr | He]]]]];
            [left; exact Hl | right; split; [exact Hl|] ..];
            [left; exact Hv | right; left; exact Hr | right; right; left; exact Hr|].
          right; right; right. apply ended_in_candidate_app. rewrite <- Hlog1. exact He. }
      split.
      { intros [E|Hin]; [contradiction | apply Hnoval2, Hin]. }
      split.
      { intros Hc. rewrite Hnf1 in Hc. destruct (Hfb2 Hc) as [d Hd].
        exists d. apply in_or_app. right. exact Hd. }
      split.
      { intros c Hin. apply in_app_or in Hin as [Hin|Hin].
        - destruct (Hq1 c Hin) as [E _]. contradiction.
        - destruct (Hq2 c Hin) as [e He]. exists e. apply in_or_app. right. exact He. }
      split.
      { intros l1 x b l2 c e Etodo Hin Hxne.
        destruct l1 as [|y l1]; cbn [app] in Etodo; injection Etodo as <- Erest.
        - apply in_app_or in Hin as [Hin|Hin].
          + destruct (Hsyn1 c e Hin Hxne) as (Ev & st & Eevs).
            injection Ev as ->.
            destruct (Hfirst2 b l2 Erest) as (st2 & tl2 & ->).
            exists [Post (Attempt a) (GROQ_MODEL w) p.1 p.2 st], st2, tl2.
            rewrite Eevs. reflexivity.
          + exfalso. apply Hnotin'. exact (site_of_in _ _ _ Hsite2 Hin).
        - apply in_app_or in Hin as [Hin|Hin].
          + exfalso. apply Hnotin'. pose proof (site_of_in _ _ _ Hsite1 Hin) as E.
            simpl in E. subst x. rewrite Erest. apply in_or_app. right. left. reflexivity.
          + destruct (Hsyn2 l1 x b l2 c e Erest Hin Hxne) as (pre & st & post & ->).
            exists (evs1 ++ pre), st, post. rewrite app_assoc. reflexivity. }
      { intros l1 x b l2 d Etodo Hin Hxne.
        destruct l1 as [|y l1]; cbn [app] in Etodo; injection Etodo as <- Erest.
        - apply in_app_or in Hin as [Hin|Hin].
          + destruct (Hrep1 d Hin Hxne)
              as (pre & post & code & Eevs & Hcode & [[m Ev] | (? & _ & _ & Ev)]);
              [|discriminate Ev].
            injection Ev as ->.
            destruct (Hfirst2 b l2 Erest) as (st2 & tl2 & ->).
            exists pre, (post ++ Post (Attempt b) (GROQ_MODEL w)
                                   (build_repair_prompt w target code
                                      (pytest w (log s ++ pre) d).2 m).1
                                   (build_repair_prompt w target code
                                      (pytest w (log s ++ pre) d).2 m).2 st2 :: tl2),
                   code.
            split; [rewrite Eevs, <- app_assoc; reflexivity|].
            split; [exact Hcode|]. left. exists m, st2.
            apply in_or_app. right. left. reflexivity.
          + exfalso. apply Hnotin'. exact (site_of_in _ _ _ Hsite2 Hin).
        - apply in_app_or in Hin as [Hin|Hin].
          + exfalso. apply Hnotin'. pose proof (site_of_in _ _ _ Hsite1 Hin) as E.
            simpl in E. subst x. rewrite Erest. apply in_or_app. right. left. reflexivity.
          + destruct (Hrep2 l1 x b l2 d Erest Hin Hxne)
              as (pre & post & code & -> & Hcode & Hcases).
            exists (evs1 ++ pre), post, code.
            split; [rewrite app_assoc; reflexivity|]. split; [exact Hcode|].
            destruct Hcases as [(m & st & Hpost) | (status & Epost & Hload & Hr)].
            * left. exists m, st. rewrite Hlog1, <- app_assoc in Hpost. exact Hpost.
            * right. exists status. split; [exact Epost|]. split; [|exact Hr].
              rewrite Hlog1 in Hload. rewrite <- !app_assoc in *. exact Hload. }
    + cbn [fst snd] in *.
      destruct Hf1 as (_ & _ & _ & Hsite1 & _).
      destruct Hm1 as ((st1 & tl1 & Eevs1 & Hnoatt) & Hev1 & (Hp1 & Hc1 & Ht1) & Hbad1
                       & Hend1 & Hfb1 & Hq1 & Hsyn1 & Hrep1).
      assert (Hsites1 : attempt_sites evs1 = [a]).
      { rewrite Eevs1. apply attempt_sites_post, Hnoatt. }
      exists evs1. split; [exact Hlog1|].
      unfold loop_more. rewrite Hsites1.
      split; [exists 1%nat; reflexivity|].
      split; [intros a0 rest0 E; injection E as <- <-; exists st1, tl1; exact Eevs1|].
      split; [exact Hev1|].
      split; [cbn [length]; split; [lia | split; lia]|].
      split.
      { intros s0 m sp up st Hin Hst. destruct (Hbad1 _ _ _ _ _ Hin Hst) as [[b Hb] Hl].
        injection Hb as ->. split; [exists b; reflexivity | exact Hl]. }
      split.
      { destruct Hend1 as [[Hr Hl] | [Hl Hr]].
        - left. injection Hr as ->. split; [reflexivity | exact Hl].
        - right. split; [exact Hl|].
          destruct Hr as [[v Hv] | [Hr | [(st & b & Hr & Hst) | He]]]; [discriminate Hv | | |].
          + right. left. injection Hr as ->. reflexivity.
          + right. right. left. exists st, b. injection Hr as ->.
            split; [reflexivity | exact Hst].
          + right. right. right. apply (ended_in_candidate_halt (A:=text * text)).
            exact He. }
      split; [intros _ v Hv; discriminate Hv|].
      split.
      { intros Hc. destruct (Hfb1 Hc) as [-> Hd]. exact Hd. }
      split.
      { intros c Hin. destruct (Hq1 c Hin) as [-> He]. exact He. }
      split.
      { intros l1 x b l2 c e Etodo Hin Hxne. exfalso.
        pose proof (site_of_in _ _ _ Hsite1 Hin) as E. simpl in E. subst x.
        destruct (Hsyn1 c e Hin Hxne) as [Hv _]. discriminate Hv. }
      { intros l1 x b l2 d Etodo Hin Hxne.
        pose proof (site_of_in _ _ _ Hsite1 Hin) as E. simpl in E. subst x.
        destruct (Hrep1 d Hin Hxne)
          as (pre & post & code & Eevs & Hcode & [[m Ev] | (status & Epost & Hload & Ev)]);
          [discriminate Ev|].
        exists pre, post, code. split; [exact Eevs|]. split; [exact Hcode|].
        right. exists status. split; [exact Epost|]. split; [exact Hload|].
        injection Ev as ->. reflexivity. }
Qed.

End LoopMore.

Section RunMore.

Lemma run_more_halted_early (w : world) (target : string) (cfg : bank_cfg)
    (d : gmap string text) (h : halt) (pre : list event) :
  Forall (fun e => match e with ReadCsv _ | OpenPdf _ => True | _ => False end) pre ->
  h = SystemExit 1 \/ (exists e, h = Uncaught e) ->
  (forall headers doc,
     api_key_missing w = false ->
     read_csv_columns w (cfg_expected_csv cfg) = Some headers ->
     open_pdf w (cfg_sample_pdf cfg) = Some doc -> False) ->
  run_more w target cfg d (Halt h) {| disk := d; log := pre |}.
Proof.
  intros Hpre Hh Hno. unfold run_more. cbn [disk log].
  assert (Hin : forall e, In e pre -> match e with ReadCsv _ | OpenPdf _ => True | _ => False end).
  { apply List.Forall_forall, Hpre. }
  assert (Hc : forall f, (forall e, f e = true ->
                            match e with ReadCsv _ | OpenPdf _ => False | _ => True end) ->
                         count f pre = 0%nat).
  { intros f Hf. unfold count. induction pre as [|e pre IH]; [reflexivity|].
    simpl. destruct (f e) eqn:E.
    - exfalso. specialize (Hf e E). specialize (Hin e (or_introl eq_refl)).
      destruct e; contradiction.
    - apply IH; [inversion Hpre; assumption | intros; apply Hin; right; assumption]. }
  assert (Hsites : attempt_sites pre = []).
  { apply attempt_sites_none, Hc. intros [] E; simpl in *; try discriminate; exact I. }
  assert (Hlast : last_passes pre = false).
  { unfold last_passes. destruct (last pre) as [e|] eqn:E; [|reflexivity].
    apply last_Some_elem_of, list_elem_of_In, Hin in E. destruct e; try contradiction; reflexivity. }
  rewrite Hsites, !Hc by (intros [] E; simpl in *; try discriminate; exact I).
  split; [exists O; reflexivity|].
  split; [eapply List.Forall_impl; [|exact Hpre]; intros []; simpl; easy|].
  split; [repeat split; lia|].
  split; [intros ? ? ? ? ? H; destruct (Hin _ H)|].
  split.
  { right. split; [exact Hlast|].
    destruct Hh as [-> | [e ->]]; [left | right; left; exists e]; reflexivity. }
  split; [lia|].
  split; [intros ? H; destruct (Hin _ H)|].
  split; [intros ? ? ? H; destruct (Hin _ H)|].
  split; [intros ? ? H; destruct (Hin _ H)|].
  intros headers doc H1 H2 H3. destruct (Hno headers doc H1 H2 H3).
Qed.

Lemma run_has_more (w : world) (target : string) (cfg : bank_cfg) (d : gmap string text) :
  BANK_CONFIG !! target = Some cfg ->
  run_more w target cfg d (run w target d).1 (run w target d).2.
Proof.
  intros Hcfg. destruct (bank_config_lookup _ _ Hcfg) as [-> ->].
  unfold run, script. destruct (api_key_missing w) eqn:Ekey.
  { apply run_more_halted_early; [apply List.Forall_nil | left; reflexivity | intros; congruence]. }
  unfold main, main_with. rewrite Hcfg.
  unfold load_expected_headers, open_sample, bind, emit, ret, raise. cbn [disk log app].
  destruct (read_csv_columns w (cfg_expected_csv icici_cfg)) as [headers|] eqn:Ecsv.
  2:{ apply run_more_halted_early; [repeat (apply List.Forall_cons; [exact I|]); apply List.Forall_nil | right; eexists; reflexivity
                                   | intros; congruence]. }
  destruct (open_pdf w (cfg_sample_pdf icici_cfg)) as [doc|] eqn:Hdoc.
  2:{ apply run_more_halted_early; [repeat (apply List.Forall_cons; [exact I|]); apply List.Forall_nil | right; eexists; reflexivity
                                   | intros; congruence]. }
  cbn [disk log app].
  set (p := build_initial_prompt w "icici" headers
              (extract_table_preview doc default_samples_per_section)).
  set (s0 := {| disk := d; log := [ReadCsv (cfg_expected_csv icici_cfg);
                                  OpenPdf (cfg_sample_pdf icici_cfg)] |}).
  change (py_range 1 (default 3 (cfg_max_attempts icici_cfg) + 1)) with [1; 2; 3].
  change (default 3 (cfg_max_attempts icici_cfg)) with 3.
  assert (Hnd : NoDup [1; 2; 3]).
  { repeat constructor; intros H; repeat (apply elem_of_cons in H as [H|H]; [lia|]);
      inversion H. }
  destruct (attempts_more w "icici" icici_cfg 3 headers
              ltac:(discriminate) ltac:(discriminate) ltac:(discriminate)
              ltac:(rewrite Hdoc; eauto) [1; 2; 3] Hnd p s0) as (evs & Hlog & Hm).
  destruct (attempts_facts w "icici" icici_cfg 3 headers
              ltac:(discriminate) ltac:(discriminate) ltac:(rewrite Hdoc; eauto)
              [1; 2; 3] Hnd p s0) as (evs' & Hf).
  assert (Esame : evs' = evs).
  { destruct Hf as (Hl & _). rewrite Hlog in Hl. apply app_inv_head in Hl.
    symmetry. exact Hl. }
  subst evs'.
  destruct (attempts w "icici" icici_cfg 3 headers [1; 2; 3] p s0) as [r s'].
  cbn [fst snd] in *. subst s0. cbn [log disk] in *.
  destruct Hf as (_ & _ & _ & Hsite & _).
  destruct Hm as ((k & Hk) & Hfirst & Hev & (Hp & Hc & Ht) & Hbad & Hend & Hnoval
                  & Hfb & Hq & Hsyn & Hrep).
  destruct (Hfirst 1 [2; 3] eq_refl) as (st1 & tl1 & Eevs).
  assert (Hne : evs <> []) by (rewrite Eevs; discriminate).
  unfold run_more. change (default 3 (cfg_max_attempts icici_cfg)) with 3.
  change (py_range 1 (3 + 1)) with [1; 2; 3].
  cbn zeta. rewrite Hlog.
  rewrite attempt_sites_app, !count_app.
  change (attempt_sites [ReadCsv _; OpenPdf _]) with (@nil Z).
  change (count is_post [ReadCsv _; OpenPdf _]) with 0%nat.
  change (count fb_post [ReadCsv _; OpenPdf _]) with 0%nat.
  change (count is_compile [ReadCsv _; OpenPdf _]) with 0%nat.
  change (count is_tests [ReadCsv _; OpenPdf _]) with 0%nat.
  change (count is_fallback [ReadCsv _; OpenPdf _]) with 0%nat.
  cbn [Nat.add app].
  change (ReadCsv (cfg_expected_csv icici_cfg) :: OpenPdf (cfg_sample_pdf icici_cfg) :: evs)
    with ([ReadCsv (cfg_expected_csv icici_cfg); OpenPdf (cfg_sample_pdf icici_cfg)] ++ evs).
  rewrite last_passes_app, last_app_nonempty by exact Hne.
  assert (Hsplit : forall e, In e ([ReadCsv (cfg_expected_csv icici_cfg);
                                     OpenPdf (cfg_sample_pdf icici_cfg)] ++ evs) ->
                             ~ (exists p0, e = ReadCsv p0) -> ~ (exists p0, e = OpenPdf p0) ->
                             In e evs).
  { intros e [<- | [<- | H]] H1 H2; [exfalso; eauto | exfalso; eauto | exact H]. }
  split; [exists k; exact Hk|].
  split; [apply Forall_app; split; [repeat constructor | exact Hev]|].
  split; [split; [exact Hp | split; assumption]|].
  split.
  { intros s1 m sp up st Hin Hst. apply Hbad; [|exact Hst].
    apply Hsplit; [exact Hin | intros [? E]; discriminate E | intros [? E]; discriminate E]. }
  split.
  { destruct Hend as [Hl | [Hl Hr]]; [left; exact Hl|]. right. split; [exact Hl|].
    destruct Hr as [[v Hv] | [Hr | [(st & b & Hr & _) | He]]].
    - exfalso. apply (Hnoval ltac:(simpl; auto) v Hv).
    - left. exact Hr.
    - right. left. eexists. exact Hr.
    - right. right. apply (ended_in_candidate_app _ _ _ []). exact He. }
  split.
  { intros Hcnt. destruct (Hfb Hcnt) as [d' Hd]. exists d'. apply in_or_app. right. exact Hd. }
  split.
  { intros c Hin. destruct (Hq c) as [e He].
    - apply Hsplit; [exact Hin | intros [? E]; discriminate E | intros [? E]; discriminate E].
    - exists e. apply in_or_app. right. exact He. }
  split.
  { intros a c e Hin Ha.
    assert (Hin' : In (Compile (Attempt a) c (Some e)) evs).
    { apply Hsplit; [exact Hin | intros [? E]; discriminate E | intros [? E]; discriminate E]. }
    pose proof (site_of_in _ _ _ Hsite Hin') as Hs. simpl in Hs.
    destruct Hs as [<- | [<- | [<- | []]]]; [| |contradiction].
    - destruct (Hsyn [] 1 2 [3] c e eq_refl Hin' Ha) as (pre & st & post & ->).
      eexists (_ ++ pre), st, post. rewrite <- app_assoc. reflexivity.
    - destruct (Hsyn [1] 2 3 [] c e eq_refl Hin' Ha) as (pre & st & post & ->).
      eexists (_ ++ pre), st, post. rewrite <- app_assoc. reflexivity. }
  split.
  { intros a d' Hin Ha.
    assert (Hin' : In (RunTests (Attempt a) d' false) evs).
    { apply Hsplit; [exact Hin | intros [? E]; discriminate E | intros [? E]; discriminate E]. }
    pose proof (site_of_in _ _ _ Hsite Hin') as Hs. simpl in Hs.
    destruct Hs as [<- | [<- | [<- | []]]]; [| |contradiction].
    - destruct (Hrep [] 1 2 [3] d' eq_refl Hin' Ha)
        as (pre & post & code & -> & Hcode & Hcases).
      eexists (_ ++ pre), post, code.
      split; [rewrite <- app_assoc; reflexivity|]. split; [exact Hcode|].
      destruct Hcases as [(m & st & Hpost) | (status & Epost & Hload & Hr)].
      + left. exists m, st. exact Hpost.
      + right. exists status. split; [exact Epost|]. split; [|exact Hr].
        rewrite <- app_assoc. exact Hload.
    - destruct (Hrep [1] 2 3 [] d' eq_refl Hin' Ha)
        as (pre & post & code & -> & Hcode & Hcases).
      eexists (_ ++ pre), post, code.
      split; [rewrite <- app_assoc; reflexivity|]. split; [exact Hcode|].
      destruct Hcases as [(m & st & Hpost) | (status & Epost & Hload & Hr)].
      + left. exists m, st. exact Hpost.
      + right. exists status. split; [exact Epost|]. split; [|exact Hr].
        rewrite <- app_assoc. exact Hload. }
  intros headers' doc' _ E1 E2. rewrite Ecsv in E1. rewrite Hdoc in E2.
  injection E1 as <-. injection E2 as <-.
  exists st1, tl1. rewrite Eevs. reflexivity.
Qed.

End RunMore.




(** X13. The requests of the loop are numbered 1, 2, ... in this order, an
    initial part of [range(1, max_attempts + 1)] with no iteration asked
    twice; the requests of a run are these and at most one by the
    fallback, so at most [max_attempts + 1]; there are no more syntax
    checks than requests and no more test runs than syntax checks. *)
Theorem X13_run_request_budget (w : world) (target : string) (d : gmap string text)
    (cfg : bank_cfg) (Hcfg : BANK_CONFIG !! target = Some cfg) :
  let tr := log (run w target d).2 in
  let max_attempts := default 3 (cfg_max_attempts cfg) in
  (exists k, attempt_sites tr = take k (py_range 1 (max_attempts + 1)))
  /\ count is_post tr = (length (attempt_sites tr) + count fb_post tr)%nat
  /\ (count is_post tr <= Z.to_nat max_attempts + 1)%nat
  /\ (count is_compile tr <= count is_post tr)%nat
  /\ (count is_tests tr <= count is_compile tr)%nat.
Proof.
  intros tr max_attempts.
  destruct (run_has_more w target cfg d Hcfg) as ((k & Hk) & _ & (Hp & Hc & Ht) & _).
  destruct (run_has_facts w target cfg d Hcfg) as (_ & _ & (Hfb & _) & _).
  fold tr in Hk, Hp, Hc, Ht, Hfb. fold max_attempts in Hk.
  split; [exists k; exact Hk|]. split; [exact Hp|]. split; [|split; assumption].
  rewrite Hp, Hk, length_take.
  assert (length (py_range 1 (max_attempts + 1)) = Z.to_nat max_attempts).
  { unfold py_range. rewrite length_map, length_seq. f_equal. lia. }
  lia.
Qed.

Lemma X13_run_request_budget_witness :
  BANK_CONFIG !! "icici"%string = Some icici_cfg
  /\ attempt_sites (log (run world_tests_fail "icici" ∅).2) = [1; 2; 3]
  /\ (count is_post (log (run world_tests_fail "icici" ∅).2) <= 4)%nat.
Proof.
  split; [reflexivity|]. split; [vm_compute; reflexivity|].
  pose proof (X13_run_request_budget world_tests_fail "icici" ∅ icici_cfg eq_refl)
    as (_ & _ & Hle & _).
  exact Hle.
Defined.

(** X14. An answer of the endpoint with a status other than 200 ends the run:
    the request is the last event of the log (it is not retried and
    nothing is compiled, written or tested after it), the run ends with
    the uncaught [RuntimeError] of [call_groq], and the exit status is 1. *)
Theorem X14_run_endpoint_error_is_fatal (w : world) (target : string) (d : gmap string text)
    (s0 : site) (m sp up : text) (st : Z)
    (Hin : In (Post s0 m sp up st) (log (run w target d).2)) (Hst : st <> 200) :
  (exists body, (run w target d).1 = Halt (Uncaught (RuntimeError st body)))
  /\ exit_status (run w target d).1 = 1
  /\ last (log (run w target d).2) = Some (Post s0 m sp up st).
Proof.
  destruct (run_log_known_target _ _ _ _ Hin) as [cfg Hcfg].
  destruct (run_has_more w target cfg d Hcfg) as (_ & _ & _ & Hbad & _).
  destruct (Hbad _ _ _ _ _ Hin Hst) as ((b & Hr) & Hlast).
  split; [exists b; exact Hr|]. split; [rewrite Hr; reflexivity | exact Hlast].
Qed.

Lemma X14_run_endpoint_error_is_fatal_witness :
  exists m sp up,
    In (Post (Attempt 1) m sp up 503) (log (run world_endpoint_down "icici" ∅).2)
    /\ 503 <> 200
    /\ exit_status (run world_endpoint_down "icici" ∅).1 = 1
    /\ count is_post (log (run world_endpoint_down "icici" ∅).2) = 1%nat.
Proof.
  eexists _, _, _.
  assert (H : In (Post (Attempt 1) (GROQ_MODEL world_endpoint_down)
                   (build_initial_prompt world_endpoint_down "icici"
                      [lit "Date"; lit "Balance"]
                      (extract_table_preview one_row_pdf default_samples_per_section)).1
                   (build_initial_prompt world_endpoint_down "icici"
                      [lit "Date"; lit "Balance"]
                      (extract_table_preview one_row_pdf default_samples_per_section)).2
                   503)
                (log (run world_endpoint_down "icici" ∅).2)).
  { apply (nth_error_In _ 2). vm_compute. reflexivity. }
  split; [exact H|]. split; [lia|].
  pose proof (X14_run_endpoint_error_is_fatal world_endpoint_down "icici" ∅ _ _ _ _ 503 H
                ltac:(lia)) as (_ & Hex & _).
  split; [exact Hex | vm_compute; reflexivity].
Defined.




(** X18. Nothing is used before it is validated: code is written to the parser
    path only when it compiles; a test run or a load of the parser module
    happens only when the parser path holds code that compiles, and a test
    run only when the companion test file exists. *)
Theorem X18_run_validates_before_use (w : world) (target : string) (d : gmap string text)
    (cfg : bank_cfg) (Hcfg : BANK_CONFIG !! target = Some cfg) :
  let tr := log (run w target d).2 in
  let pp := cfg_parser_path cfg in
  (forall code, In (WriteText pp code) tr -> py_compile w code (path_name pp) = None)
  /\ (forall s0 d' passed, In (RunTests s0 d' passed) tr ->
        (exists code, d' !! pp = Some code /\ py_compile w code (path_name pp) = None)
        /\ is_Some (d' !! test_file_of target))
  /\ (forall p content, In (ExecModule p content) tr ->
        exists code, content = Some code /\ py_compile w code (path_name pp) = None).
Proof.
  intros tr pp.
  destruct (run_has_more w target cfg d Hcfg) as (_ & Hmore & _).
  destruct (run_has_facts w target cfg d Hcfg) as (_ & Hok & _).
  fold tr in Hmore, Hok. fold pp in Hok.
  pose proof (proj1 (List.Forall_forall _ _) Hmore) as Hm.
  pose proof (proj1 (List.Forall_forall _ _) Hok) as Ho.
  split; [|split].
  - intros code Hin. specialize (Ho _ Hin). simpl in Ho.
    destruct (bank_config_lookup _ _ Hcfg) as [-> ->].
    destruct Ho as [E | [[E _] | [_ Hc]]]; [discriminate E | discriminate E | exact Hc].
  - intros s0 d' passed Hin. split; [exact (Ho _ Hin) | exact (Hm _ Hin)].
  - intros p content Hin. exact (Ho _ Hin).
Qed.

Lemma X18_run_validates_before_use_witness :
  BANK_CONFIG !! "icici"%string = Some icici_cfg
  /\ (forall code,
        In (WriteText (cfg_parser_path icici_cfg) code)
           (log (run world_first_syntax_error "icici" ∅).2) ->
        py_compile world_first_syntax_error code
          (path_name (cfg_parser_path icici_cfg)) = None).
Proof.
  split; [reflexivity|].
  pose proof (X18_run_validates_before_use world_first_syntax_error "icici" ∅ icici_cfg eq_refl)
    as (Hw & _).
  exact Hw.
Defined.

(** X19. When the expected CSV or the sample PDF cannot be read, the run ends
    with that exception, uncaught (exit status 1), before any request is
    sent to the endpoint, and the disk is unchanged. *)
Theorem X19_run_fixture_error (w : world) (target : string) (d : gmap string text)
    (cfg : bank_cfg) (Hcfg : BANK_CONFIG !! target = Some cfg)
    (Hkey : api_key_missing w = false)
    (H : read_csv_columns w (cfg_expected_csv cfg) = None
         \/ open_pdf w (cfg_sample_pdf cfg) = None) :
  (exists path, (run w target d).1 = Halt (Uncaught (FixtureError path))
                /\ (path = cfg_expected_csv cfg \/ path = cfg_sample_pdf cfg))
  /\ exit_status (run w target d).1 = 1
  /\ count is_post (log (run w target d).2) = 0%nat
  /\ disk (run w target d).2 = d.
Proof.
  unfold run, script. rewrite Hkey. unfold main, main_with. rewrite Hcfg.
  unfold load_expected_headers, open_sample, bind, emit, ret, raise. cbn [disk log app].
  destruct (read_csv_columns w (cfg_expected_csv cfg)) as [headers|] eqn:Ecsv.
  - destruct H as [H|H]; [discriminate H|]. rewrite H. cbn.
    split; [eexists; split; [reflexivity | right; reflexivity]|]. repeat split.
  - cbn. split; [eexists; split; [reflexivity | left; reflexivity]|]. repeat split.
Qed.

Lemma X19_run_fixture_error_witness :
  BANK_CONFIG !! "icici"%string = Some icici_cfg
  /\ api_key_missing world_no_csv = false
  /\ exit_status (run world_no_csv "icici" ∅).1 = 1
  /\ count is_post (log (run world_no_csv "icici" ∅).2) = 0%nat.
Proof.
  split; [reflexivity|]. split; [reflexivity|].
  pose proof (X19_run_fixture_error world_no_csv "icici" ∅ icici_cfg eq_refl eq_refl
                (or_introl eq_refl)) as (_ & Hex & Hposts & _).
  split; [exact Hex | exact Hposts].
Defined.

(** X20. A syntax error in the candidate of an iteration that is not the last
    one is followed at once by the request of the next iteration, whose
    system prompt is the syntax-fix prompt naming that error and whose
    user prompt is the rejected code: the candidate is not written to
    disk and no test runs in between. *)
Theorem X20_run_syntax_error_feeds_next_request (w : world) (target : string)
    (d : gmap string text) (cfg : bank_cfg) (a : Z) (code e : text)
    (Hcfg : BANK_CONFIG !! target = Some cfg)
    (Hin : In (Compile (Attempt a) code (Some e)) (log (run w target d).2))
    (Ha : a <> default 3 (cfg_max_attempts cfg)) :
  exists pre st post,
    log (run w target d).2
    = pre ++ Compile (Attempt a) code (Some e)
          :: Post (Attempt (a + 1)) (GROQ_MODEL w) (syntax_fix_prompt e) code st :: post.
Proof.
  destruct (run_has_more w target cfg d Hcfg) as (_ & _ & _ & _ & _ & _ & _ & Hsyn & _).
  exact (Hsyn a code e Hin Ha).
Qed.

Lemma X20_run_syntax_error_feeds_next_request_witness :
  BANK_CONFIG !! "icici"%string = Some icici_cfg
  /\ In (Compile (Attempt 1) (lit "def parse(:") (Some (lit "invalid syntax")))
        (log (run world_first_syntax_error "icici" ∅).2)
  /\ 1 <> default 3 (cfg_max_attempts icici_cfg)
  /\ exists pre st post,
       log (run world_first_syntax_error "icici" ∅).2
       = pre ++ Compile (Attempt 1) (lit "def parse(:") (Some (lit "invalid syntax"))
             :: Post (Attempt (1 + 1)) (GROQ_MODEL world_first_syntax_error)
                  (syntax_fix_prompt (lit "invalid syntax")) (lit "def parse(:") st :: post.
Proof.
  assert (H : In (Compile (Attempt 1) (lit "def parse(:") (Some (lit "invalid syntax")))
                (log (run world_first_syntax_error "icici" ∅).2)).
  { apply (nth_error_In _ 3). vm_compute. reflexivity. }
  split; [reflexivity|]. split; [exact H|]. split; [discriminate|].
  exact (X20_run_syntax_error_feeds_next_request world_first_syntax_error "icici" ∅ icici_cfg
           1 _ _ eq_refl H ltac:(discriminate)).
Defined.

(** X21. A failed test run in an iteration that is not the last one is
    followed by the request of the next iteration, and that request
    carries the repair prompt built from the code stored at the parser
    path when the tests ran and from the output of that very test run;
    unless the candidate, loaded to extract the mismatches, ends the
    process itself: then that load is the only event after the test run
    and the run ends with the status the candidate chose. *)
Theorem X21_run_test_failure_feeds_next_request (w : world) (target : string)
    (d d' : gmap string text) (cfg : bank_cfg) (a : Z)
    (Hcfg : BANK_CONFIG !! target = Some cfg)
    (Hin : In (RunTests (Attempt a) d' false) (log (run w target d).2))
    (Ha : a <> default 3 (cfg_max_attempts cfg)) :
  exists pre post code,
    log (run w target d).2 = pre ++ RunTests (Attempt a) d' false :: post
    /\ d' !! cfg_parser_path cfg = Some code
    /\ ((exists m st,
           In (Post (Attempt (a + 1)) (GROQ_MODEL w)
                 (build_repair_prompt w target code (pytest w pre d').2 m).1
                 (build_repair_prompt w target code (pytest w pre d').2 m).2 st)
              post)
        \/ (exists status,
              post = [ExecModule (cfg_parser_path cfg) (d' !! cfg_parser_path cfg)]
              /\ load_and_parse w (pre ++ [RunTests (Attempt a) d' false])
                   (d' !! cfg_parser_path cfg) (cfg_sample_pdf cfg) = Exits status
              /\ (run w target d).1 = Halt (SystemExit status))).
Proof.
  destruct (run_has_more w target cfg d Hcfg) as (_ & _ & _ & _ & _ & _ & _ & _ & Hrep & _).
  exact (Hrep a d' Hin Ha).
Qed.

Lemma X21_run_test_failure_feeds_next_request_witness :
  let d' := replay ∅ (firstn 8 (log (run world_first_tests_fail "icici" ∅).2)) in
  BANK_CONFIG !! "icici"%string = Some icici_cfg
  /\ In (RunTests (Attempt 1) d' false) (log (run world_first_tests_fail "icici" ∅).2)
  /\ exists pre post,
       log (run world_first_tests_fail "icici" ∅).2
       = pre ++ RunTests (Attempt 1) d' false :: post
       /\ (1 <= count is_post post)%nat.
Proof.
  intros d'.
  assert (H : In (RunTests (Attempt 1) d' false)
                (log (run world_first_tests_fail "icici" ∅).2)).
  { apply (nth_error_In _ 8). vm_compute. reflexivity. }
  split; [reflexivity|]. split; [exact H|].
  pose proof (X21_run_test_failure_feeds_next_request world_first_tests_fail "icici" ∅ d'
                icici_cfg 1 eq_refl H ltac:(discriminate))
    as (pre & post & code & Hlog & _ & [(m & st & Hpost) | (status & _ & Hload & _)]).
  - exists pre, post. split; [exact Hlog|].
    apply in_split in Hpost as (l1 & l2 & ->).
    rewrite count_app. unfold count at 2. simpl. lia.
  - discriminate Hload.
Defined.

(** X22. The fallback block runs only after the test run of the last iteration
    failed: if the log holds any event of the fallback, then every
    iteration failed validation, the last one at its test run, and there
    is exactly one fallback request. *)
Theorem X22_run_fallback_only_after_final_test_failure (w : world) (target : string)
    (d : gmap string text) (cfg : bank_cfg)
    (Hcfg : BANK_CONFIG !! target = Some cfg)
    (H : (1 <= count is_fallback (log (run w target d).2))%nat) :
  let tr := log (run w target d).2 in
  let max_attempts := default 3 (cfg_max_attempts cfg) in
  (exists d', In (RunTests (Attempt max_attempts) d' false) tr)
  /\ all_attempts_failed tr max_attempts
  /\ count fb_post tr = 1%nat.
Proof.
  intros tr max_attempts.
  destruct (run_has_more w target cfg d Hcfg) as (_ & _ & _ & _ & _ & Hfb & _).
  destruct (run_has_facts w target cfg d Hcfg) as (_ & _ & _ & Hfinal & _).
  specialize (Hfb H). destruct (Hfinal Hfb) as (Hone & _ & Hall).
  split; [exact Hfb|]. split; [exact Hall|].
  destruct Hone as [Hone | [Hnone _]]; [exact Hone|].
  rewrite Hnone in H. inversion H.
Qed.

Lemma X22_run_fallback_only_after_final_test_failure_witness :
  BANK_CONFIG !! "icici"%string = Some icici_cfg
  /\ (1 <= count is_fallback (log (run world_tests_fail "icici" ∅).2))%nat
  /\ count fb_post (log (run world_tests_fail "icici" ∅).2) = 1%nat.
Proof.
  assert (H : (1 <= count is_fallback (log (run world_tests_fail "icici" ∅).2))%nat).
  { vm_compute. lia. }
  split; [reflexivity|]. split; [exact H|].
  pose proof (X22_run_fallback_only_after_final_test_failure world_tests_fail "icici" ∅
                icici_cfg eq_refl H) as (_ & _ & Hone).
  exact Hone.
Defined.

(** X23. A candidate is written to the quarantine path only after the syntax
    check of the last iteration rejected it; the run then exits with
    status 1. *)
Theorem X23_run_quarantine_only_after_final_syntax_error (w : world) (target : string)
    (d : gmap string text) (cfg : bank_cfg) (code : text)
    (Hcfg : BANK_CONFIG !! target = Some cfg)
    (H : In (WriteText (path_join artifacts_dir (path_name (cfg_parser_path cfg))) code)
            (log (run w target d).2)) :
  (exists e, In (Compile (Attempt (default 3 (cfg_max_attempts cfg))) code (Some e))
               (log (run w target d).2)
             /\ py_compile w code (path_name (cfg_parser_path cfg)) = Some e)
  /\ (run w target d).1 = Halt (SystemExit 1).
Proof.
  destruct (run_has_more w target cfg d Hcfg) as (_ & _ & _ & _ & _ & _ & Hq & _).
  destruct (run_has_facts w target cfg d Hcfg) as (_ & Hok & _ & _ & Hsyn & _).
  destruct (Hq code H) as [e He].
  destruct (Hsyn code e He) as (Hr & _).
  pose proof (proj1 (List.Forall_forall _ _) Hok _ He) as Hc. simpl in Hc.
  split; [exists e; split; [exact He | symmetry; exact Hc] | exact Hr].
Qed.

Lemma X23_run_quarantine_only_after_final_syntax_error_witness :
  BANK_CONFIG !! "icici"%string = Some icici_cfg
  /\ In (WriteText (path_join artifacts_dir (path_name (cfg_parser_path icici_cfg)))
           (lit "import pandas"))
        (log (run world_syntax_errors "icici" ∅).2)
  /\ (run world_syntax_errors "icici" ∅).1 = Halt (SystemExit 1).
Proof.
  assert (H : In (WriteText (path_join artifacts_dir (path_name (cfg_parser_path icici_cfg)))
                   (lit "import pandas"))
                (log (run world_syntax_errors "icici" ∅).2)).
  { apply (nth_error_In _ 9). vm_compute. reflexivity. }
  split; [reflexivity|]. split; [exact H|].
  pose proof (X23_run_quarantine_only_after_final_syntax_error world_syntax_errors "icici" ∅
                icici_cfg _ eq_refl H) as (_ & Hr).
  exact Hr.
Defined.

(** X24. Once the credential is set and both fixtures are read, a run starts
    with reading the CSV header, opening the sample and the request of
    iteration 1, which carries the initial prompts built from the target,
    the CSV header and the preview of the sample with two rows per
    section. *)
Theorem X24_run_first_request (w : world) (target : string) (d : gmap string text)
    (cfg : bank_cfg) (headers : list text) (doc : pdf)
    (Hcfg : BANK_CONFIG !! target = Some cfg)
    (Hkey : api_key_missing w = false)
    (Hcsv : read_csv_columns w (cfg_expected_csv cfg) = Some headers)
    (Hpdf : open_pdf w (cfg_sample_pdf cfg) = Some doc) :
  let p := build_initial_prompt w target headers (extract_table_preview doc 2) in
  exists st rest,
    log (run w target d).2
    = ReadCsv (cfg_expected_csv cfg) :: OpenPdf (cfg_sample_pdf cfg)
      :: Post (Attempt 1) (GROQ_MODEL w) p.1 p.2 st :: rest.
Proof.
  destruct (run_has_more w target cfg d Hcfg) as (_ & _ & _ & _ & _ & _ & _ & _ & _ & Hfirst).
  exact (Hfirst headers doc Hkey Hcsv Hpdf).
Qed.

Lemma X24_run_first_request_witness :
  BANK_CONFIG !! "icici"%string = Some icici_cfg
  /\ api_key_missing world_tests_pass = false
  /\ exists st rest,
       log (run world_tests_pass "icici" ∅).2
       = ReadCsv (cfg_expected_csv icici_cfg) :: OpenPdf (cfg_sample_pdf icici_cfg)
         :: Post (Attempt 1) (GROQ_MODEL world_tests_pass)
              (build_initial_prompt world_tests_pass "icici" [lit "Date"; lit "Balance"]
                 (extract_table_preview one_row_pdf 2)).1
              (build_initial_prompt world_tests_pass "icici" [lit "Date"; lit "Balance"]
                 (extract_table_preview one_row_pdf 2)).2 st :: rest.
Proof.
  split; [reflexivity|]. split; [reflexivity|].
  exact (X24_run_first_request world_tests_pass "icici" ∅ icici_cfg
           [lit "Date"; lit "Balance"] one_row_pdf eq_refl eq_refl eq_refl eq_refl).
Defined.

(** X25. Every request of a run, those of the loop and the one of the fallback
    alike, names the model read from the environment variable GROQ_MODEL,
    or llama-3.3-70b-versatile when the variable is not set. *)
Theorem X25_run_requests_name_the_model (w : world) (target : string) (d : gmap string text)
    (s0 : site) (m sp up : text) (st : Z)
    (Hin : In (Post s0 m sp up st) (log (run w target d).2)) :
  m = GROQ_MODEL w
  /\ (getenv w "GROQ_MODEL" = None -> m = lit "llama-3.3-70b-versatile")
  /\ (forall name, getenv w "GROQ_MODEL" = Some name -> m = name).
Proof.
  destruct (run_log_known_target _ _ _ _ Hin) as [cfg Hcfg].
  destruct (run_has_more w target cfg d Hcfg) as (_ & Hmore & _).
  pose proof (proj1 (List.Forall_forall _ _) Hmore _ Hin) as Hm. simpl in Hm.
  split; [exact Hm|]. rewrite Hm. unfold GROQ_MODEL.
  split; [intros ->; reflexivity | intros name ->; reflexivity].
Qed.

Lemma X25_run_requests_name_the_model_witness :
  exists sp up,
    In (Post Fallback (lit "llama-3.3-70b-versatile") sp up 200)
       (log (run world_tests_fail "icici" ∅).2).
Proof.
  assert (H : exists m sp up, In (Post Fallback m sp up 200)
                                 (log (run world_tests_fail "icici" ∅).2)).
  { eexists _, _, _. apply (nth_error_In _ 26). vm_compute. reflexivity. }
  destruct H as (m & sp & up & H).
  pose proof (X25_run_requests_name_the_model world_tests_fail "icici" ∅ _ _ _ _ _ H)
    as (_ & Hdef & _).
  exists sp, up. rewrite <- (Hdef eq_refl). exact H.
Defined.


(** ** Where the events of a run come from *)

Section BodyOrigin.

Context (w : world) (target : string) (cfg : bank_cfg) (max_attempts : Z)
  (headers : list text).

Hypothesis Hpt : cfg_parser_path cfg <> test_file_of target.
Hypothesis Hat :
  path_join artifacts_dir (path_name (cfg_parser_path cfg)) <> test_file_of target.
Hypothesis Hpdf : is_Some (open_pdf w (cfg_sample_pdf cfg)).

Lemma attempt_body_origin (a : Z) (p : text * text) (s : state) :
  exists evs,
    log (attempt_body w target cfg max_attempts headers a p s).2 = log s ++ evs
    /\ Forall (ev_origin w target cfg headers) evs
    /\ checks_sanitized w (log s) evs
    /\ (exists s0 m sp up st rest, evs = Post s0 m sp up st :: rest).
Proof.
  destruct Hpdf as [doc Hdoc]. destruct s as [d l].
  unfold_body.
  case_paths; try congruence; norm_hyps.
  all: rewrite <- ?app_assoc in *; cbn [app] in *.
  all: eexists; split; [cbn [log]; reflexivity|].
  all: cbn [disk log].
  all: split.
  all: try (repeat (apply List.Forall_cons;
                    [cbn [ev_origin];
                     first [ exact I | reflexivity
                           | solve [eexists; reflexivity]
                           | solve [left; reflexivity]
                           | solve [right; left; reflexivity]
                           | solve [right; right; reflexivity]
                           | solve [left; split; reflexivity]
                           | solve [right; split; [congruence | eexists; reflexivity]]
                           | solve [intros doc' Hd;
                                    match goal with
                                    | H1 : open_pdf _ _ = Some ?q |- _ =>
                                        assert (Eq : doc' = q) by congruence; rewrite Eq;
                                        symmetry; assumption
                                    end] ]|]);
            apply List.Forall_nil).
  all: split; [|do 6 eexists; reflexivity].
  all: try subst z; try subst z0.
  all: intros pre s0 checked r0 post H.
  all: repeat (destruct pre as [|? pre]; cbn [app] in H;
               [ first [ discriminate H
                       | injection H; intros; subst;
                         match goal with
                         | |- exists pre' m sp up, ?pl = _ /\ _ => split_last pl (@nil event)
                         end;
                         do 3 eexists; (split; [reflexivity|]);
                         rewrite ?app_nil_r;
                         match goal with
                         | H1 : endpoint _ _ _ _ _ = _ |- _ => rewrite H1; reflexivity
                         end ]
               | first [ discriminate H | injection H as <- H ] ]).
Qed.

End BodyOrigin.

Section LoopOrigin.

Context (w : world) (target : string) (cfg : bank_cfg) (max_attempts : Z)
  (headers : list text).

Hypothesis Hpt : cfg_parser_path cfg <> test_file_of target.
Hypothesis Hat :
  path_join artifacts_dir (path_name (cfg_parser_path cfg)) <> test_file_of target.
Hypothesis Hpdf : is_Some (open_pdf w (cfg_sample_pdf cfg)).

Lemma checks_sanitized_app (history evs1 evs2 : list event) :
  checks_sanitized w history evs1 -> checks_sanitized w (history ++ evs1) evs2 ->
  starts_with_request evs2 ->
  checks_sanitized w history (evs1 ++ evs2).
Proof.
  intros H1 H2 Hstart pre s0 code r post E.
  apply app_eq_app in E as [l [[E1 E2] | [E1 E2]]].
  - destruct l as [|e l].
    + cbn [app] in E2. rewrite app_nil_r in E1. subst evs1.
      destruct Hstart as [Hs | (s1 & m & sp & up & st & rest & Hs)];
        rewrite Hs in E2; discriminate E2.
    + injection E2 as <- E2. apply (H1 pre s0 code r l). exact E1.
  - destruct (H2 l s0 code r post E2) as (pre' & m & sp & up & -> & Hcode).
    exists (evs1 ++ pre'), m, sp, up. split.
    + rewrite E1, app_assoc. reflexivity.
    + rewrite app_assoc. exact Hcode.
Qed.

Lemma attempts_origin (todo : list Z) :
  forall (p : text * text) (s : state),
  exists evs,
    log (attempts w target cfg max_attempts headers todo p s).2 = log s ++ evs
    /\ Forall (ev_origin w target cfg headers) evs
    /\ checks_sanitized w (log s) evs
    /\ starts_with_request evs.
Proof.
  induction todo as [|a rest IH]; intros p s.
  - exists []. cbn [attempts ret fst snd]. split; [rewrite app_nil_r; reflexivity|].
    split; [apply List.Forall_nil|]. split; [|left; reflexivity].
    intros pre s0 code r post E. destruct pre; discriminate E.
  - destruct (attempt_body_origin w target cfg max_attempts headers Hpt Hat Hpdf a p s)
      as (evs1 & Hlog1 & Hev1 & Hchk1 & Hfirst).
    cbn [attempts]. unfold bind.
    destruct (attempt_body w target cfg max_attempts headers a p s) as [[v|h] s1];
      cbn [fst snd] in *.
    + destruct (IH v s1) as (evs2 & Hlog2 & Hev2 & Hchk2 & Hstart2).
      exists (evs1 ++ evs2).
      split; [rewrite Hlog2, Hlog1, app_assoc; reflexivity|].
      split; [apply Forall_app; split; assumption|].
      split.
      * apply checks_sanitized_app; [exact Hchk1 | rewrite <- Hlog1; exact Hchk2 | exact Hstart2].
      * right. destruct Hfirst as (s0 & m & sp & up & st & tl & ->).
        exists s0, m, sp, up, st, (tl ++ evs2). reflexivity.
    + exists evs1. split; [exact Hlog1|]. split; [exact Hev1|]. split; [exact Hchk1|].
      right. exact Hfirst.
Qed.

End LoopOrigin.

Lemma run_has_origin (w : world) (target : string) (cfg : bank_cfg) (d : gmap string text)
    (headers : list text) :
  BANK_CONFIG !! target = Some cfg ->
  (forall h, read_csv_columns w (cfg_expected_csv cfg) = Some h -> h = headers) ->
  Forall (ev_origin w target cfg headers) (log (run w target d).2)
  /\ checks_sanitized w [] (log (run w target d).2).
Proof.
  intros Hcfg Hh. destruct (bank_config_lookup _ _ Hcfg) as [-> ->].
  assert (Hnone : forall evs,
            Forall (fun e => match e with ReadCsv _ | OpenPdf _ => True | _ => False end) evs ->
            checks_sanitized w [] evs).
  { intros evs Hevs pre s0 code r post E. rewrite E in Hevs.
    apply Forall_app in Hevs as [_ Hevs]. inversion Hevs as [|? ? Hc _]. destruct Hc. }
  unfold run, script. destruct (api_key_missing w) eqn:Ekey.
  { cbn [snd log]. split; [apply List.Forall_nil | apply Hnone, List.Forall_nil]. }
  unfold main, main_with. rewrite Hcfg.
  unfold load_expected_headers, open_sample, bind, emit, ret, raise. cbn [disk log app].
  destruct (read_csv_columns w (cfg_expected_csv icici_cfg)) as [hs|] eqn:Ecsv.
  2:{ cbn [snd log]. split.
      - apply List.Forall_cons; [reflexivity | apply List.Forall_nil].
      - apply Hnone. apply List.Forall_cons; [exact I | apply List.Forall_nil]. }
  rewrite (Hh hs eq_refl).
  destruct (open_pdf w (cfg_sample_pdf icici_cfg)) as [doc|] eqn:Hdoc.
  2:{ cbn [snd log]. split.
      - repeat (apply List.Forall_cons; [reflexivity|]). apply List.Forall_nil.
      - apply Hnone. repeat (apply List.Forall_cons; [exact I|]). apply List.Forall_nil. }
  cbn [disk log app].
  set (p := build_initial_prompt w "icici" headers
              (extract_table_preview doc default_samples_per_section)).
  set (s0 := {| disk := d; log := [ReadCsv (cfg_expected_csv icici_cfg);
                                  OpenPdf (cfg_sample_pdf icici_cfg)] |}).
  destruct (attempts_origin w "icici" icici_cfg (default 3 (cfg_max_attempts icici_cfg))
              headers ltac:(discriminate) ltac:(discriminate) ltac:(rewrite Hdoc; eauto)
              (py_range 1 (default 3 (cfg_max_attempts icici_cfg) + 1)) p s0)
    as (evs & Hlog & Hev & Hchk & Hstart).
  rewrite Hlog. subst s0. cbn [log] in *. split.
  - apply Forall_app. split; [|exact Hev].
    repeat (apply List.Forall_cons; [reflexivity|]). apply List.Forall_nil.
  - apply checks_sanitized_app; [|exact Hchk | exact Hstart].
    apply Hnone. repeat (apply List.Forall_cons; [exact I|]). apply List.Forall_nil.
Qed.

Lemma run_headers (w : world) (cfg : bank_cfg) :
  forall h, read_csv_columns w (cfg_expected_csv cfg) = Some h ->
            h = default [] (read_csv_columns w (cfg_expected_csv cfg)).
Proof. intros h ->. reflexivity. Qed.




(** X28. Every syntax check of a run comes right after a request of the
    same site answered with status 200, and what it checks is the answer
    to that request passed through the sanitizer; its outcome is what
    [compile] says of that code under the name of the parser file. *)
Theorem X28_run_checks_the_sanitized_answer (w : world) (target : string)
    (d : gmap string text) (pre post : list event) (s0 : site) (code : text)
    (r : option text)
    (H : log (run w target d).2 = pre ++ Compile s0 code r :: post) :
  (exists pre' m sp up,
      pre = pre' ++ [Post s0 m sp up 200]
      /\ code = strip_code_fences (endpoint w pre' m sp up).2)
  /\ exists cfg, BANK_CONFIG !! target = Some cfg
                 /\ r = py_compile w code (path_name (cfg_parser_path cfg)).
Proof.
  assert (Hin : In (Compile s0 code r) (log (run w target d).2)).
  { rewrite H. apply in_or_app. right. left. reflexivity. }
  destruct (run_log_known_target _ _ _ _ Hin) as [cfg Hcfg].
  destruct (run_has_origin w target cfg d _ Hcfg (run_headers w cfg)) as (_ & Hchk).
  destruct (run_has_facts w target cfg d Hcfg) as (_ & Hok & _).
  split; [exact (Hchk pre s0 code r post H)|].
  exists cfg. split; [exact Hcfg|].
  exact (proj1 (List.Forall_forall _ _) Hok _ Hin).
Qed.

Lemma X28_run_checks_the_sanitized_answer_witness :
  exists pre post,
    log (run world_first_syntax_error "icici" ∅).2
    = pre ++ Compile (Attempt 1) (lit "def parse(:") (Some (lit "invalid syntax")) :: post
    /\ exists pre' m sp up,
         pre = pre' ++ [Post (Attempt 1) m sp up 200]
         /\ lit "def parse(:"
            = strip_code_fences (endpoint world_first_syntax_error pre' m sp up).2.
Proof.
  exists (firstn 3 (log (run world_first_syntax_error "icici" ∅).2)),
         (skipn 4 (log (run world_first_syntax_error "icici" ∅).2)).
  assert (H : log (run world_first_syntax_error "icici" ∅).2
              = firstn 3 (log (run world_first_syntax_error "icici" ∅).2)
                ++ Compile (Attempt 1) (lit "def parse(:") (Some (lit "invalid syntax"))
                   :: skipn 4 (log (run world_first_syntax_error "icici" ∅).2)).
  { vm_compute. reflexivity. }
  split; [exact H|].
  pose proof (X28_run_checks_the_sanitized_answer world_first_syntax_error "icici" ∅
                _ _ _ _ _ H) as (Hpre & _).
  exact Hpre.
Defined.

(** X29. The request of the fallback carries the fallback prompts: the
    system prompt names the header of the expected CSV, and the user
    prompt holds the target and the first 5000 characters of the text of
    the pages of the sample, joined by blank lines (the empty text for a
    page without text). *)
Theorem X29_run_fallback_request (w : world) (target : string) (d : gmap string text)
    (cfg : bank_cfg) (headers : list text) (doc : pdf) (m sp up : text) (st : Z)
    (Hcfg : BANK_CONFIG !! target = Some cfg)
    (Hcsv : read_csv_columns w (cfg_expected_csv cfg) = Some headers)
    (Hpdf : open_pdf w (cfg_sample_pdf cfg) = Some doc)
    (Hin : In (Post Fallback m sp up st) (log (run w target d).2)) :
  (sp, up) = fallback_prompt w target headers
               (join (nl ++ nl) (map (fun pg => default [] (extract_text pg)) doc)).
Proof.
  destruct (run_has_origin w target cfg d headers Hcfg) as (Hev & _).
  { intros h Hh. rewrite Hcsv in Hh. injection Hh as <-. reflexivity. }
  pose proof (proj1 (List.Forall_forall _ _) Hev _ Hin) as Ho. cbn [ev_origin] in Ho.
  exact (Ho doc Hpdf).
Qed.

Lemma X29_run_fallback_request_witness :
  exists m st,
    In (Post Fallback m
          (fallback_prompt world_tests_fail "icici" [lit "Date"; lit "Balance"] []).1
          (fallback_prompt world_tests_fail "icici" [lit "Date"; lit "Balance"] []).2 st)
       (log (run world_tests_fail "icici" ∅).2).
Proof.
  assert (H : exists m sp up st, In (Post Fallback m sp up st)
                                    (log (run world_tests_fail "icici" ∅).2)).
  { eexists _, _, _, _. apply (nth_error_In _ 26). vm_compute. reflexivity. }
  destruct H as (m & sp & up & st & H).
  pose proof (X29_run_fallback_request world_tests_fail "icici" ∅ icici_cfg
                [lit "Date"; lit "Balance"] one_row_pdf m sp up st
                eq_refl eq_refl eq_refl H) as E.
  exists m, st.
  change (fallback_prompt world_tests_fail "icici" [lit "Date"; lit "Balance"] [])
    with (fallback_prompt world_tests_fail "icici" [lit "Date"; lit "Balance"]
            (join (nl ++ nl) (map (fun pg => default [] (extract_text pg)) one_row_pdf))).
  rewrite <- E. exact H.
Defined.

